(** * claude-switch: the configuration state machine of the provider switcher

    A shallow embedding of [main.go] (version 2.1.0): provider detection,
    token classification and masking, the JSON documents kept in the
    configuration directory, the backup slot, and the two switch
    transitions.  Go strings are byte strings ([string]); a Go
    [map[string]string] is a [gmap string string] behind an [option] that
    keeps the nil map apart from the empty one. *)

From Stdlib Require Import Ascii String.
From stdpp Require Import base option list strings gmap fin_maps sorting.

Set Warnings "-register-all".
Set Default Proof Using "Type".

(** ** Package [strings] *)

Module strings.

(** [strings.HasPrefix(s, prefix)]. *)
Fixpoint HasPrefix (s prefix : string) {struct prefix} : bool :=
  match prefix, s with
  | EmptyString, _ => true
  | String _ _, EmptyString => false
  | String p prefix', String c s' =>
      if Ascii.eqb c p then HasPrefix s' prefix' else false
  end.

(** [strings.Contains(s, substr)]: [substr] starts at some offset of [s]. *)
Fixpoint Contains (s substr : string) : bool :=
  HasPrefix s substr ||
  match s with
  | EmptyString => false
  | String _ s' => Contains s' substr
  end.

(** [strings.Count(s, sep)] for a one-byte separator. *)
Fixpoint Count (s : string) (sep : ascii) : nat :=
  match s with
  | EmptyString => 0
  | String c s' => (if Ascii.eqb c sep then 1 else 0) + Count s' sep
  end.

End strings.

(** Slice expressions [s[:n]] and [s[n:]] on a string, for [n <= len(s)]
    (Go panics beyond that; the callers below stay in range). *)
Fixpoint slice_to (n : nat) (s : string) : string :=
  match n, s with
  | S n', String c s' => String c (slice_to n' s')
  | _, _ => EmptyString
  end.

Fixpoint slice_from (n : nat) (s : string) : string :=
  match n, s with
  | S n', String _ s' => slice_from n' s'
  | _, _ => s
  end.

(** ** Go maps *)

(** A [map[string]string] value: [None] is the nil map. *)
Definition gomap : Type := option (gmap string string).

(** [make(map[string]string)] *)
Definition make : gomap := Some ∅.

(** [len(m)] *)
Definition len (m : gomap) : nat :=
  match m with
  | None => 0
  | Some g => size g
  end.

(** [m[k]]: the zero value when the key is missing or the map is nil. *)
Definition index (m : gomap) (k : string) : string :=
  match m with
  | None => ""
  | Some g => default "" (g !! k)
  end.

(** [delete(m, k)]: a no-op on the nil map. *)
Definition godelete (m : gomap) (k : string) : gomap :=
  match m with
  | None => None
  | Some g => Some (delete k g)
  end.

(** ** Constants and types of the program *)

Definition Version : string := "2.1.0".

Definition ProviderAnthropic : string := "anthropic".
Definition ProviderZAI : string := "zai".
Definition ProviderCustom : string := "custom".
Definition ProviderUnknown : string := "unknown".

Record Config := mkConfig { Env : gomap }.

Record BackupMetadata := mkBackupMetadata {
  Provider : string;
  CreatedAt : string;
  MetaVersion : string
}.

Record BackupConfig := mkBackupConfig {
  Metadata : BackupMetadata;
  BackupEnv : gomap
}.

Record Application := mkApplication {
  settingsFile : string;
  backupFile : string;
  configDir : string
}.

Definition zaiEnvKeys : list string :=
  [ "ANTHROPIC_BASE_URL";
    "API_TIMEOUT_MS";
    "ANTHROPIC_DEFAULT_OPUS_MODEL";
    "ANTHROPIC_DEFAULT_SONNET_MODEL";
    "ANTHROPIC_DEFAULT_HAIKU_MODEL" ].

(** [isZAIKey]: the linear scan over [zaiEnvKeys]. *)
Fixpoint isZAIKey_in (keys : list string) (key : string) : bool :=
  match keys with
  | [] => false
  | zaiKey :: rest => if String.eqb key zaiKey then true else isZAIKey_in rest key
  end.

Definition isZAIKey (key : string) : bool := isZAIKey_in zaiEnvKeys key.

(** ** Provider detection *)

(** [detectProvider]; the argument is a [*Config], [None] the nil pointer. *)
Definition detectProvider (config : option Config) : string :=
  match config with
  | None => ProviderUnknown
  | Some c =>
      if Nat.eqb (len (Env c)) 0 then ProviderUnknown
      else
        let baseURL := index (Env c) "ANTHROPIC_BASE_URL" in
        if strings.Contains baseURL "z.ai" then ProviderZAI
        else if String.eqb baseURL "" then ProviderAnthropic
        else ProviderCustom
  end.

Definition isAnthropicConfig (config : option Config) : bool :=
  String.eqb (detectProvider config) ProviderAnthropic.

Definition isZAIConfig (config : option Config) : bool :=
  String.eqb (detectProvider config) ProviderZAI.

(** ** Token masking and classification *)

Definition maskToken (token : string) : string :=
  if Nat.leb (String.length token) 8 then "********"
  else slice_to 4 token +:+ "..." +:+ slice_from (String.length token - 4) token.

Inductive TokenType := TokenTypeZAI | TokenTypeAnthropic | TokenTypeUnknown.

Definition detectTokenType (token : string) : TokenType :=
  if String.eqb token "" then TokenTypeUnknown
  else if strings.HasPrefix token "sk-" || strings.HasPrefix token "zai-"
  then TokenTypeZAI
  else if Nat.leb 2 (strings.Count token ".") && Nat.ltb 100 (String.length token)
  then TokenTypeAnthropic
  else if Nat.ltb 200 (String.length token) then TokenTypeAnthropic
  else if Nat.ltb (String.length token) 100 then TokenTypeZAI
  else TokenTypeUnknown.

(** ** Errors *)

Inductive error :=
  | ErrNotExist (path : string)
      (** the [*PathError] of a missing file: [os.IsNotExist] holds *)
  | ErrFault (op path : string)
      (** any other failure of the system call [op] on [path] *)
  | SyntaxError
      (** [*json.SyntaxError]: the bytes are not a JSON text *)
  | UnmarshalTypeError (value field : string)
      (** [*json.UnmarshalTypeError]: a JSON [value] met a Go field of
          another type *)
  | EOF
  | errorString (msg : string)
      (** [fmt.Errorf] without an operand *)
  | wrapError (msg : string) (err : error).
      (** [fmt.Errorf("msg: %w", err)] *)

(** ** Package [unicode/utf8], as [encoding/json] uses it *)

Module utf8.

(** [RuneError], U+FFFD, in its encoded form. *)
Definition RuneError : string := String "239" (String "191" (String "189" EmptyString)).

Definition between (lo hi : nat) (c : ascii) : bool :=
  Nat.leb lo (nat_of_ascii c) && Nat.leb (nat_of_ascii c) hi.

(** The tables [first] and [acceptRanges]: for a leading byte, the length
    of the encoding it opens and the range its second byte must lie in;
    [None] for a byte that opens none ([xx]).  ASCII bytes are handled
    before the table is consulted. *)
Definition first (c : ascii) : option (nat * (nat * nat)) :=
  if between 194 223 c then Some (2, (128, 191))
  else if between 224 224 c then Some (3, (160, 191))
  else if between 225 236 c then Some (3, (128, 191))
  else if between 237 237 c then Some (3, (128, 159))
  else if between 238 239 c then Some (3, (128, 191))
  else if between 240 240 c then Some (4, (144, 191))
  else if between 241 243 c then Some (4, (128, 191))
  else if between 244 244 c then Some (4, (128, 143))
  else None.

(** [DecodeRuneInString], as far as its callers in [encoding/json] look at
    it: the width of the encoding [s] starts with, or [None] where it
    returns [(RuneError, 1)], on a byte that starts no well-formed
    encoding.  (It is not called on the empty string.) *)
Definition DecodeRuneInString (s : string) : option nat :=
  match s with
  | EmptyString => None
  | String s0 t0 =>
      if Nat.ltb (nat_of_ascii s0) 128 then Some 1
      else
        match first s0 with
        | None => None
        | Some (sz, (lo, hi)) =>
            match t0 with
            | EmptyString => None
            | String s1 t1 =>
                if negb (between lo hi s1) then None
                else if Nat.leb sz 2 then Some 2
                else
                  match t1 with
                  | EmptyString => None
                  | String s2 t2 =>
                      if negb (between 128 191 s2) then None
                      else if Nat.leb sz 3 then Some 3
                      else
                        match t2 with
                        | EmptyString => None
                        | String s3 _ =>
                            if negb (between 128 191 s3) then None else Some 4
                        end
                  end
            end
        end
  end.

(** The string [encoding/json] writes for [s], and reads from the bytes of a
    string literal: each byte that starts no well-formed encoding becomes
    U+FFFD, everything else is kept.  [skip] counts the bytes still owed to
    the encoding under way. *)
Fixpoint replaceInvalidFrom (skip : nat) (s : string) : string :=
  match s with
  | EmptyString => EmptyString
  | String c rest =>
      match skip with
      | S k => String c (replaceInvalidFrom k rest)
      | 0 =>
          match DecodeRuneInString s with
          | Some size => String c (replaceInvalidFrom (size - 1) rest)
          | None => RuneError +:+ replaceInvalidFrom 0 rest
          end
      end
  end.

Definition replaceInvalid (s : string) : string := replaceInvalidFrom 0 s.

(** [utf8.ValidString] *)
Definition ValidString (s : string) : bool := String.eqb (replaceInvalid s) s.

End utf8.

(** ** Package [encoding/json], at the two document types of the program

    File contents are modelled up to JSON syntax: a file either holds a JSON
    text, kept as its value, or bytes the scanner rejects.  Members of an
    object keep their order and may repeat, as in the text.  A string is the
    bytes of its literal with the escapes resolved; the decoder hands them
    over, and the encoder writes a Go string, with every byte that is not
    UTF-8 replaced by U+FFFD.  The escaping and the indentation of the
    encoder lie below this level. *)

Module json.

Inductive value :=
  | JNull
  | JBool (b : bool)
  | JNumber (literal : string)
  | JString (s : string)
  | JArray (elems : list value)
  | JObject (members : list (string * value)).

(** The name [UnmarshalTypeError.Value] gives to a JSON value. *)
Definition kind (j : value) : string :=
  match j with
  | JNull => "null"
  | JBool _ => "bool"
  | JNumber _ => "number"
  | JString _ => "string"
  | JArray _ => "array"
  | JObject _ => "object"
  end.

(** The decoder keeps the earliest type error and goes on. *)
Definition saveError (saved : option error) (err : error) : option error :=
  match saved with
  | None => Some err
  | Some _ => saved
  end.

Definition upper (c : ascii) : ascii :=
  let n := nat_of_ascii c in
  if Nat.leb 97 n && Nat.leb n 122 then ascii_of_nat (n - 32) else c.

(** [foldName]: the key under which a struct field is found when no field
    has the exact name.  ASCII letters are upper-cased; of the other runes
    only U+017F (long s) and U+212A (Kelvin sign) fold to an ASCII letter,
    and they are the only ones that can reach the ASCII field names used
    here. *)
Fixpoint foldName (s : string) : string :=
  match s with
  | EmptyString => EmptyString
  | String c s1 =>
      match s1 with
      | EmptyString => String (upper c) EmptyString
      | String c1 s2 =>
          if Ascii.eqb c "197" && Ascii.eqb c1 "191"
          then String "S" (foldName s2)
          else
            match s2 with
            | EmptyString => String (upper c) (foldName s1)
            | String c2 s3 =>
                if Ascii.eqb c "226" && Ascii.eqb c1 "132" && Ascii.eqb c2 "170"
                then String "K" (foldName s3)
                else String (upper c) (foldName s1)
            end
      end
  end.

(** The field a member key selects: an exact match first, else the first
    field with the same folded name; [None] for an unknown key, which the
    decoder skips. *)
Definition findField (fields : list string) (key : string) : option string :=
  match List.find (String.eqb key) fields with
  | Some f => Some f
  | None => List.find (fun f => String.eqb (foldName f) (foldName key)) fields
  end.

(** A JSON value into a Go [string]: [null] leaves it alone. *)
Definition decodeString (field : string) (j : value) (v : string)
    (saved : option error) : string * option error :=
  match j with
  | JString s => (utf8.replaceInvalid s, saved)
  | JNull => (v, saved)
  | _ => (v, saveError saved (UnmarshalTypeError (kind j) field))
  end.

(** A JSON value into a [map[string]string]: [null] makes it nil, an object
    is added to the map already there (made when nil); an entry whose
    value has the wrong type is stored as the zero string. *)
Definition decodeMapMember (field : string)
    (acc : gmap string string * option error) (member : string * value)
    : gmap string string * option error :=
  let '(s, saved) := decodeString field member.2 "" acc.2 in
  (<[utf8.replaceInvalid member.1 := s]> acc.1, saved).

Definition decodeMap (field : string) (j : value) (v : gomap)
    (saved : option error) : gomap * option error :=
  match j with
  | JNull => (None, saved)
  | JObject members =>
      let r := fold_left (decodeMapMember field) members (default ∅ v, saved) in
      (Some r.1, r.2)
  | _ => (v, saveError saved (UnmarshalTypeError (kind j) field))
  end.

Definition decodeMetadataMember
    (acc : BackupMetadata * option error) (member : string * value)
    : BackupMetadata * option error :=
  let v := acc.1 in
  match findField ["provider"; "created_at"; "version"] (utf8.replaceInvalid member.1) with
  | Some "provider" =>
      let '(s, saved) := decodeString "_metadata.provider" member.2 (Provider v) acc.2 in
      (mkBackupMetadata s (CreatedAt v) (MetaVersion v), saved)
  | Some "created_at" =>
      let '(s, saved) := decodeString "_metadata.created_at" member.2 (CreatedAt v) acc.2 in
      (mkBackupMetadata (Provider v) s (MetaVersion v), saved)
  | Some _ =>
      let '(s, saved) := decodeString "_metadata.version" member.2 (MetaVersion v) acc.2 in
      (mkBackupMetadata (Provider v) (CreatedAt v) s, saved)
  | None => acc
  end.

Definition decodeMetadata (j : value) (v : BackupMetadata)
    (saved : option error) : BackupMetadata * option error :=
  match j with
  | JNull => (v, saved)
  | JObject members => fold_left decodeMetadataMember members (v, saved)
  | _ => (v, saveError saved (UnmarshalTypeError (kind j) "_metadata"))
  end.

Definition decodeConfigMember
    (acc : Config * option error) (member : string * value)
    : Config * option error :=
  match findField ["env"] (utf8.replaceInvalid member.1) with
  | Some _ =>
      let '(m, saved) := decodeMap "env" member.2 (Env acc.1) acc.2 in
      (mkConfig m, saved)
  | None => acc
  end.

Definition decodeConfig (j : value) (v : Config) : Config * option error :=
  match j with
  | JNull => (v, None)
  | JObject members => fold_left decodeConfigMember members (v, None)
  | _ => (v, Some (UnmarshalTypeError (kind j) "Config"))
  end.

Definition decodeBackupConfigMember
    (acc : BackupConfig * option error) (member : string * value)
    : BackupConfig * option error :=
  let v := acc.1 in
  match findField ["_metadata"; "env"] (utf8.replaceInvalid member.1) with
  | Some "_metadata" =>
      let '(md, saved) := decodeMetadata member.2 (Metadata v) acc.2 in
      (mkBackupConfig md (BackupEnv v), saved)
  | Some _ =>
      let '(m, saved) := decodeMap "env" member.2 (BackupEnv v) acc.2 in
      (mkBackupConfig (Metadata v) m, saved)
  | None => acc
  end.

Definition decodeBackupConfig (j : value) (v : BackupConfig)
    : BackupConfig * option error :=
  match j with
  | JNull => (v, None)
  | JObject members => fold_left decodeBackupConfigMember members (v, None)
  | _ => (v, Some (UnmarshalTypeError (kind j) "BackupConfig"))
  end.

(** Object keys of a marshalled map come out sorted, by the keys of the
    map as they are. *)
Definition keyLe (x y : string * string) : Prop := String.leb x.1 y.1 = true.

#[local] Instance keyLe_dec x y : Decision (keyLe x y).
Proof. unfold keyLe. apply _. Defined.

Definition encodeMap (m : gomap) : value :=
  match m with
  | None => JNull
  | Some g =>
      JObject (List.map (fun kv : string * string =>
                           (utf8.replaceInvalid kv.1, JString (utf8.replaceInvalid kv.2)))
                        (merge_sort keyLe (map_to_list g)))
  end.

Definition encodeConfig (c : Config) : value :=
  JObject [("env", encodeMap (Env c))].

Definition encodeBackupConfig (b : BackupConfig) : value :=
  JObject
    [ ("_metadata",
       JObject [ ("provider", JString (utf8.replaceInvalid (Provider (Metadata b))));
                 ("created_at", JString (utf8.replaceInvalid (CreatedAt (Metadata b))));
                 ("version", JString (utf8.replaceInvalid (MetaVersion (Metadata b)))) ]);
      ("env", encodeMap (BackupEnv b)) ].

End json.

(** What a file of the configuration directory holds. *)
Inductive content :=
  | Malformed
  | Document (doc : json.value).

Module Import json_io.

(** [json.Unmarshal(data, &v)] with [v] a fresh (zero) [Config]. *)
Definition UnmarshalConfig (data : content) : Config * option error :=
  match data with
  | Malformed => (mkConfig None, Some SyntaxError)
  | Document j => json.decodeConfig j (mkConfig None)
  end.

(** [json.Unmarshal(data, &v)] with [v] a fresh (zero) [BackupConfig]. *)
Definition UnmarshalBackupConfig (data : content) : BackupConfig * option error :=
  match data with
  | Malformed => (mkBackupConfig (mkBackupMetadata "" "" "") None, Some SyntaxError)
  | Document j =>
      json.decodeBackupConfig j (mkBackupConfig (mkBackupMetadata "" "" "") None)
  end.

(** [json.MarshalIndent]: it has no error case at these two types. *)
Definition MarshalIndentConfig (c : Config) : content * option error :=
  (Document (json.encodeConfig c), None).

Definition MarshalIndentBackupConfig (b : BackupConfig) : content * option error :=
  (Document (json.encodeBackupConfig b), None).

End json_io.

(** ** The configuration directory, the environment and the process *)

(** The files under the configuration directory, by path: the JSON documents
    (settings, backup, their temporary siblings) and the plain-text files
    (the saved token). *)
Record World := mkWorld {
  docs : gmap string content;
  texts : gmap string string
}.

(** How far a failing [os.WriteFile] gets: the open fails and the file is
    as it was; or the file is created or truncated and the write stops
    after [n] bytes; or every byte is written and the close fails. *)
Inductive fault :=
  | OpenFails
  | WriteStops (n : nat)
  | CloseFails.

(** What one invocation finds around it: the environment variables, the
    bytes waiting on standard input, the clock (already formatted as
    RFC 3339), which system calls fail on which path, and how far a
    failing write gets. *)
Record Environ := mkEnviron {
  getenv : string → string;
  input : string;
  now : string;
  statFails : string → bool;
  readFails : string → bool;
  writeFails : string → bool;
  writeFault : string → fault;
  renameFails : string → bool;
  removeFails : string → bool;
  mkdirFails : string → bool
}.

(** A print call, with its format and operand as the source gives them. *)
Inductive operand :=
  | OpString (s : string)
  | OpError (err : error)
  | OpInt (n : nat).

Inductive output :=
  | Println (s : string)
  | Print (s : string)
  | Printf (format : string) (args : list operand)
  | ErrPrintf (format : string) (args : list operand).

Record Proc := mkProc {
  world : World;
  stdout : list output;
  stdin : string
}.

(** Effectful code: it reads the environment and threads the process state. *)
Definition IO (A : Type) : Type := Environ → Proc → A * Proc.

#[global] Instance IO_ret : MRet IO := fun A (a : A) _ p => (a, p).

#[global] Instance IO_bind : MBind IO :=
  fun A B (f : A → IO B) (m : IO A) e p => let '(a, p') := m e p in f a e p'.

Definition say (o : output) : IO unit :=
  fun _ p => (tt, mkProc (world p) (stdout p ++ [o]) (stdin p)).

Definition nl : string := String "010" EmptyString.

(** [bufio.Reader.ReadString('\n')] on standard input: the line with its
    delimiter, or what is left and [io.EOF]. *)
Fixpoint splitLine (s : string) : option (string * string) :=
  match s with
  | EmptyString => None
  | String c s' =>
      if Ascii.eqb c "010" then Some (String c EmptyString, s')
      else match splitLine s' with
           | Some (line, rest) => Some (String c line, rest)
           | None => None
           end
  end.

Definition ReadString : IO (string * option error) :=
  fun _ p =>
    match splitLine (stdin p) with
    | Some (line, rest) => ((line, None), mkProc (world p) (stdout p) rest)
    | None => ((stdin p, Some EOF), mkProc (world p) (stdout p) "")
    end.

(** [time.Now().Format(time.RFC3339)] *)
Definition timeNow : IO string :=
  fun e p => (now e, p).

Module filepath.

(** [filepath.Join] of a clean directory and a file name. *)
Definition Join (dir name : string) : string := dir +:+ "/" +:+ name.

Fixpoint dirOf (path : string) : option string :=
  match path with
  | EmptyString => None
  | String c rest =>
      match dirOf rest with
      | Some d => Some (String c d)
      | None => if Ascii.eqb c "/" then Some EmptyString else None
      end
  end.

(** [filepath.Dir] of a clean path: all but the last element. *)
Definition Dir (path : string) : string :=
  match dirOf path with
  | Some EmptyString => "/"
  | Some d => d
  | None => "."
  end.

End filepath.

Module os.

Definition IsNotExist (err : option error) : bool :=
  match err with
  | Some (ErrNotExist _) => true
  | _ => false
  end.

(** [os.Getenv] *)
Definition Getenv (name : string) : IO string :=
  fun e p => (getenv e name, p).

(** [os.Stat] on the path of a JSON document; the callers keep the error
    only. *)
Definition Stat (path : string) : IO (option error) :=
  fun e p =>
    if statFails e path then (Some (ErrFault "stat" path), p)
    else match docs (world p) !! path with
         | Some _ => (None, p)
         | None => (Some (ErrNotExist path), p)
         end.

(** [os.Stat] on the path of a plain-text file. *)
Definition StatTextFile (path : string) : IO (option error) :=
  fun e p =>
    if statFails e path then (Some (ErrFault "stat" path), p)
    else match texts (world p) !! path with
         | Some _ => (None, p)
         | None => (Some (ErrNotExist path), p)
         end.

(** [os.ReadFile] of a JSON document; no bytes come with an error. *)
Definition ReadFile (path : string) : IO (content * option error) :=
  fun e p =>
    if readFails e path then ((Malformed, Some (ErrFault "open" path)), p)
    else match docs (world p) !! path with
         | Some data => ((data, None), p)
         | None => ((Malformed, Some (ErrNotExist path)), p)
         end.

(** [os.ReadFile] of a plain-text file. *)
Definition ReadTextFile (path : string) : IO (string * option error) :=
  fun e p =>
    if readFails e path then (("", Some (ErrFault "open" path)), p)
    else match texts (world p) !! path with
         | Some data => ((data, None), p)
         | None => (("", Some (ErrNotExist path)), p)
         end.

(** The system call a failing [os.WriteFile] reports. *)
Definition faultOp (f : fault) : string :=
  match f with
  | OpenFails => "open"
  | WriteStops _ => "write"
  | CloseFails => "close"
  end.

(** What a failing [os.WriteFile] leaves of [data] at the path: nothing
    new when the file could not be opened, else what got through. *)
Definition leftover {A} (cut : nat → A → A) (f : fault) (data : A) : option A :=
  match f with
  | OpenFails => None
  | WriteStops n => Some (cut n data)
  | CloseFails => Some data
  end.

(** [os.WriteFile] of a JSON document.  The file is opened with
    [O_CREATE|O_TRUNC], so that a write that fails later leaves it created
    or emptied; a document cut short is not a JSON text. *)
Definition WriteFile (path : string) (data : content) : IO (option error) :=
  fun e p =>
    let put (d : content) :=
      mkProc (mkWorld (<[path := d]> (docs (world p))) (texts (world p)))
             (stdout p) (stdin p) in
    if writeFails e path then
      (Some (ErrFault (faultOp (writeFault e path)) path),
       match leftover (fun _ _ => Malformed) (writeFault e path) data with
       | Some d => put d
       | None => p
       end)
    else (None, put data).

(** [os.WriteFile] of a plain-text file. *)
Definition WriteTextFile (path : string) (data : string) : IO (option error) :=
  fun e p =>
    let put (d : string) :=
      mkProc (mkWorld (docs (world p)) (<[path := d]> (texts (world p))))
             (stdout p) (stdin p) in
    if writeFails e path then
      (Some (ErrFault (faultOp (writeFault e path)) path),
       match leftover slice_to (writeFault e path) data with
       | Some d => put d
       | None => p
       end)
    else (None, put data).

(** [os.Rename] of a JSON document onto another path. *)
Definition Rename (oldpath newpath : string) : IO (option error) :=
  fun e p =>
    if renameFails e oldpath then (Some (ErrFault "rename" oldpath), p)
    else match docs (world p) !! oldpath with
         | Some data =>
             (None, mkProc (mkWorld (<[newpath := data]> (delete oldpath (docs (world p))))
                                    (texts (world p)))
                           (stdout p) (stdin p))
         | None => (Some (ErrNotExist oldpath), p)
         end.

(** [os.Remove] of a JSON document. *)
Definition Remove (path : string) : IO (option error) :=
  fun e p =>
    if removeFails e path then (Some (ErrFault "remove" path), p)
    else match docs (world p) !! path with
         | Some _ =>
             (None, mkProc (mkWorld (delete path (docs (world p))) (texts (world p)))
                           (stdout p) (stdin p))
         | None => (Some (ErrNotExist path), p)
         end.

(** [os.Remove] of a plain-text file. *)
Definition RemoveTextFile (path : string) : IO (option error) :=
  fun e p =>
    if removeFails e path then (Some (ErrFault "remove" path), p)
    else match texts (world p) !! path with
         | Some _ =>
             (None, mkProc (mkWorld (docs (world p)) (delete path (texts (world p))))
                           (stdout p) (stdin p))
         | None => (Some (ErrNotExist path), p)
         end.

(** [os.MkdirAll]; directories themselves are not tracked. *)
Definition MkdirAll (path : string) : IO (option error) :=
  fun e p =>
    if mkdirFails e path then (Some (ErrFault "mkdir" path), p) else (None, p).

End os.

(** [NewApplication], from the home directory [os.UserHomeDir] returned. *)
Definition NewApplication (homeDir : string) : Application :=
  let configDir := filepath.Join homeDir ".claude" in
  {| settingsFile := filepath.Join configDir "settings.json";
     backupFile := filepath.Join configDir "settings.json.backup";
     configDir := configDir |}.

(** ** The program *)

Section Program.

(** [strings.TrimSpace] and [strings.ToLower] follow the Unicode tables;
    the program is read for any pair of functions in their place. *)
Variables TrimSpace ToLower : string → string.

Definition isNil {A} (x : option A) : bool :=
  match x with
  | None => true
  | Some _ => false
  end.

(** [config.Env] through a [*Config].  The program reaches it only behind
    a check that excludes the nil pointer ([err == nil] after [loadConfig],
    or a provider other than unknown). *)
Definition EnvOf (config : option Config) : gomap :=
  match config with
  | Some c => Env c
  | None => None
  end.

Definition loadConfig (app : Application) (filename : string)
    : IO (option Config * option error) :=
  '(data, err) ← os.ReadFile filename;
  match err with
  | Some _ =>
      if os.IsNotExist err then mret (Some (mkConfig make), None)
      else mret (None, err)
  | None =>
      let '(config, err) := UnmarshalConfig data in
      match err with
      | Some e => mret (None, Some (wrapError "failed to parse config" e))
      | None =>
          let config := if isNil (Env config) then mkConfig make else config in
          mret (Some config, None)
      end
  end.

Definition saveConfigAtomic (app : Application) (filename : string)
    (config : Config) : IO (option error) :=
  let dir := filepath.Dir filename in
  err ← os.MkdirAll dir;
  match err with
  | Some e => mret (Some (wrapError "failed to create directory" e))
  | None =>
      let '(data, err) := MarshalIndentConfig config in
      match err with
      | Some e => mret (Some (wrapError "failed to marshal config" e))
      | None =>
          let tempFile := filename +:+ ".tmp" in
          err ← os.WriteFile tempFile data;
          match err with
          | Some e => mret (Some (wrapError "failed to write temp config" e))
          | None =>
              err ← os.Rename tempFile filename;
              match err with
              | Some e =>
                  os.Remove tempFile;;
                  mret (Some (wrapError "failed to save config" e))
              | None => mret None
              end
          end
      end
  end.

Definition promptForToken (app : Application) : IO (string * option error) :=
  token ← os.Getenv "ZAI_AUTH_TOKEN";
  if negb (String.eqb token "") then
    say (Println "📌 Using token from ZAI_AUTH_TOKEN environment variable");;
    mret (token, None)
  else
    let tokenFile := filepath.Join (configDir app) ".zai_token" in
    let prompt : IO (string * option error) :=
      say (Println "⚠️  No API token found");;
      say (Println "");;
      say (Println "Please enter your Z.AI API token:");;
      say (Print "> ");;
      '(token, err) ← ReadString;
      match err with
      | Some e => mret ("", Some (wrapError "failed to read token" e))
      | None =>
          let token := TrimSpace token in
          if String.eqb token "" then
            mret ("", Some (errorString "token cannot be empty"))
          else
            say (Println (nl +:+ "Save token for future use? (y/n)"));;
            say (Print "> ");;
            '(answer, _) ← ReadString;
            let answer := TrimSpace (ToLower answer) in
            (if String.eqb answer "y" || String.eqb answer "yes" then
               err ← os.WriteTextFile tokenFile token;
               match err with
               | Some e => say (Printf ("⚠️  Failed to save token: %v" +:+ nl) [OpError e])
               | None => say (Println "✅ Token saved successfully")
               end
             else mret tt);;
            mret (token, None)
      end in
    '(data, err) ← os.ReadTextFile tokenFile;
    match err with
    | None =>
        let token := TrimSpace data in
        if negb (String.eqb token "") then
          say (Println "📌 Using token from saved token file");;
          mret (token, None)
        else prompt
    | Some _ => prompt
    end.

Definition hasValidAnthropicBackup (app : Application)
    : IO (bool * option BackupConfig * option error) :=
  err ← os.Stat (backupFile app);
  if os.IsNotExist err then mret (false, None, None)
  else
    '(data, err) ← os.ReadFile (backupFile app);
    match err with
    | Some _ => mret (false, None, err)
    | None =>
        let '(backup, err) := UnmarshalBackupConfig data in
        match err with
        | Some _ =>
            let '(oldConfig, err') := UnmarshalConfig data in
            if isNil err' then
              let backup :=
                {| Metadata := mkBackupMetadata ProviderAnthropic "" "";
                   BackupEnv := Env oldConfig |} in
              mret (true, Some backup, None)
            else mret (false, None, err)
        | None =>
            if negb (String.eqb (Provider (Metadata backup)) ProviderAnthropic)
            then mret (false, Some backup, None)
            else mret (true, Some backup, None)
        end
    end.

Definition createBackupWithMetadata (app : Application) (config : option Config)
    (provider : string) : IO (option error) :=
  createdAt ← timeNow;
  let backup :=
    {| Metadata := mkBackupMetadata provider createdAt Version;
       BackupEnv := EnvOf config |} in
  let '(data, err) := MarshalIndentBackupConfig backup in
  match err with
  | Some e => mret (Some (wrapError "failed to marshal backup" e))
  | None =>
      let tempFile := backupFile app +:+ ".tmp" in
      err ← os.WriteFile tempFile data;
      match err with
      | Some e => mret (Some (wrapError "failed to write temp backup" e))
      | None =>
          err ← os.Rename tempFile (backupFile app);
          match err with
          | Some e =>
              os.Remove tempFile;;
              mret (Some (wrapError "failed to save backup" e))
          | None => mret None
          end
      end
  end.

Definition validateTokenForProvider (app : Application) (token provider : string)
    : IO bool :=
  let tokenType := detectTokenType token in
  if String.eqb provider ProviderZAI then
    match tokenType with
    | TokenTypeAnthropic =>
        say (Println "⚠️  Warning: Token looks like an Anthropic web login token");;
        say (Println "   Z.AI typically uses API keys (sk-xxx or zai-xxx format)");;
        mret true
    | _ => mret true
    end
  else if String.eqb provider ProviderAnthropic then
    match tokenType with
    | TokenTypeZAI =>
        say (Println "⚠️  Warning: Token looks like an API key, not a web login token");;
        say (Println "   Anthropic web login uses longer JWT-style tokens");;
        mret true
    | _ => mret true
    end
  else mret true.

(** The Z.AI configuration [switchToZAI] builds around the credential. *)
Definition zaiEnv (token : string) : gmap string string :=
  <["ANTHROPIC_AUTH_TOKEN" := token]>
  (<["ANTHROPIC_BASE_URL" := "https://api.z.ai/api/anthropic"]>
  (<["API_TIMEOUT_MS" := "3000000"]>
  (<["ANTHROPIC_DEFAULT_OPUS_MODEL" := "GLM-4.6"]>
  (<["ANTHROPIC_DEFAULT_SONNET_MODEL" := "GLM-4.6"]>
  (<["ANTHROPIC_DEFAULT_HAIKU_MODEL" := "GLM-4.5-Air"]> ∅))))).

Definition switchToAnthropic (app : Application) : IO (option error) :=
  say (Println "🔄 Switching to Anthropic API...");;
  '(currentConfig, err) ← loadConfig app (settingsFile app);
  if isNil err && isAnthropicConfig currentConfig then
    say (Println "⚠️  Already using Anthropic configuration");;
    say (Println "   Use --status to check current settings");;
    mret None
  else
    '(hasBackup, backup, err) ← hasValidAnthropicBackup app;
    (match err with
     | Some e => say (Printf ("⚠️  Failed to read backup: %v" +:+ nl) [OpError e])
     | None => mret tt
     end);;
    let noBackup : IO (option error) :=
      say (Println "❌ No valid Anthropic backup found!");;
      say (Println "⚠️  Cannot restore Anthropic web login token without backup.");;
      say (Println "   You may need to re-login to Claude Code.");;
      say (Println "");;
      let config := mkConfig make in
      err ← saveConfigAtomic app (settingsFile app) config;
      match err with
      | Some e => mret (Some (wrapError "failed to save config" e))
      | None =>
          say (Println "⚠️  Created empty configuration (re-login required)");;
          mret None
      end in
    match backup with
    | None => noBackup
    | Some backup =>
        if negb hasBackup then noBackup
        else
          (if negb (String.eqb (CreatedAt (Metadata backup)) "") then
             say (Printf ("💾 Restoring from backup created at: %s" +:+ nl)
                         [OpString (CreatedAt (Metadata backup))])
           else mret tt);;
          let restoredConfig :=
            mkConfig (fold_left godelete zaiEnvKeys (BackupEnv backup)) in
          err ← saveConfigAtomic app (settingsFile app) restoredConfig;
          match err with
          | Some e => mret (Some (wrapError "failed to restore config" e))
          | None =>
              say (Println "✅ Anthropic configuration restored from backup");;
              say (Println "   Web login token has been restored");;
              mret None
          end
    end.

(** The second half of [switchToZAI], common to all its branches: obtain
    the credential, check its shape, build the Z.AI configuration and
    persist it. *)
Definition switchToZAI_apply (app : Application) : IO (option error) :=
  '(token, err) ← promptForToken app;
  match err with
  | Some e => mret (Some e)
  | None =>
      validateTokenForProvider app token ProviderZAI;;
      let newConfig := mkConfig (Some (zaiEnv token)) in
      err ← saveConfigAtomic app (settingsFile app) newConfig;
      match err with
      | Some e => mret (Some (wrapError "failed to save Z.AI configuration" e))
      | None =>
          say (Println "✅ Z.AI configuration applied successfully");;
          say (Println "");;
          say (Println "💡 To switch back to Anthropic: claude-switch --anthropic");;
          mret None
      end
  end.

Definition switchToZAI (app : Application) : IO (option error) :=
  say (Println "🔄 Switching to Z.AI API...");;
  '(config, err) ← loadConfig app (settingsFile app);
  match err with
  | Some e => mret (Some (wrapError "failed to load config" e))
  | None =>
      if isZAIConfig config then
        say (Println "⚠️  Already using Z.AI configuration");;
        say (Println "   Use --status to check current settings");;
        mret None
      else
        let currentProvider := detectProvider config in
        if String.eqb currentProvider ProviderAnthropic && Nat.ltb 0 (len (EnvOf config))
        then
          '(hasBackup, existingBackup, err) ← hasValidAnthropicBackup app;
          (match err with
           | Some e =>
               say (Printf ("⚠️  Failed to check existing backup: %v" +:+ nl) [OpError e])
           | None => mret tt
           end);;
          match (if (hasBackup : bool) then existingBackup else None) with
          | Some existingBackup =>
              say (Println "💾 Existing Anthropic backup found (preserving web login token)");;
              (if negb (String.eqb (CreatedAt (Metadata existingBackup)) "") then
                 say (Printf ("   Backed up at: %s" +:+ nl)
                             [OpString (CreatedAt (Metadata existingBackup))])
               else mret tt);;
              switchToZAI_apply app
          | None =>
              err ← createBackupWithMetadata app config ProviderAnthropic;
              match err with
              | Some e =>
                  mret (Some (wrapError
                    "failed to backup Anthropic config (web login token)" e))
              | None =>
                  say (Println "✅ Anthropic configuration backed up (web login token saved)");;
                  switchToZAI_apply app
              end
          end
        else if String.eqb currentProvider ProviderUnknown then
          '(hasBackup, _, _) ← hasValidAnthropicBackup app;
          (if (hasBackup : bool) then say (Println "💾 Using existing Anthropic backup")
           else
             say (Println "⚠️  No Anthropic configuration to backup");;
             say (Println "   You may need to re-login when switching back"));;
          switchToZAI_apply app
        else if String.eqb currentProvider ProviderCustom then
          say (Println "⚠️  Current config is custom provider - not backing up");;
          say (Println "   Anthropic backup will be preserved if it exists");;
          switchToZAI_apply app
        else switchToZAI_apply app
  end.

(** The loop [for key := range config.Env] counting the keys that pass
    [keep]. *)
Definition rangeCount (keep : string → bool) (m : gomap) : nat :=
  match m with
  | None => 0
  | Some g => length (List.filter (fun kv : string * string => keep kv.1) (map_to_list g))
  end.

Definition showStatus (app : Application) : IO (option error) :=
  say (Println "📊 Current Configuration Status");;
  say (Println "");;
  '(config, err) ← loadConfig app (settingsFile app);
  match err with
  | Some e => mret (Some (wrapError "failed to load config" e))
  | None =>
      let env := EnvOf config in
      if Nat.eqb (len env) 0 then
        say (Println "⚠️  No configuration found (empty or missing)");;
        mret None
      else
        let baseURL := index env "ANTHROPIC_BASE_URL" in
        let field (key format : string) : IO unit :=
          let v := index env key in
          if negb (String.eqb v "") then say (Printf format [OpString v]) else mret tt in
        (if strings.Contains baseURL "z.ai" then
           say (Println "┌─────────────────────────────────────┐");;
           say (Println "│  🔗 Provider: Z.AI (GLM Models)     │");;
           say (Println "└─────────────────────────────────────┘");;
           say (Println "");;
           say (Printf ("  Base URL: %s" +:+ nl) [OpString baseURL]);;
           field "ANTHROPIC_DEFAULT_SONNET_MODEL" ("  Sonnet Model: %s" +:+ nl);;
           field "ANTHROPIC_DEFAULT_OPUS_MODEL" ("  Opus Model: %s" +:+ nl);;
           field "ANTHROPIC_DEFAULT_HAIKU_MODEL" ("  Haiku Model: %s" +:+ nl);;
           field "API_TIMEOUT_MS" ("  Timeout: %s ms" +:+ nl);;
           let token := index env "ANTHROPIC_AUTH_TOKEN" in
           if negb (String.eqb token "") then
             let maskedToken := maskToken token in
             let tokenTypeStr :=
               match detectTokenType token with
               | TokenTypeZAI => " (API key)"
               | TokenTypeAnthropic => " (web token - unexpected for Z.AI)"
               | TokenTypeUnknown => ""
               end in
             say (Printf ("  Auth Token: %s%s" +:+ nl)
                         [OpString maskedToken; OpString tokenTypeStr])
           else mret tt
         else if String.eqb baseURL "" then
           say (Println "┌─────────────────────────────────────┐");;
           say (Println "│  🔗 Provider: Anthropic (Default)   │");;
           say (Println "└─────────────────────────────────────┘");;
           say (Println "");;
           say (Println "  Base URL: api.anthropic.com (default)")
         else
           say (Println "┌─────────────────────────────────────┐");;
           say (Println "│  🔗 Provider: Custom                │");;
           say (Println "└─────────────────────────────────────┘");;
           say (Println "");;
           say (Printf ("  Base URL: %s" +:+ nl) [OpString baseURL]));;
        say (Println "");;
        let otherEnvCount :=
          rangeCount (fun key => negb (isZAIKey key) &&
                                 negb (String.eqb key "ANTHROPIC_BASE_URL")) env in
        (if Nat.ltb 0 otherEnvCount then
           say (Printf ("  Other env vars: %d" +:+ nl) [OpInt otherEnvCount])
         else mret tt);;
        '(hasBackup, backup, _) ← hasValidAnthropicBackup app;
        (match (if (hasBackup : bool) then backup else None) with
         | Some backup =>
             say (Println "  💾 Backup: Available (Anthropic)");;
             (if negb (String.eqb (CreatedAt (Metadata backup)) "") then
                say (Printf ("     Created: %s" +:+ nl) [OpString (CreatedAt (Metadata backup))])
              else mret tt);;
             let token := index (BackupEnv backup) "ANTHROPIC_AUTH_TOKEN" in
             if negb (String.eqb token "") then
               match detectTokenType token with
               | TokenTypeAnthropic => say (Println "     Token: Web login token")
               | TokenTypeZAI => say (Println "     Token: API key (unexpected)")
               | TokenTypeUnknown => mret tt
               end
             else mret tt
         | None =>
             err ← os.Stat (backupFile app);
             if isNil err then say (Println "  💾 Backup: Available (unknown format)")
             else say (Println "  💾 Backup: Not found")
         end);;
        let tokenFile := filepath.Join (configDir app) ".zai_token" in
        err ← os.StatTextFile tokenFile;
        (if isNil err then say (Println "  🔑 Saved Token: Available") else mret tt);;
        mret None
  end.

Definition clearToken (app : Application) : IO (option error) :=
  let tokenFile := filepath.Join (configDir app) ".zai_token" in
  err ← os.StatTextFile tokenFile;
  if os.IsNotExist err then
    say (Println "⚠️  No saved token found");;
    mret None
  else
    err ← os.RemoveTextFile tokenFile;
    match err with
    | Some e => mret (Some (wrapError "failed to remove token" e))
    | None =>
        say (Println "✅ Saved token removed successfully");;
        mret None
    end.

(** The verbs of the command line that reach the configuration state
    machine ([--install], [--version] and [--help] do not). *)
Inductive command := CmdAnthropic | CmdZAI | CmdStatus | CmdClearToken.

(** [main] after flag parsing: the selected operation, then the exit
    status. *)
Definition main (homeDir : string) (cmd : command) : IO nat :=
  let app := NewApplication homeDir in
  err ← match cmd with
        | CmdAnthropic => switchToAnthropic app
        | CmdZAI => switchToZAI app
        | CmdStatus => showStatus app
        | CmdClearToken => clearToken app
        end;
  match err with
  | Some e => say (ErrPrintf ("Error: %v" +:+ nl) [OpError e]);; mret 1
  | None => mret 0
  end.

(** One invocation: a fresh process over the files [w]. *)
Definition exec {A} (m : IO A) (e : Environ) (w : World) : A * World * list output :=
  let '(a, p) := m e (mkProc w [] (input e)) in (a, world p, stdout p).

End Program.

(** ** Code beside the state machine *)

(** The candidates of [detectShellConfigs], each with the shell it belongs
    to; [HOME] is read as a clean directory path. *)
Definition shellCandidates (homeDir : string) : list (string * string) :=
  [ (filepath.Join homeDir ".zshrc", "zsh");
    (filepath.Join homeDir ".bashrc", "bash");
    (filepath.Join homeDir ".bash_profile", "bash");
    (filepath.Join (filepath.Join (filepath.Join homeDir ".config") "fish") "config.fish",
     "fish") ].

(** The loop [for _, c := range candidates] that appends the first
    candidate passing [wanted] whose file is there, and breaks. *)
Fixpoint firstPresent (wanted : string → bool) (candidates : list (string * string))
    : IO (list string) :=
  match candidates with
  | [] => mret []
  | (path, forShell) :: rest =>
      if wanted forShell then
        err ← os.StatTextFile path;
        if isNil err then mret [path] else firstPresent wanted rest
      else firstPresent wanted rest
  end.

Definition detectShellConfigs (app : Application) : IO (list string) :=
  homeDir ← os.Getenv "HOME";
  shell ← os.Getenv "SHELL";
  let candidates := shellCandidates homeDir in
  configs ← firstPresent (fun forShell => strings.Contains shell forShell) candidates;
  if Nat.eqb (length configs) 0 then firstPresent (fun _ => true) candidates
  else mret configs.

Module v2_0_0.

(** [createBackupAtomic] of version 2.0.0 ([main.go] at the root of the
    repository): the backup is a copy of the settings file. *)
Definition createBackupAtomic (app : Application) : IO (option error) :=
  '(source, err) ← os.ReadFile (settingsFile app);
  match err with
  | Some _ => mret err
  | None =>
      let tempFile := backupFile app +:+ ".tmp" in
      err ← os.WriteFile tempFile source;
      match err with
      | Some _ => mret err
      | None =>
          err ← os.Rename tempFile (backupFile app);
          match err with
          | Some _ => os.Remove tempFile;; mret err
          | None => mret None
          end
      end
  end.

End v2_0_0.

(** * Vocabulary of the statements *)

(** A credential carries one of the API-key prefixes. *)
Definition prefixed (token : string) : Prop :=
  (∃ rest, token = "sk-" +:+ rest) ∨ (∃ rest, token = "zai-" +:+ rest).

(** A credential has the shape of a web-session token. *)
Definition webShaped (token : string) : Prop :=
  (2 ≤ strings.Count token "." ∧ 100 < String.length token)
  ∨ 200 < String.length token.

(** ** Processes *)

Definition addOut (p : Proc) (out : list output) : Proc :=
  mkProc (world p) (stdout p ++ out) (stdin p).

Definition setDocs (p : Proc) (d : gmap string content) : Proc :=
  mkProc (mkWorld d (texts (world p))) (stdout p) (stdin p).

(** The value of a computation over the files [w]. *)
Definition evalIn {A} (m : IO A) (e : Environ) (w : World) : A :=
  (m e (mkProc w [] "")).1.

(** The files an invocation leaves behind, and what it printed. *)
Definition after {A} (m : IO A) (e : Environ) (w : World) : World :=
  (exec m e w).1.2.

Definition printed {A} (m : IO A) (e : Environ) (w : World) : list output :=
  (exec m e w).2.

Definition returned {A} (m : IO A) (e : Environ) (w : World) : A :=
  (exec m e w).1.1.

(** A computation that looks at the files and touches nothing. *)
Definition readOnly {A} (m : IO A) : Prop :=
  ∀ e p, m e p = (evalIn m e (world p), p).

(** Two processes with the same plain-text files and the same unread input;
    a computation that sees no more of the process than that; a computation
    that leaves the JSON documents alone. *)
Definition sameInputs (p p' : Proc) : Prop :=
  texts (world p) = texts (world p') ∧ stdin p = stdin p'.

Definition insensitive {A} (m : IO A) : Prop :=
  ∀ e p p', sameInputs p p' → (m e p).1 = (m e p').1 ∧ sameInputs (m e p).2 (m e p').2.

Definition keepsDocs {A} (m : IO A) : Prop :=
  ∀ e p, docs (world (m e p).2) = docs (world p).

(** ** Reading and writing the two documents *)

(** What [loadConfig] makes of the settings file, and
    [hasValidAnthropicBackup] of the backup slot. *)
Definition loaded (app : Application) (e : Environ) (w : World)
    : option Config * option error :=
  evalIn (loadConfig app (settingsFile app)) e w.

Definition backupCheck (app : Application) (e : Environ) (w : World)
    : bool * option BackupConfig * option error :=
  evalIn (hasValidAnthropicBackup app) e w.

(** The backup the callers go on with: [hasBackup && backup != nil]. *)
Definition usable (h : bool * option BackupConfig * option error) : option BackupConfig :=
  if h.1.1 then h.1.2 else None.

(** A step of the atomic write of [filename] fails. *)
Definition cannotSave (e : Environ) (filename : string) : bool :=
  mkdirFails e (filepath.Dir filename)
  || writeFails e (filename +:+ ".tmp")
  || renameFails e (filename +:+ ".tmp").

(** A step of the write of the backup slot fails. *)
Definition cannotBackup (e : Environ) (app : Application) : bool :=
  writeFails e (backupFile app +:+ ".tmp") || renameFails e (backupFile app +:+ ".tmp").

(** The document [createBackupWithMetadata] writes for an Anthropic
    configuration. *)
Definition freshBackup (e : Environ) (config : option Config) : content :=
  Document (json.encodeBackupConfig
    {| Metadata := mkBackupMetadata ProviderAnthropic (now e) Version;
       BackupEnv := EnvOf config |}).

(** The configuration [switchToAnthropic] writes: the backup without the
    Z.AI keys, or the empty configuration. *)
Definition restoreTarget (h : bool * option BackupConfig * option error) : Config :=
  match usable h with
  | Some b => mkConfig (fold_left godelete zaiEnvKeys (BackupEnv b))
  | None => mkConfig make
  end.

(** ** Reports *)

Definition noOpReport : list output :=
  [ Println "🔄 Switching to Anthropic API...";
    Println "⚠️  Already using Anthropic configuration";
    Println "   Use --status to check current settings" ].

Definition reportedNoOp (out : list output) : Prop :=
  Println "⚠️  Already using Anthropic configuration" ∈ out.

Definition noOpReportZAI : list output :=
  [ Println "🔄 Switching to Z.AI API...";
    Println "⚠️  Already using Z.AI configuration";
    Println "   Use --status to check current settings" ].

Definition backupCheckReport (h : bool * option BackupConfig * option error) : list output :=
  Println "🔄 Switching to Z.AI API..." ::
  match h.2 with
  | Some err => [Printf ("⚠️  Failed to check existing backup: %v" +:+ nl) [OpError err]]
  | None => []
  end.

(** ** A healthy environment, and sample files *)

Definition never (path : string) : bool := false.

Definition atOpen (path : string) : fault := OpenFails.

(** No variable set, nothing typed, no system call fails. *)
Definition quiet : Environ :=
  {| getenv := fun _ => ""; input := ""; now := "2025-01-01T00:00:00Z";
     statFails := never; readFails := never; writeFails := never; writeFault := atOpen;
     renameFails := never; removeFails := never; mkdirFails := never |}.

(** [strings.TrimSpace] and [strings.ToLower] on ASCII text, for the sample
    runs. *)
Definition isSpace (c : ascii) : bool :=
  let n := nat_of_ascii c in (Nat.leb 9 n && Nat.leb n 13) || Nat.eqb n 32.

Fixpoint trimLeft (s : string) : string :=
  match s with
  | EmptyString => EmptyString
  | String c s' => if isSpace c then trimLeft s' else s
  end.

Fixpoint trimRight (s : string) : string :=
  match s with
  | EmptyString => EmptyString
  | String c s' =>
      match trimRight s' with
      | EmptyString => if isSpace c then EmptyString else String c EmptyString
      | r => String c r
      end
  end.

Definition asciiTrimSpace (s : string) : string := trimRight (trimLeft s).

Definition lower (c : ascii) : ascii :=
  let n := nat_of_ascii c in
  if Nat.leb 65 n && Nat.leb n 90 then ascii_of_nat (n + 32) else c.

Fixpoint asciiToLower (s : string) : string :=
  match s with
  | EmptyString => EmptyString
  | String c s' => String (lower c) (asciiToLower s')
  end.

Definition home0 : string := "/home/user".
Definition app0 : Application := NewApplication home0.

(** ** What the claims speak of *)

(** A process at its start, over the files [w]. *)
Definition start (e : Environ) (w : World) : Proc := mkProc w [] (input e).

(** The provider of the settings on disk and the credential stored in the
    backup slot, as a healthy read finds them. *)
Definition settingsProvider (app : Application) (w : World) : string :=
  detectProvider (loaded app quiet w).1.

Definition backupCredential (app : Application) (w : World) : option string :=
  match (backupCheck app quiet w).1.2 with
  | Some b => Some (index (BackupEnv b) "ANTHROPIC_AUTH_TOKEN")
  | None => None
  end.

(** The decision [hasValidAnthropicBackup] takes on the bytes it read. *)
Definition backupDecision (data : content) : bool * option BackupConfig * option error :=
  let '(backup, err) := UnmarshalBackupConfig data in
  match err with
  | Some _ =>
      let '(oldConfig, err') := UnmarshalConfig data in
      if isNil err' then
        (true,
         Some {| Metadata := mkBackupMetadata ProviderAnthropic "" "";
                 BackupEnv := Env oldConfig |},
         None)
      else (false, None, err)
  | None =>
      if negb (String.eqb (Provider (Metadata backup)) ProviderAnthropic)
      then (false, Some backup, None)
      else (true, Some backup, None)
  end.

(** The four paths the transitions write to are pairwise distinct. *)
Definition wellPlaced (app : Application) : Prop :=
  settingsFile app ≠ backupFile app
  ∧ settingsFile app ≠ settingsFile app +:+ ".tmp"
  ∧ settingsFile app ≠ backupFile app +:+ ".tmp"
  ∧ backupFile app ≠ settingsFile app +:+ ".tmp"
  ∧ backupFile app ≠ backupFile app +:+ ".tmp"
  ∧ settingsFile app +:+ ".tmp" ≠ backupFile app +:+ ".tmp".

(** The settings file is there and readable, and its content does not
    decode as a configuration. *)
Definition malformedSettings (app : Application) (e : Environ) (w : World) : Prop :=
  readFails e (settingsFile app) = false
  ∧ ∃ data err, docs w !! settingsFile app = Some data
                ∧ (UnmarshalConfig data).2 = Some err.

Definition isParseError (r : option error) : Prop :=
  ∃ msg err, r = Some (wrapError msg (wrapError "failed to parse config" err)).

(** An operation fails with the parse error and leaves the settings file as
    it was. *)
Definition failsOnSettings (op : IO (option error)) (app : Application)
    (e : Environ) (w : World) : Prop :=
  isParseError (returned op e w)
  ∧ docs (after op e w) !! settingsFile app = docs w !! settingsFile app.

(** Two successive calls of switch-to-Anthropic: the second leaves the
    settings of the first and reports a no-op. *)
Definition twiceIsNoOp (app : Application) (e : Environ) (w : World) : Prop :=
  let w1 := after (switchToAnthropic app) e w in
  docs (after (switchToAnthropic app) e w1) !! settingsFile app
  = docs w1 !! settingsFile app
  ∧ reportedNoOp (printed (switchToAnthropic app) e w1).

(** The keys of a Z.AI configuration. *)
Definition sixKeys : gset string :=
  {[ "ANTHROPIC_AUTH_TOKEN"; "ANTHROPIC_BASE_URL"; "API_TIMEOUT_MS";
     "ANTHROPIC_DEFAULT_OPUS_MODEL"; "ANTHROPIC_DEFAULT_SONNET_MODEL";
     "ANTHROPIC_DEFAULT_HAIKU_MODEL" ]}.

(** ** Sample environments and files *)

(** The environment of a user who exported a Z.AI key. *)
Definition withToken : Environ :=
  {| getenv := fun name => if String.eqb name "ZAI_AUTH_TOKEN" then "sk-test1234" else "";
     input := ""; now := "2025-01-01T00:00:00Z";
     statFails := never; readFails := never; writeFails := never; writeFault := atOpen;
     renameFails := never; removeFails := never; mkdirFails := never |}.

(** The same, on a disk that refuses the temporary file of the backup. *)
Definition backupDiskFull : Environ :=
  {| getenv := getenv withToken; input := ""; now := "2025-01-01T00:00:00Z";
     statFails := never; readFails := never;
     writeFails := fun path => String.eqb path (backupFile app0 +:+ ".tmp");
     writeFault := atOpen;
     renameFails := never; removeFails := never; mkdirFails := never |}.

(** A user without a saved key who types one and declines to save it. *)
Definition atKeyboard : Environ :=
  {| getenv := fun _ => ""; input := "  sk-typed-key " +:+ nl +:+ "n" +:+ nl;
     now := "2025-01-01T00:00:00Z";
     statFails := never; readFails := never; writeFails := never; writeFault := atOpen;
     renameFails := never; removeFails := never; mkdirFails := never |}.

Definition webToken : string := "eyJhbGciOi.web.session".

(** A token of 150 bytes with two dots, and the environment that exports it
    as the Z.AI key. *)
Fixpoint filler (n : nat) : string :=
  match n with
  | 0 => EmptyString
  | S n' => String "x" (filler n')
  end.

Definition dottedToken : string := "header." +:+ filler 136 +:+ ".signat".

Definition withDottedToken : Environ :=
  {| getenv := fun name => if String.eqb name "ZAI_AUTH_TOKEN" then dottedToken else "";
     input := ""; now := "2025-01-01T00:00:00Z";
     statFails := never; readFails := never; writeFails := never; writeFault := atOpen;
     renameFails := never; removeFails := never; mkdirFails := never |}.

Definition anthropicEnv : gmap string string :=
  {[ "ANTHROPIC_AUTH_TOKEN" := webToken ]}.

Definition zaiSettings : content :=
  Document (json.encodeConfig (mkConfig (Some (zaiEnv "sk-test1234")))).

Definition anthropicSettings : content :=
  Document (json.encodeConfig (mkConfig (Some anthropicEnv))).

(** The backup of the Anthropic settings as version 2.1.0 writes it, as
    version 2.0.0 wrote it (a copy of the settings file, without
    [_metadata]), and with a [_metadata] member of the wrong JSON type. *)
Definition stampedBackup : content :=
  Document (json.encodeBackupConfig
    {| Metadata := mkBackupMetadata ProviderAnthropic "2024-12-24T10:00:00Z" Version;
       BackupEnv := Some anthropicEnv |}).

Definition legacyBackup : content :=
  Document (json.JObject
    [("env", json.JObject [("ANTHROPIC_AUTH_TOKEN", json.JString webToken)])]).

Definition mistypedBackup : content :=
  Document (json.JObject
    [("_metadata", json.JString "anthropic");
     ("env", json.JObject [("ANTHROPIC_AUTH_TOKEN", json.JString webToken)])]).

(** No file at all; settings with an empty mapping; a settings file that is
    not JSON; Z.AI settings over each of the backups; Anthropic settings without
    a backup and over the legacy one. *)
Definition emptyWorld : World := {| docs := ∅; texts := ∅ |}.

Definition blankWorld : World :=
  {| docs := {[ settingsFile app0 := Document (json.encodeConfig (mkConfig make)) ]};
     texts := ∅ |}.

Definition brokenWorld : World :=
  {| docs := {[ settingsFile app0 := Malformed ]}; texts := ∅ |}.

Definition zaiWorld : World :=
  {| docs := {[ settingsFile app0 := zaiSettings; backupFile app0 := stampedBackup ]};
     texts := ∅ |}.

Definition legacyWorld : World :=
  {| docs := {[ settingsFile app0 := zaiSettings; backupFile app0 := legacyBackup ]};
     texts := ∅ |}.

Definition mistypedWorld : World :=
  {| docs := {[ settingsFile app0 := zaiSettings; backupFile app0 := mistypedBackup ]};
     texts := ∅ |}.

Definition anthropicWorld : World :=
  {| docs := {[ settingsFile app0 := anthropicSettings ]}; texts := ∅ |}.

Definition anthropicLegacyWorld : World :=
  {| docs := {[ settingsFile app0 := anthropicSettings; backupFile app0 := legacyBackup ]};
     texts := ∅ |}.

(** ** The credential, the shell files and the reports of the other
    operations *)

(** The file the Z.AI key is saved in. *)
Definition tokenFile (app : Application) : string :=
  filepath.Join (configDir app) ".zai_token".

(** What [ReadString] hands over of the input [s]: the first line with its
    newline, or all there is when no newline comes. *)
Definition firstLine (s : string) : string :=
  match splitLine s with
  | Some (line, _) => line
  | None => s
  end.

(** What [os.WriteFile] of [data] leaves at [path]: the data when it goes
    through; when it fails, what got through of them, or [None] for a file
    that could not be opened and is as it was. *)
Definition written (e : Environ) (path data : string) : option string :=
  if writeFails e path then os.leftover slice_to (writeFault e path) data
  else Some data.

Section Credential.

Variable TrimSpace : string → string.

(** The key the token file holds for [promptForToken]: its content without
    the surrounding blanks, unless the file cannot be read or holds blanks
    only. *)
Definition savedToken (app : Application) (e : Environ) (w : World) : option string :=
  if readFails e (tokenFile app) then None
  else match texts w !! tokenFile app with
       | Some data => if String.eqb (TrimSpace data) "" then None else Some (TrimSpace data)
       | None => None
       end.

End Credential.

(** The warning of [validateTokenForProvider] is due. *)
Definition shapeMismatch (token provider : string) : bool :=
  match detectTokenType token with
  | TokenTypeAnthropic => String.eqb provider ProviderZAI
  | TokenTypeZAI => String.eqb provider ProviderAnthropic
  | TokenTypeUnknown => false
  end.

(** The plain-text file [path] is there and [os.Stat] succeeds on it. *)
Definition present (e : Environ) (w : World) (path : string) : bool :=
  negb (statFails e path) && negb (isNil (texts w !! path)).

(** A computation that prints and does nothing else; a computation whose
    value is [a], whatever it finds. *)
Definition onlyPrints {A} (m : IO A) : Prop :=
  ∀ e p, ∃ out, (m e p).2 = addOut p out.

Definition returns {A} (m : IO A) (a : A) : Prop :=
  ∀ e p, (m e p).1 = a.

(** A computation that leaves every plain-text file but [f] alone. *)
Definition keepsTextsBut {A} (f : string) (m : IO A) : Prop :=
  ∀ e p q, q ≠ f → texts (world (m e p).2) !! q = texts (world p) !! q.

(** A user without a saved key who types one and has it saved. *)
Definition savingUser : Environ :=
  {| getenv := fun _ => ""; input := "  sk-typed-key " +:+ nl +:+ "YES" +:+ nl;
     now := "2025-01-01T00:00:00Z";
     statFails := never; readFails := never; writeFails := never; writeFault := atOpen;
     renameFails := never; removeFails := never; mkdirFails := never |}.

(** Settings with a key of their own beside the credential; and the
    environment that exports a key with a byte that is not UTF-8. *)
Definition tunedEnv : gmap string string :=
  {[ "ANTHROPIC_AUTH_TOKEN" := webToken; "DISABLE_TELEMETRY" := "1" ]}.

Definition tunedWorld : World :=
  {| docs := {[ settingsFile app0 := Document (json.encodeConfig (mkConfig (Some tunedEnv))) ]};
     texts := ∅ |}.

Definition rawToken : string := "sk-" +:+ String "255" EmptyString.

Definition withRawToken : Environ :=
  {| getenv := fun name => if String.eqb name "ZAI_AUTH_TOKEN" then rawToken else "";
     input := ""; now := "2025-01-01T00:00:00Z";
     statFails := never; readFails := never; writeFails := never; writeFault := atOpen;
     renameFails := never; removeFails := never; mkdirFails := never |}.

(** ** Text that [encoding/json] gives back as it is *)

(** A mapping, the stamp of a backup and a backup that are UTF-8
    throughout. *)
Definition validMap (m : gomap) : bool :=
  match m with
  | None => true
  | Some g =>
      forallb (fun kv : string * string => utf8.ValidString kv.1 && utf8.ValidString kv.2)
              (map_to_list g)
  end.

Definition validMetadata (md : BackupMetadata) : bool :=
  utf8.ValidString (Provider md) && utf8.ValidString (CreatedAt md)
  && utf8.ValidString (MetaVersion md).

Definition validBackup (b : BackupConfig) : bool :=
  validMetadata (Metadata b) && validMap (BackupEnv b).

(** * Properties *)

(** ** Strings *)

Lemma HasPrefix_spec (s prefix : string) :
  strings.HasPrefix s prefix = true ↔ ∃ rest, s = prefix +:+ rest.
Proof.
  revert s. induction prefix as [|p prefix IH]; intros s; simpl.
  - split; [intros _; by exists s | done].
  - destruct s as [|c s]; simpl.
    + split; [done | intros [rest H]; discriminate H].
    + destruct (Ascii.eqb_spec c p) as [->|Hne].
      * rewrite IH. split; intros [rest H]; exists rest; [by rewrite H | by injection H].
      * split; [done | intros [rest H]; injection H as H1 H2; by destruct Hne].
Qed.

Lemma Contains_spec (s substr : string) :
  strings.Contains s substr = true ↔ ∃ before after, s = before +:+ substr +:+ after.
Proof.
  induction s as [|c s IH]; simpl.
  - rewrite orb_false_r, HasPrefix_spec. split.
    + intros [rest H]. by exists "", rest.
    + intros [before [after H]]. destruct before; simpl in H; [by exists after | discriminate H].
  - rewrite orb_true_iff, HasPrefix_spec, IH. split.
    + intros [[rest H] | [before [after H]]].
      * by exists "", rest.
      * exists (String c before), after. simpl. by rewrite H.
    + intros [before [after H]]. destruct before as [|b before]; simpl in H.
      * left. by exists after.
      * right. injection H as _ H. by exists before, after.
Qed.

Lemma string_app_cons (c : ascii) (a b : string) : String c a +:+ b = String c (a +:+ b).
Proof. reflexivity. Qed.

Lemma slice_to_from (n : nat) (s : string) : slice_to n s +:+ slice_from n s = s.
Proof.
  revert s. induction n as [|n IH]; intros [|c s]; simpl;
    rewrite ?string_app_cons, ?IH; done.
Qed.

Lemma slice_to_length (n : nat) (s : string) :
  n ≤ String.length s → String.length (slice_to n s) = n.
Proof.
  revert s. induction n as [|n IH]; intros [|c s]; simpl; intros H; try done; try lia.
  rewrite IH; lia.
Qed.

Lemma slice_from_length (n : nat) (s : string) :
  String.length (slice_from n s) = String.length s - n.
Proof.
  revert s. induction n as [|n IH]; intros [|c s]; simpl; done.
Qed.

Lemma string_app_length (a b : string) :
  String.length (a +:+ b) = String.length a + String.length b.
Proof.
  induction a as [|c a IH]; [done|]. rewrite string_app_cons. simpl. by rewrite IH.
Qed.

Lemma slice_from_app (a b : string) : slice_from (String.length a) (a +:+ b) = b.
Proof.
  induction a as [|c a IH]; [by destruct b|]. rewrite string_app_cons. simpl. done.
Qed.

(** ** Classification of configurations and credentials *)

(** C4. [detectProvider] is a total function of the configuration alone
    (it takes no state and has no effect): its value is one of the four
    provider names, which are pairwise distinct; an empty mapping is unknown;
    otherwise a base URL containing the marker "z.ai" is Z.AI, an empty base
    URL is Anthropic, and any other base URL is custom. *)
Theorem detectProvider_classifies (c : Config) :
  let baseURL := index (Env c) "ANTHROPIC_BASE_URL" in
  let marked := ∃ before after, baseURL = before +:+ "z.ai" +:+ after in
  detectProvider (Some c) ∈ [ProviderAnthropic; ProviderZAI; ProviderCustom; ProviderUnknown]
  ∧ NoDup [ProviderAnthropic; ProviderZAI; ProviderCustom; ProviderUnknown]
  ∧ (len (Env c) = 0 → detectProvider (Some c) = ProviderUnknown)
  ∧ (0 < len (Env c) → marked → detectProvider (Some c) = ProviderZAI)
  ∧ (0 < len (Env c) → baseURL = "" → detectProvider (Some c) = ProviderAnthropic)
  ∧ (0 < len (Env c) → baseURL ≠ "" → ¬ marked →
       detectProvider (Some c) = ProviderCustom).
Proof.
  intros baseURL marked. unfold detectProvider. fold baseURL.
  assert (Hm : strings.Contains baseURL "z.ai" = true ↔ marked) by apply Contains_spec.
  split_and!.
  - rewrite !elem_of_cons.
    destruct (Nat.eqb _ _); [tauto|].
    destruct (strings.Contains _ _); [tauto|].
    destruct (String.eqb _ _); tauto.
  - apply NoDup_ListNoDup. repeat constructor; simpl; intros H; decompose [or] H; done.
  - intros ->. done.
  - intros Hlen Hmark. destruct (Nat.eqb_spec (len (Env c)) 0); [lia|].
    apply Hm in Hmark. by rewrite Hmark.
  - intros Hlen Hurl. destruct (Nat.eqb_spec (len (Env c)) 0); [lia|].
    rewrite Hurl. done.
  - intros Hlen Hurl Hnm. destruct (Nat.eqb_spec (len (Env c)) 0); [lia|].
    destruct (strings.Contains baseURL "z.ai") eqn:Hc; [by destruct Hnm; apply Hm|].
    by destruct (String.eqb_spec baseURL "").
Qed.

Lemma prefixed_spec (token : string) :
  strings.HasPrefix token "sk-" || strings.HasPrefix token "zai-" = true ↔ prefixed token.
Proof. unfold prefixed. by rewrite orb_true_iff, !HasPrefix_spec. Qed.

Lemma webShaped_spec (token : string) :
  (Nat.leb 2 (strings.Count token ".") && Nat.ltb 100 (String.length token))
  || Nat.ltb 200 (String.length token) = true ↔ webShaped token.
Proof.
  unfold webShaped.
  rewrite orb_true_iff, andb_true_iff, Nat.leb_le, !Nat.ltb_lt. done.
Qed.

(** C7. [detectTokenType] classifies a credential by its shape: one of the
    prefixes "sk-" or "zai-" gives the API-key type; without a prefix, at
    least two dots with a length above 100, or a length above 200, gives the
    web-session type; a shorter unprefixed token (non-empty, length below
    100) gives the API-key type; every other input, the empty string
    included, is unknown. *)
Theorem detectTokenType_classifies (token : string) :
  (prefixed token → detectTokenType token = TokenTypeZAI)
  ∧ (¬ prefixed token → webShaped token → detectTokenType token = TokenTypeAnthropic)
  ∧ (¬ prefixed token → ¬ webShaped token → token ≠ "" → String.length token < 100 →
       detectTokenType token = TokenTypeZAI)
  ∧ (token = "" → detectTokenType token = TokenTypeUnknown)
  ∧ (¬ prefixed token → ¬ webShaped token → 100 ≤ String.length token →
       detectTokenType token = TokenTypeUnknown).
Proof.
  pose proof (prefixed_spec token) as Hp. pose proof (webShaped_spec token) as Hw.
  unfold detectTokenType.
  destruct (String.eqb_spec token "") as [->|Hne].
  { split_and!; try done.
    - intros [[r H]|[r H]]; discriminate H.
    - intros Hnp [[_ H]|H]; simpl in H; lia. }
  destruct (strings.HasPrefix token "sk-" || strings.HasPrefix token "zai-") eqn:Ep.
  { assert (prefixed token) by by apply Hp. split_and!; done. }
  assert (¬ prefixed token) as Hnp by (rewrite <-Hp; done).
  destruct (Nat.leb 2 (strings.Count token ".") && Nat.ltb 100 (String.length token)) eqn:E1.
  { assert (webShaped token) by (apply Hw; done). split_and!; done. }
  destruct (Nat.ltb 200 (String.length token)) eqn:E2.
  { assert (webShaped token) by (apply Hw; done). split_and!; done. }
  assert (¬ webShaped token) as Hnw by (rewrite <-Hw; done).
  destruct (Nat.ltb_spec (String.length token) 100).
  - split_and!; try done. lia.
  - split_and!; try done. lia.
Qed.

Lemma slice_from_from (m n : nat) (s : string) :
  slice_from m (slice_from n s) = slice_from (n + m) s.
Proof.
  revert s. induction n as [|n IH]; intros s; [done|].
  destruct s as [|c s]; simpl; [by destruct m | apply IH].
Qed.

(** C9. [maskToken] returns the fixed 8-character placeholder for a
    credential of length at most 8, and for a longer one its first 4
    characters, the separator "..." and its last 4 characters. *)
Theorem maskToken_shape (token : string) :
  (String.length token ≤ 8 →
     maskToken token = "********" ∧ String.length (maskToken token) = 8)
  ∧ (8 < String.length token →
     ∃ first middle last,
       token = first +:+ middle +:+ last
       ∧ String.length first = 4 ∧ String.length last = 4
       ∧ maskToken token = first +:+ "..." +:+ last).
Proof.
  unfold maskToken. split; intros Hlen.
  - destruct (Nat.leb_spec (String.length token) 8); [done | lia].
  - destruct (Nat.leb_spec (String.length token) 8); [lia|].
    set (n := String.length token - 4).
    exists (slice_to 4 token), (slice_to (n - 4) (slice_from 4 token)), (slice_from n token).
    split_and!.
    + rewrite <-(slice_to_from 4 token) at 1. f_equal.
      rewrite <-(slice_to_from (n - 4) (slice_from 4 token)) at 1. f_equal.
      rewrite slice_from_from. f_equal. unfold n. lia.
    + apply slice_to_length. lia.
    + rewrite slice_from_length. lia.
    + done.
Qed.

(** ** Running effectful code *)

(** Sequencing, and the two kinds of read-only steps. *)
Lemma bind_run {A B} (m : IO A) (f : A → IO B) e p :
  (m ≫= f) e p = f (m e p).1 e (m e p).2.
Proof. unfold mbind, IO_bind. by destruct (m e p). Qed.

Lemma ret_run {A} (a : A) e p : (mret a : IO A) e p = (a, p).
Proof. done. Qed.

Lemma say_run o e p : say o e p = (tt, addOut p [o]).
Proof. done. Qed.

Lemma readOnly_ret {A} (a : A) : readOnly (mret a : IO A).
Proof. done. Qed.

Lemma readOnly_bind {A B} (m : IO A) (f : A → IO B) :
  readOnly m → (∀ a, readOnly (f a)) → readOnly (m ≫= f).
Proof.
  intros Hm Hf e p. unfold evalIn. rewrite !bind_run.
  rewrite (Hm e p), (Hm e (mkProc _ _ _)). simpl.
  rewrite (Hf _ e p), (Hf _ e (mkProc _ _ _)). simpl. done.
Qed.

Lemma readOnly_ReadFile path : readOnly (os.ReadFile path).
Proof. intros e p. unfold evalIn, os.ReadFile. simpl. by repeat case_match. Qed.

Lemma readOnly_Stat path : readOnly (os.Stat path).
Proof. intros e p. unfold evalIn, os.Stat. simpl. by repeat case_match. Qed.

Lemma readOnly_loadConfig app f : readOnly (loadConfig app f).
Proof.
  unfold loadConfig. apply readOnly_bind; [apply readOnly_ReadFile|].
  intros [data err]. repeat case_match; apply readOnly_ret.
Qed.

Lemma readOnly_hasValidAnthropicBackup app : readOnly (hasValidAnthropicBackup app).
Proof.
  unfold hasValidAnthropicBackup. apply readOnly_bind; [apply readOnly_Stat|].
  intros err. case_match; [apply readOnly_ret|].
  apply readOnly_bind; [apply readOnly_ReadFile|].
  intros [data err']. repeat case_match; apply readOnly_ret.
Qed.

(** ** The paths of the application *)

Lemma string_app_assoc (a b c : string) : (a +:+ b) +:+ c = a +:+ (b +:+ c).
Proof. induction a as [|x a IH]; [done|]. rewrite !string_app_cons. by rewrite IH. Qed.

Lemma string_app_inv_head (d a b : string) : d +:+ a = d +:+ b → a = b.
Proof. induction d as [|x d IH]; [done|]. rewrite !string_app_cons. intros [=]. auto. Qed.

Lemma app_paths (home : string) :
  let app := NewApplication home in
  settingsFile app = configDir app +:+ "/settings.json"
  ∧ backupFile app = configDir app +:+ "/settings.json.backup"
  ∧ settingsFile app +:+ ".tmp" = configDir app +:+ "/settings.json.tmp"
  ∧ backupFile app +:+ ".tmp" = configDir app +:+ "/settings.json.backup.tmp".
Proof.
  simpl. unfold filepath.Join. rewrite !string_app_assoc. done.
Qed.

Lemma paths_distinct (home : string) :
  let app := NewApplication home in
  settingsFile app ≠ backupFile app
  ∧ settingsFile app ≠ settingsFile app +:+ ".tmp"
  ∧ settingsFile app ≠ backupFile app +:+ ".tmp"
  ∧ backupFile app ≠ settingsFile app +:+ ".tmp"
  ∧ backupFile app ≠ backupFile app +:+ ".tmp"
  ∧ settingsFile app +:+ ".tmp" ≠ backupFile app +:+ ".tmp".
Proof.
  intros app. destruct (app_paths home) as (H1 & H2 & H3 & H4). fold app in H1, H2, H3, H4.
  rewrite H3, H4, H1, H2.
  split_and!; intros H; apply string_app_inv_head in H; discriminate H.
Qed.

(** ** The atomic write *)

Lemma setDocs_id p : setDocs p (docs (world p)) = p.
Proof. by destruct p as [[]]. Qed.

(** [saveConfigAtomic] touches the target and its temporary sibling only;
    it fails exactly when a step fails, and then the target keeps its
    content; otherwise the target holds the encoded configuration. *)
Lemma saveConfigAtomic_spec app f c e p :
  f ≠ f +:+ ".tmp" →
  ∃ r d',
    saveConfigAtomic app f c e p = (r, setDocs p d')
    ∧ (∀ q, q ≠ f → q ≠ f +:+ ".tmp" → d' !! q = docs (world p) !! q)
    ∧ (if cannotSave e f then is_Some r ∧ d' !! f = docs (world p) !! f
       else r = None ∧ d' !! f = Some (Document (json.encodeConfig c))).
Proof.
  intros Hne. unfold saveConfigAtomic, cannotSave.
  rewrite bind_run. unfold os.MkdirAll at 1 2.
  destruct (mkdirFails e _); simpl.
  { eexists _, (docs (world p)). rewrite setDocs_id. eauto. }
  rewrite bind_run. unfold os.WriteFile at 1 2.
  destruct (writeFails e _); simpl.
  { destruct (writeFault e _); simpl.
    - eexists _, (docs (world p)). rewrite setDocs_id. eauto.
    - eexists _, _. split; [done|]. split; [|split; [eauto|]].
      + intros q _ Hq. by rewrite lookup_insert_ne.
      + by rewrite lookup_insert_ne.
    - eexists _, _. split; [done|]. split; [|split; [eauto|]].
      + intros q _ Hq. by rewrite lookup_insert_ne.
      + by rewrite lookup_insert_ne. }
  rewrite bind_run. unfold os.Rename at 1 2. simpl.
  destruct (renameFails e _); simpl.
  - rewrite bind_run. unfold os.Remove. simpl.
    destruct (removeFails e _); simpl.
    + eexists _, _. split; [done|]. split; [|split; [eauto|]].
      * intros q _ Hq. by rewrite lookup_insert_ne.
      * by rewrite lookup_insert_ne.
    + rewrite lookup_insert_eq. simpl.
      eexists _, _. split; [done|]. split; [|split; [eauto|]].
      * intros q _ Hq. by rewrite lookup_delete_ne, lookup_insert_ne.
      * by rewrite lookup_delete_ne, lookup_insert_ne.
  - rewrite lookup_insert_eq.
    eexists _, _. split; [done|]. split; [|split; [done|]].
    + intros q Hq1 Hq2. by rewrite lookup_insert_ne, lookup_delete_ne, lookup_insert_ne.
    + by rewrite lookup_insert_eq.
Qed.

(** ** UTF-8 *)

Lemma replaceInvalidFrom_skip (pre rest : string) :
  utf8.replaceInvalidFrom (String.length pre) (pre +:+ rest)
  = pre +:+ utf8.replaceInvalidFrom 0 rest.
Proof.
  induction pre as [|c pre IH]; [done|].
  rewrite string_app_cons. simpl. by rewrite IH.
Qed.

Lemma replaceInvalid_accepted (pre rest : string) :
  utf8.DecodeRuneInString (pre +:+ rest) = Some (String.length pre) →
  utf8.replaceInvalid (pre +:+ rest) = pre +:+ utf8.replaceInvalid rest.
Proof.
  unfold utf8.replaceInvalid. destruct pre as [|c pre].
  { destruct rest; simpl; [done|]. intros H. exfalso.
    change (String.length "") with 0 in H.
    unfold utf8.DecodeRuneInString in H. repeat case_match; simplify_eq. }
  rewrite string_app_cons. intros H.
  change (utf8.replaceInvalidFrom 0 (String c (pre +:+ rest)))
    with (match utf8.DecodeRuneInString (String c (pre +:+ rest)) with
          | Some size => String c (utf8.replaceInvalidFrom (size - 1) (pre +:+ rest))
          | None => utf8.RuneError +:+ utf8.replaceInvalidFrom 0 (pre +:+ rest)
          end).
  rewrite H. simpl. rewrite Nat.sub_0_r. by rewrite replaceInvalidFrom_skip.
Qed.

(** The width [DecodeRuneInString] reports is that of a prefix of the
    string, and it reports the same whatever comes after that prefix. *)
Lemma DecodeRuneInString_prefix (s : string) (n : nat) :
  utf8.DecodeRuneInString s = Some n →
  ∃ pre rest, s = pre +:+ rest ∧ String.length pre = n ∧ 0 < n
              ∧ ∀ rest', utf8.DecodeRuneInString (pre +:+ rest') = Some n.
Proof.
  unfold utf8.DecodeRuneInString.
  destruct s as [|s0 [|s1 [|s2 [|s3 t]]]]; [done|..];
    destruct (Nat.ltb (nat_of_ascii s0) 128) eqn:Ha.
  all: try (intros [= <-]; exists (String s0 EmptyString); eexists;
            split; [reflexivity|]; split; [done|]; split; [lia|];
            intros rest'; simpl; by rewrite Ha).
  all: destruct (utf8.first s0) as [[sz [lo hi]]|] eqn:Hf; try done.
  all: destruct (utf8.between lo hi s1) eqn:H1; simpl; try done.
  all: destruct (Nat.leb sz 2) eqn:Hs2.
  all: try (intros [= <-]; exists (String s0 (String s1 EmptyString)); eexists;
            split; [reflexivity|]; split; [done|]; split; [lia|];
            intros rest'; simpl; by rewrite Ha, Hf, H1, Hs2).
  all: try done.
  all: destruct (utf8.between 128 191 s2) eqn:H2; simpl; try done.
  all: destruct (Nat.leb sz 3) eqn:Hs3.
  all: try (intros [= <-]; exists (String s0 (String s1 (String s2 EmptyString))); eexists;
            split; [reflexivity|]; split; [done|]; split; [lia|];
            intros rest'; simpl; by rewrite Ha, Hf, H1, Hs2, H2, Hs3).
  all: try done.
  all: destruct (utf8.between 128 191 s3) eqn:H3; simpl; try done.
  all: intros [= <-]; exists (String s0 (String s1 (String s2 (String s3 EmptyString)))); eexists;
            split; [reflexivity|]; split; [done|]; split; [lia|];
            intros rest'; simpl; by rewrite Ha, Hf, H1, Hs2, H2, Hs3, H3.
Qed.

Lemma replaceInvalid_rejected (c : ascii) (rest : string) :
  utf8.DecodeRuneInString (String c rest) = None →
  utf8.replaceInvalid (String c rest) = utf8.RuneError +:+ utf8.replaceInvalid rest.
Proof.
  intros H. unfold utf8.replaceInvalid.
  change (utf8.replaceInvalidFrom 0 (String c rest))
    with (match utf8.DecodeRuneInString (String c rest) with
          | Some size => String c (utf8.replaceInvalidFrom (size - 1) rest)
          | None => utf8.RuneError +:+ utf8.replaceInvalidFrom 0 rest
          end).
  by rewrite H.
Qed.

(** What the decoder yields, the encoder writes back as it is. *)
Lemma replaceInvalid_idemp (s : string) :
  utf8.replaceInvalid (utf8.replaceInvalid s) = utf8.replaceInvalid s.
Proof.
  remember (String.length s) as n eqn:Hn. revert s Hn.
  induction n as [n IH] using lt_wf_ind. intros s Hn.
  destruct s as [|c rest]; [done|].
  destruct (utf8.DecodeRuneInString (String c rest)) as [k|] eqn:Hd.
  - destruct (DecodeRuneInString_prefix _ _ Hd) as (pre & r & Hs & Hlen & Hpos & Hany).
    rewrite Hs. rewrite replaceInvalid_accepted by (rewrite Hlen, <-Hs; done).
    rewrite replaceInvalid_accepted by (rewrite Hlen; apply Hany).
    f_equal. apply (IH (String.length r)); [|done].
    rewrite Hn, Hs, string_app_length. lia.
  - rewrite replaceInvalid_rejected by done.
    rewrite (replaceInvalid_accepted utf8.RuneError) by done.
    f_equal. apply (IH (String.length rest)); [|done]. subst n. simpl. lia.
Qed.

Lemma ValidString_spec (s : string) :
  utf8.ValidString s = true ↔ utf8.replaceInvalid s = s.
Proof. apply String.eqb_eq. Qed.

Lemma ValidString_replaceInvalid (s : string) :
  utf8.ValidString (utf8.replaceInvalid s) = true.
Proof. apply ValidString_spec, replaceInvalid_idemp. Qed.

Lemma validMap_spec (m : gomap) :
  validMap m = true
  ↔ match m with
    | None => True
    | Some g => map_Forall (fun k v => utf8.replaceInvalid k = k ∧ utf8.replaceInvalid v = v) g
    end.
Proof.
  destruct m as [g|]; simpl; [|done]. rewrite forallb_forall. split.
  - intros H k v Hkv. apply elem_of_map_to_list, list_elem_of_In, H in Hkv.
    apply andb_true_iff in Hkv as [H1 H2]. by split; apply ValidString_spec.
  - intros H [k v] Hkv%list_elem_of_In%elem_of_map_to_list. simpl.
    destruct (H k v Hkv) as [H1 H2]. apply andb_true_iff. by split; apply ValidString_spec.
Qed.

Lemma validMap_godelete (m : gomap) (k : string) :
  validMap m = true → validMap (godelete m k) = true.
Proof.
  rewrite !validMap_spec. destruct m as [g|]; simpl; [|done]. apply map_Forall_delete.
Qed.

Lemma validMap_minus_keys (m : gomap) (keys : list string) :
  validMap m = true → validMap (fold_left godelete keys m) = true.
Proof.
  revert m. induction keys as [|k keys IH]; intros m H; [done|].
  simpl. by apply IH, validMap_godelete.
Qed.

(** ** Round trips through JSON *)

(** What the decoder makes of a map is UTF-8 throughout. *)
Lemma decodeMapMember_valid field acc member :
  validMap (Some acc.1) = true →
  validMap (Some (json.decodeMapMember field acc member).1) = true.
Proof.
  rewrite !validMap_spec. intros H. unfold json.decodeMapMember, json.decodeString.
  destruct member as [k j]. simpl.
  assert (Hk : utf8.replaceInvalid (utf8.replaceInvalid k) = utf8.replaceInvalid k)
    by apply replaceInvalid_idemp.
  destruct j; simpl; apply map_Forall_insert_2; try done.
  split; [done|]. apply replaceInvalid_idemp.
Qed.

Lemma decodeMap_valid field j v saved :
  validMap v = true → validMap (json.decodeMap field j v saved).1 = true.
Proof.
  intros Hv. unfold json.decodeMap. destruct j; simpl; try done.
  assert (H0 : validMap (Some (default ∅ v)) = true).
  { destruct v; [done|]. apply validMap_spec. apply map_Forall_empty. }
  generalize dependent (default ∅ v). generalize saved. clear.
  induction members as [|m members IH]; intros saved g H; simpl; [done|].
  destruct (json.decodeMapMember field (g, saved) m) as [g' saved'] eqn:Hm.
  apply IH. change g' with (g', saved').1. rewrite <-Hm. by apply decodeMapMember_valid.
Qed.

Lemma decodeString_valid field j v saved :
  utf8.ValidString v = true → utf8.ValidString (json.decodeString field j v saved).1 = true.
Proof.
  intros H. destruct j; simpl; try done. apply ValidString_replaceInvalid.
Qed.

Lemma findField_In fields key f : json.findField fields key = Some f → In f fields.
Proof.
  unfold json.findField. destruct (find (String.eqb key) fields) eqn:H1.
  - intros [= <-]. by apply find_some in H1 as [? _].
  - intros H2. by apply find_some in H2 as [? _].
Qed.

Lemma UnmarshalConfig_valid (data : content) :
  validMap (Env (UnmarshalConfig data).1) = true.
Proof.
  destruct data as [|j]; [done|]. unfold UnmarshalConfig, json.decodeConfig.
  destruct j; try done.
  assert (H0 : validMap (Env (mkConfig None)) = true) by done.
  generalize dependent (mkConfig None). generalize (@None error).
  induction members as [|m members IH]; intros saved c H; simpl; [done|].
  destruct (json.decodeConfigMember (c, saved) m) as [c' saved'] eqn:Hm.
  apply IH. unfold json.decodeConfigMember in Hm. simpl in Hm.
  destruct (json.findField _ _); [|by simplify_eq].
  pose proof (decodeMap_valid "env" m.2 (Env c) saved H) as Hv.
  destruct (json.decodeMap _ _ _ _) as [mm sv]. by simplify_eq.
Qed.

Lemma decodeMetadata_valid j v saved :
  validMetadata v = true → validMetadata (json.decodeMetadata j v saved).1 = true.
Proof.
  unfold json.decodeMetadata. destruct j; try done. revert v saved.
  induction members as [|m members IH]; intros v saved H; simpl; [done|].
  destruct (json.decodeMetadataMember (v, saved) m) as [v' saved'] eqn:Hm.
  apply IH. unfold validMetadata in *.
  apply andb_true_iff in H as [H Hv]. apply andb_true_iff in H as [Hp Hc].
  unfold json.decodeMetadataMember in Hm. simpl in Hm.
  destruct (json.findField _ _) as [f|] eqn:Hf; [|simplify_eq; by rewrite Hp, Hc, Hv].
  apply findField_In in Hf. simpl in Hf.
  destruct Hf as [<-|[<-|[<-|[]]]]; cbv iota beta in Hm.
  - pose proof (decodeString_valid "_metadata.provider" m.2 (Provider v) saved Hp) as Hs.
    destruct (json.decodeString _ _ _ _) as [x sv]. simplify_eq. simpl in *. by rewrite Hs, Hc, Hv.
  - pose proof (decodeString_valid "_metadata.created_at" m.2 (CreatedAt v) saved Hc) as Hs.
    destruct (json.decodeString _ _ _ _) as [x sv]. simplify_eq. simpl in *. by rewrite Hs, Hp, Hv.
  - pose proof (decodeString_valid "_metadata.version" m.2 (MetaVersion v) saved Hv) as Hs.
    destruct (json.decodeString _ _ _ _) as [x sv]. simplify_eq. simpl in *. by rewrite Hs, Hp, Hc.
Qed.

Lemma UnmarshalBackupConfig_valid (data : content) :
  validBackup (UnmarshalBackupConfig data).1 = true.
Proof.
  destruct data as [|j]; [done|]. unfold UnmarshalBackupConfig, json.decodeBackupConfig.
  destruct j; try done.
  assert (H0 : validBackup (mkBackupConfig (mkBackupMetadata "" "" "") None) = true) by done.
  generalize dependent (mkBackupConfig (mkBackupMetadata "" "" "") None).
  generalize (@None error).
  induction members as [|m members IH]; intros saved b H; simpl; [done|].
  destruct (json.decodeBackupConfigMember (b, saved) m) as [b' saved'] eqn:Hm.
  apply IH. unfold validBackup in *. apply andb_true_iff in H as [Hmd Hmap].
  unfold json.decodeBackupConfigMember in Hm. simpl in Hm.
  destruct (json.findField _ _) as [f|] eqn:Hf; [|simplify_eq; by rewrite Hmd, Hmap].
  apply findField_In in Hf. simpl in Hf.
  destruct Hf as [<-|[<-|[]]]; cbv iota beta in Hm.
  - pose proof (decodeMetadata_valid m.2 (Metadata b) saved Hmd) as Hs.
    destruct (json.decodeMetadata _ _ _) as [x sv]. simplify_eq. simpl in *. by rewrite Hs, Hmap.
  - pose proof (decodeMap_valid "env" m.2 (BackupEnv b) saved Hmap) as Hs.
    destruct (json.decodeMap _ _ _ _) as [x sv]. simplify_eq. simpl in *. by rewrite Hs, Hmd.
Qed.

(** Decoding what the encoder wrote gives the value back where it is
    UTF-8: the sorted members of a map are inserted one by one into the
    empty map. *)
Lemma decodeMap_members field (l : list (string * string)) (m0 : gmap string string) saved :
  fold_left (json.decodeMapMember field)
            (List.map (fun kv : string * string =>
                         (utf8.replaceInvalid kv.1, json.JString (utf8.replaceInvalid kv.2))) l)
            (m0, saved)
  = (fold_left (fun m (kv : string * string) =>
                  <[utf8.replaceInvalid kv.1 := utf8.replaceInvalid kv.2]> m) l m0, saved).
Proof.
  revert m0. induction l as [|[k v] l IH]; intros m0; simpl; [done|].
  unfold json.decodeMapMember at 2. simpl. rewrite !replaceInvalid_idemp. apply IH.
Qed.

Lemma fold_left_insert_foldr (l : list (string * string)) (m0 : gmap string string) :
  fold_left (fun (m : gmap string string) (kv : string * string) => <[kv.1 := kv.2]> m) l m0
  = foldr (fun (kv : string * string) (m : gmap string string) => <[kv.1 := kv.2]> m)
          m0 (reverse l).
Proof.
  revert m0. induction l as [|x l IH]; intros m0; [done|].
  rewrite reverse_cons, foldr_app. simpl. apply IH.
Qed.

Lemma fold_left_insert_list_to_map (l : list (string * string)) :
  NoDup l.*1 →
  fold_left (fun (m : gmap string string) (kv : string * string) => <[kv.1 := kv.2]> m) l ∅
  = list_to_map l.
Proof.
  intros Hnd. rewrite fold_left_insert_foldr.
  change (list_to_map (M := gmap string string) (reverse l) = list_to_map l).
  apply list_to_map_proper.
  - by rewrite fmap_reverse, reverse_Permutation.
  - apply reverse_Permutation.
Qed.

(** A map whose keys are UTF-8 comes back with its values made UTF-8. *)
Lemma fold_left_insert_keys (l : list (string * string)) (m0 : gmap string string) :
  Forall (fun kv : string * string => utf8.replaceInvalid kv.1 = kv.1) l →
  fold_left (fun m (kv : string * string) =>
               <[utf8.replaceInvalid kv.1 := utf8.replaceInvalid kv.2]> m) l m0
  = fold_left (fun (m : gmap string string) (kv : string * string) => <[kv.1 := kv.2]> m)
              (prod_map id utf8.replaceInvalid <$> l) m0.
Proof.
  revert m0. induction l as [|[k v] l IH]; intros m0 H; [done|].
  apply Forall_cons in H as [Hk H]. simpl in *. rewrite Hk. by apply IH.
Qed.

Lemma decodeMap_encodeMap_keys field (g : gmap string string) saved :
  map_Forall (fun k _ => utf8.replaceInvalid k = k) g →
  json.decodeMap field (json.encodeMap (Some g)) None saved
  = (Some (utf8.replaceInvalid <$> g), saved).
Proof.
  intros Hk. simpl. rewrite decodeMap_members. simpl. f_equal. f_equal.
  match goal with |- context [fold_left _ ?l ∅] => set (l0 := l) end.
  assert (Hperm : l0 ≡ₚ map_to_list g) by apply merge_sort_Permutation.
  assert (Hnd : NoDup l0.*1) by (rewrite Hperm; apply NoDup_fst_map_to_list).
  clearbody l0.
  rewrite fold_left_insert_keys.
  2:{ apply Forall_forall. intros [k v] Hin. simpl.
      rewrite Hperm in Hin. apply elem_of_map_to_list in Hin. by apply (Hk k v). }
  assert (Hfst : (prod_map id utf8.replaceInvalid <$> l0).*1 = l0.*1).
  { rewrite <-list_fmap_compose. apply list_fmap_ext. by intros ? []. }
  rewrite fold_left_insert_list_to_map by (by rewrite Hfst).
  rewrite list_to_map_fmap. f_equal.
  rewrite <-(list_to_map_to_list g). by apply list_to_map_proper.
Qed.

Lemma fmap_replaceInvalid (g : gmap string string) :
  validMap (Some g) = true → utf8.replaceInvalid <$> g = g.
Proof.
  intros H%validMap_spec. apply map_eq. intros k. rewrite lookup_fmap.
  destruct (g !! k) as [v|] eqn:Hkv; [|done]. simpl. f_equal. by apply (H k v).
Qed.

Lemma decodeMap_encodeMap field (m v : gomap) saved :
  v = None → validMap m = true →
  json.decodeMap field (json.encodeMap m) v saved = (m, saved).
Proof.
  intros -> Hm. destruct m as [g|]; [|done].
  rewrite decodeMap_encodeMap_keys, fmap_replaceInvalid; [done..|].
  apply validMap_spec in Hm. intros k x Hkx. by apply (Hm k x).
Qed.

Lemma UnmarshalConfig_encodeConfig (c : Config) :
  validMap (Env c) = true →
  UnmarshalConfig (Document (json.encodeConfig c)) = (c, None).
Proof.
  intros Hc. destruct c as [m].
  unfold UnmarshalConfig, json.encodeConfig, json.decodeConfig. simpl.
  unfold json.decodeConfigMember.
  change (json.findField ["env"] (utf8.replaceInvalid "env")) with (Some "env"). simpl.
  rewrite decodeMap_encodeMap; done.
Qed.

(** A backup comes back with its stamp made UTF-8. *)
Lemma UnmarshalBackupConfig_encodeBackupConfig_stamp (b : BackupConfig) :
  validMap (BackupEnv b) = true →
  UnmarshalBackupConfig (Document (json.encodeBackupConfig b))
  = ({| Metadata := mkBackupMetadata (utf8.replaceInvalid (Provider (Metadata b)))
                                     (utf8.replaceInvalid (CreatedAt (Metadata b)))
                                     (utf8.replaceInvalid (MetaVersion (Metadata b)));
        BackupEnv := BackupEnv b |}, None).
Proof.
  intros Hb. destruct b as [[pr ca ve] m].
  unfold UnmarshalBackupConfig, json.encodeBackupConfig, json.decodeBackupConfig. simpl.
  unfold json.decodeBackupConfigMember.
  change (json.findField ["_metadata"; "env"] (utf8.replaceInvalid "_metadata"))
    with (Some "_metadata").
  change (json.findField ["_metadata"; "env"] (utf8.replaceInvalid "env")) with (Some "env").
  simpl.
  unfold json.decodeMetadataMember.
  change (json.findField ["provider"; "created_at"; "version"] (utf8.replaceInvalid "provider"))
    with (Some "provider").
  change (json.findField ["provider"; "created_at"; "version"] (utf8.replaceInvalid "created_at"))
    with (Some "created_at").
  change (json.findField ["provider"; "created_at"; "version"] (utf8.replaceInvalid "version"))
    with (Some "version").
  simpl. rewrite !replaceInvalid_idemp.
  rewrite decodeMap_encodeMap; done.
Qed.

Lemma UnmarshalBackupConfig_encodeBackupConfig (b : BackupConfig) :
  validBackup b = true →
  UnmarshalBackupConfig (Document (json.encodeBackupConfig b)) = (b, None).
Proof.
  intros H. apply andb_true_iff in H as [Hmd Hm].
  rewrite UnmarshalBackupConfig_encodeBackupConfig_stamp by done.
  unfold validMetadata in Hmd.
  apply andb_true_iff in Hmd as [Hmd Hv]. apply andb_true_iff in Hmd as [Hp Hc].
  apply ValidString_spec in Hp, Hc, Hv. rewrite Hp, Hc, Hv. by destruct b as [[]].
Qed.

(** ** The credential prompt *)

Section Transitions.

Variables TrimSpace ToLower : string → string.

(** [promptForToken] sees the environment, the token file and the input,
    and writes the token file only; both facts are built up from its
    steps. *)
Lemma insensitive_ret {A} (a : A) : insensitive (mret a : IO A).
Proof. intros e p p' H. done. Qed.

Lemma insensitive_bind {A B} (m : IO A) (f : A → IO B) :
  insensitive m → (∀ a, insensitive (f a)) → insensitive (m ≫= f).
Proof.
  intros Hm Hf e p p' H. rewrite !bind_run.
  destruct (Hm e p p' H) as [-> H']. by apply Hf.
Qed.

Lemma keepsDocs_ret {A} (a : A) : keepsDocs (mret a : IO A).
Proof. done. Qed.

Lemma keepsDocs_bind {A B} (m : IO A) (f : A → IO B) :
  keepsDocs m → (∀ a, keepsDocs (f a)) → keepsDocs (m ≫= f).
Proof. intros Hm Hf e p. rewrite bind_run, Hf. apply Hm. Qed.

Lemma insensitive_say o : insensitive (say o).
Proof. intros e p p' [H1 H2]. done. Qed.

Lemma keepsDocs_say o : keepsDocs (say o).
Proof. done. Qed.

Lemma insensitive_Getenv n : insensitive (os.Getenv n).
Proof. intros e p p' H. done. Qed.

Lemma keepsDocs_Getenv n : keepsDocs (os.Getenv n).
Proof. done. Qed.

Lemma insensitive_ReadTextFile f : insensitive (os.ReadTextFile f).
Proof.
  intros e p p' [H1 H2]. unfold os.ReadTextFile. rewrite H1.
  by repeat case_match.
Qed.

Lemma keepsDocs_ReadTextFile f : keepsDocs (os.ReadTextFile f).
Proof. intros e p. unfold os.ReadTextFile. by repeat case_match. Qed.

Lemma insensitive_WriteTextFile f d : insensitive (os.WriteTextFile f d).
Proof.
  intros e p p' [H1 H2]. unfold os.WriteTextFile, os.leftover. cbv zeta.
  repeat case_match; simplify_eq; (split; [done|]); split; simpl; by rewrite ?H1.
Qed.

Lemma keepsDocs_WriteTextFile f d : keepsDocs (os.WriteTextFile f d).
Proof. intros e p. unfold os.WriteTextFile. cbv zeta. by repeat case_match. Qed.

Lemma insensitive_ReadString : insensitive ReadString.
Proof.
  intros e p p' [H1 H2]. unfold ReadString. rewrite H2.
  by repeat case_match.
Qed.

Lemma keepsDocs_ReadString : keepsDocs ReadString.
Proof. intros e p. unfold ReadString. by repeat case_match. Qed.

Ltac compositional :=
  repeat match goal with
    | |- insensitive (mbind _ _) => apply insensitive_bind
    | |- insensitive (mret _) => apply insensitive_ret
    | |- insensitive (say _) => apply insensitive_say
    | |- insensitive (os.Getenv _) => apply insensitive_Getenv
    | |- insensitive (os.ReadTextFile _) => apply insensitive_ReadTextFile
    | |- insensitive (os.WriteTextFile _ _) => apply insensitive_WriteTextFile
    | |- insensitive ReadString => apply insensitive_ReadString
    | |- keepsDocs (mbind _ _) => apply keepsDocs_bind
    | |- keepsDocs (mret _) => apply keepsDocs_ret
    | |- keepsDocs (say _) => apply keepsDocs_say
    | |- keepsDocs (os.Getenv _) => apply keepsDocs_Getenv
    | |- keepsDocs (os.ReadTextFile _) => apply keepsDocs_ReadTextFile
    | |- keepsDocs (os.WriteTextFile _ _) => apply keepsDocs_WriteTextFile
    | |- keepsDocs ReadString => apply keepsDocs_ReadString
    | |- ∀ _, _ => intros ?
    | |- _ => progress cbv zeta
    | |- _ => case_match
    end.

Lemma insensitive_promptForToken app : insensitive (promptForToken TrimSpace ToLower app).
Proof. unfold promptForToken. compositional. Qed.

Lemma keepsDocs_promptForToken app : keepsDocs (promptForToken TrimSpace ToLower app).
Proof. unfold promptForToken. compositional. Qed.

(** A credential that comes without an error is not empty. *)
Lemma promptForToken_nonempty app e p token :
  (promptForToken TrimSpace ToLower app e p).1 = (token, None) → token ≠ "".
Proof.
  unfold promptForToken. rewrite bind_run. simpl.
  destruct (String.eqb_spec (getenv e "ZAI_AUTH_TOKEN") "") as [He|He]; simpl.
  2:{ intros [= <-]. done. }
  rewrite bind_run.
  set (prompt := (say _ ≫= _)).
  assert (Hprompt : ∀ p, (prompt e p).1 = (token, None) → token ≠ "").
  { clear. intros p. unfold prompt. rewrite !bind_run. simpl.
    destruct (ReadString e _) as [[line err] p1]. simpl.
    destruct err; simpl; [done|].
    destruct (String.eqb_spec (TrimSpace line) "") as [Ht|Ht]; simpl; [done|].
    rewrite !bind_run. simpl.
    destruct (ReadString e _) as [[answer err] p2]. simpl.
    rewrite !bind_run. simpl. intros [= <-]. done. }
  destruct (os.ReadTextFile _ e p) as [[data err] p1]. simpl.
  destruct err; [apply Hprompt|].
  destruct (String.eqb_spec (TrimSpace data) "") as [Ht|Ht]; simpl; [apply Hprompt|].
  intros [= <-]. done.
Qed.

(** ** The transitions, branch by branch *)

(** The same for [createBackupWithMetadata] and the backup slot. *)
Lemma createBackupWithMetadata_spec app config e p :
  backupFile app ≠ backupFile app +:+ ".tmp" →
  ∃ r d',
    createBackupWithMetadata app config ProviderAnthropic e p = (r, setDocs p d')
    ∧ (∀ q, q ≠ backupFile app → q ≠ backupFile app +:+ ".tmp" →
         d' !! q = docs (world p) !! q)
    ∧ (if cannotBackup e app then is_Some r ∧ d' !! backupFile app = docs (world p) !! backupFile app
       else r = None ∧ d' !! backupFile app = Some (freshBackup e config)).
Proof.
  intros Hne. unfold createBackupWithMetadata, cannotBackup, freshBackup.
  rewrite bind_run. unfold timeNow at 1 2. simpl.
  rewrite bind_run. unfold os.WriteFile at 1 2.
  destruct (writeFails e _); simpl.
  { destruct (writeFault e _); simpl.
    - eexists _, (docs (world p)). rewrite setDocs_id. eauto.
    - eexists _, _. split; [done|]. split; [|split; [eauto|]].
      + intros q _ Hq. by rewrite lookup_insert_ne.
      + by rewrite lookup_insert_ne.
    - eexists _, _. split; [done|]. split; [|split; [eauto|]].
      + intros q _ Hq. by rewrite lookup_insert_ne.
      + by rewrite lookup_insert_ne. }
  rewrite bind_run. unfold os.Rename at 1 2. simpl.
  destruct (renameFails e _); simpl.
  - rewrite bind_run. unfold os.Remove. simpl.
    destruct (removeFails e _); simpl.
    + eexists _, _. split; [done|]. split; [|split; [eauto|]].
      * intros q _ Hq. by rewrite lookup_insert_ne.
      * by rewrite lookup_insert_ne.
    + rewrite lookup_insert_eq. simpl.
      eexists _, _. split; [done|]. split; [|split; [eauto|]].
      * intros q _ Hq. by rewrite lookup_delete_ne, lookup_insert_ne.
      * by rewrite lookup_delete_ne, lookup_insert_ne.
  - rewrite lookup_insert_eq.
    eexists _, _. split; [done|]. split; [|split; [done|]].
    + intros q Hq1 Hq2. by rewrite lookup_insert_ne, lookup_delete_ne, lookup_insert_ne.
    + by rewrite lookup_insert_eq.
Qed.

Lemma addOut_addOut p a b : addOut (addOut p a) b = addOut p (a ++ b).
Proof. unfold addOut. simpl. by rewrite app_assoc. Qed.

Lemma addOut_nil p : addOut p [] = p.
Proof. unfold addOut. rewrite app_nil_r. by destruct p. Qed.

Lemma onlyPrints_validate app token provider e p :
  ∃ b out, validateTokenForProvider app token provider e p = (b, addOut p out).
Proof.
  unfold validateTokenForProvider.
  assert (Hid : p = addOut p []).
  { unfold addOut. rewrite app_nil_r. by destruct p. }
  repeat case_match; rewrite ?bind_run, ?say_run; simpl.
  all: try (eexists _, []; rewrite <-Hid; done).
  all: rewrite addOut_addOut; by eexists _, _.
Qed.

(** What [switchToZAI_apply] leaves behind. *)
Lemma switchToZAI_apply_spec app e p :
  settingsFile app ≠ settingsFile app +:+ ".tmp" →
  let c := (promptForToken TrimSpace ToLower app e p).1 in
  ∃ r p',
    switchToZAI_apply TrimSpace ToLower app e p = (r, p')
    ∧ (∀ q, q ≠ settingsFile app → q ≠ settingsFile app +:+ ".tmp" →
         docs (world p') !! q = docs (world p) !! q)
    ∧ match c.2 with
      | Some err =>
          r = Some err
          ∧ docs (world p') !! settingsFile app = docs (world p) !! settingsFile app
      | None =>
          if cannotSave e (settingsFile app)
          then is_Some r
               ∧ docs (world p') !! settingsFile app = docs (world p) !! settingsFile app
          else r = None
               ∧ docs (world p') !! settingsFile app
                 = Some (Document (json.encodeConfig (mkConfig (Some (zaiEnv c.1)))))
      end.
Proof.
  intros Hne c. unfold switchToZAI_apply. rewrite bind_run.
  pose proof (keepsDocs_promptForToken app e p) as Hdocs.
  subst c. destruct (promptForToken TrimSpace ToLower app e p) as [[token err] p1].
  simpl in *. destruct err as [err|]; simpl.
  { eexists _, _. split; [done|]. rewrite Hdocs. done. }
  rewrite bind_run.
  destruct (onlyPrints_validate app token ProviderZAI e p1) as (b & out & ->). simpl.
  rewrite bind_run.
  destruct (saveConfigAtomic_spec app (settingsFile app)
              (mkConfig (Some (zaiEnv token))) e (addOut p1 out) Hne)
    as (r & d' & -> & Hframe & Hres).
  simpl in *. rewrite Hdocs in *.
  destruct (cannotSave e (settingsFile app)).
  - destruct Hres as [[err ->] Hd]. simpl. eexists _, _. split; [done|]. done.
  - destruct Hres as [-> Hd]. simpl. rewrite !bind_run. simpl.
    eexists _, _. split; [done|]. done.
Qed.
Lemma loadConfig_run app e p :
  loadConfig app (settingsFile app) e p = (loaded app e (world p), p).
Proof. apply readOnly_loadConfig. Qed.

Lemma hasValidAnthropicBackup_run app e p :
  hasValidAnthropicBackup app e p = (backupCheck app e (world p), p).
Proof. apply readOnly_hasValidAnthropicBackup. Qed.

(** The first half of [switchToZAI], branch by branch. *)
Lemma switchToZAI_phases app e p :
  let l := loaded app e (world p) in
  let h := backupCheck app e (world p) in
  match l.2 with
  | Some err =>
      switchToZAI TrimSpace ToLower app e p
      = (Some (wrapError "failed to load config" err),
         addOut p [Println "🔄 Switching to Z.AI API..."])
  | None =>
      if isZAIConfig l.1 then
        switchToZAI TrimSpace ToLower app e p = (None, addOut p noOpReportZAI)
      else if String.eqb (detectProvider l.1) ProviderAnthropic
              && Nat.ltb 0 (len (EnvOf l.1)) then
        match usable h with
        | Some b =>
            ∃ out, switchToZAI TrimSpace ToLower app e p
                   = switchToZAI_apply TrimSpace ToLower app e (addOut p out)
        | None =>
            let p1 := addOut p (backupCheckReport h) in
            match createBackupWithMetadata app l.1 ProviderAnthropic e p1 with
            | (Some err, p2) =>
                switchToZAI TrimSpace ToLower app e p
                = (Some (wrapError "failed to backup Anthropic config (web login token)" err),
                   p2)
            | (None, p2) =>
                switchToZAI TrimSpace ToLower app e p
                = switchToZAI_apply TrimSpace ToLower app e
                    (addOut p2 [Println "✅ Anthropic configuration backed up (web login token saved)"])
            end
        end
      else
        ∃ out, switchToZAI TrimSpace ToLower app e p
               = switchToZAI_apply TrimSpace ToLower app e (addOut p out)
  end.
Proof.
  intros l h. unfold switchToZAI.
  rewrite bind_run, say_run. simpl.
  rewrite bind_run, loadConfig_run. simpl. fold l.
  destruct l as [config err]. simpl. destruct err as [err|]; [done|].
  destruct (isZAIConfig config).
  { rewrite !bind_run, !say_run. simpl. by rewrite !addOut_addOut. }
  destruct (String.eqb (detectProvider config) ProviderAnthropic
            && Nat.ltb 0 (len (EnvOf config))).
  - rewrite bind_run, hasValidAnthropicBackup_run. simpl. fold h.
    unfold usable, backupCheckReport. destruct h as [[hasBackup backup] herr]. simpl.
    rewrite bind_run.
    assert (Hwarn : ∀ q,
      (match herr with
       | Some e0 => say (Printf ("⚠️  Failed to check existing backup: %v" +:+ nl) [OpError e0])
       | None => mret ()
       end) e q
      = (tt, addOut q match herr with
                      | Some err => [Printf ("⚠️  Failed to check existing backup: %v" +:+ nl) [OpError err]]
                      | None => []
                      end)).
    { intros q. destruct herr; [done|]. by rewrite addOut_nil. }
    rewrite Hwarn. simpl. rewrite addOut_addOut. simpl.
    destruct (if hasBackup then backup else None) as [b|].
    + rewrite !bind_run, !say_run. simpl.
      destruct (negb _); rewrite ?say_run, ?ret_run; simpl; rewrite !addOut_addOut; by eexists.
    + rewrite bind_run.
      destruct (createBackupWithMetadata _ _ _ _ _) as [[err|] p2]; simpl; [done|].
      by rewrite bind_run, say_run.
  - destruct (String.eqb (detectProvider config) ProviderUnknown).
    + rewrite bind_run, hasValidAnthropicBackup_run. simpl.
      destruct (backupCheck _ _ _) as [[hasBackup backup] herr].
      rewrite bind_run. destruct hasBackup.
      * rewrite say_run. simpl. rewrite addOut_addOut. by eexists.
      * rewrite bind_run, !say_run. simpl. rewrite !addOut_addOut. by eexists.
    + destruct (String.eqb (detectProvider config) ProviderCustom).
      * rewrite !bind_run, !say_run. simpl. rewrite !addOut_addOut. by eexists.
      * by eexists.
Qed.

Lemma setDocs_addOut p out d : setDocs (addOut p out) d = addOut (setDocs p d) out.
Proof. done. Qed.

Ltac not_reported :=
  unfold reportedNoOp in *;
  repeat first [rewrite elem_of_app | rewrite elem_of_cons | rewrite elem_of_nil];
  let Hin := fresh "Hin" in
  intros Hin; decompose [or] Hin; try discriminate; try done; try tauto.

(** [switchToAnthropic], branch by branch: the no-op, or the atomic write
    of the restore target. *)
Lemma switchToAnthropic_run app e p :
  settingsFile app ≠ settingsFile app +:+ ".tmp" →
  let l := loaded app e (world p) in
  let h := backupCheck app e (world p) in
  if isNil l.2 && isAnthropicConfig l.1 then
    switchToAnthropic app e p = (None, addOut p noOpReport)
  else
    ∃ r d' out,
      switchToAnthropic app e p = (r, addOut (setDocs p d') out)
      ∧ ¬ reportedNoOp out
      ∧ (∀ q, q ≠ settingsFile app → q ≠ settingsFile app +:+ ".tmp" →
           d' !! q = docs (world p) !! q)
      ∧ (if cannotSave e (settingsFile app)
         then is_Some r ∧ d' !! settingsFile app = docs (world p) !! settingsFile app
         else r = None
              ∧ d' !! settingsFile app
                = Some (Document (json.encodeConfig (restoreTarget h)))).
Proof.
  intros Hne l h. unfold switchToAnthropic.
  rewrite bind_run, say_run. simpl.
  rewrite bind_run, loadConfig_run. simpl. fold l.
  destruct l as [config err]. simpl.
  destruct (isNil err && isAnthropicConfig config).
  { rewrite !bind_run, !say_run. simpl. by rewrite !addOut_addOut. }
  rewrite bind_run, hasValidAnthropicBackup_run. simpl. fold h.
  unfold restoreTarget, usable. destruct h as [[hasBackup backup] herr]. simpl.
  rewrite bind_run.
  set (warn := match herr with
               | Some err => [Printf ("⚠️  Failed to read backup: %v" +:+ nl) [OpError err]]
               | None => []
               end).
  assert (Hwarn : ∀ q,
    (match herr with
     | Some e0 => say (Printf ("⚠️  Failed to read backup: %v" +:+ nl) [OpError e0])
     | None => mret ()
     end) e q = (tt, addOut q warn)).
  { intros q. unfold warn. destruct herr; [done|]. by rewrite addOut_nil. }
  assert (Hw : ¬ reportedNoOp warn).
  { unfold warn. destruct herr; not_reported. }
  rewrite Hwarn. simpl. rewrite addOut_addOut. simpl.
  set (noBackup := (say _ ≫= _)).
  assert (HnoBackup : ∀ out0, ¬ reportedNoOp out0 →
    ∃ r d' out,
      noBackup e (addOut p out0) = (r, addOut (setDocs p d') out)
      ∧ ¬ reportedNoOp out
      ∧ (∀ q, q ≠ settingsFile app → q ≠ settingsFile app +:+ ".tmp" →
           d' !! q = docs (world p) !! q)
      ∧ (if cannotSave e (settingsFile app)
         then is_Some r ∧ d' !! settingsFile app = docs (world p) !! settingsFile app
         else r = None
              ∧ d' !! settingsFile app = Some (Document (json.encodeConfig (mkConfig make))))).
  { intros out0 Hout0. unfold noBackup. rewrite !bind_run, !say_run. simpl.
    rewrite !addOut_addOut.
    match goal with |- context [saveConfigAtomic app ?f ?c e ?q] =>
      destruct (saveConfigAtomic_spec app f c e q Hne) as (r & d' & -> & Hframe & Hres) end.
    simpl in *.
    destruct (cannotSave e (settingsFile app)).
    - destruct Hres as [[err' ->] Hd]. simpl. rewrite setDocs_addOut.
      eexists _, _, _. split; [done|]. split; [|done].
      not_reported.
    - destruct Hres as [-> Hd]. simpl. rewrite !bind_run, !say_run. simpl.
      rewrite ?setDocs_addOut, ?addOut_addOut.
      eexists _, _, _. split; [done|]. split; [|done].
      not_reported. }
  assert (Hw' : ¬ reportedNoOp (Println "🔄 Switching to Anthropic API..." :: warn))
    by not_reported.
  destruct backup as [b|]; [|destruct hasBackup; apply HnoBackup; exact Hw'].
  destruct hasBackup; simpl; [|apply HnoBackup; exact Hw'].
  rewrite bind_run.
  set (stamp := if negb (String.eqb (CreatedAt (Metadata b)) "")
                then [Printf ("💾 Restoring from backup created at: %s" +:+ nl)
                             [OpString (CreatedAt (Metadata b))]]
                else []).
  assert (Hstamp : ∀ q,
    (if negb (String.eqb (CreatedAt (Metadata b)) "")
     then say (Printf ("💾 Restoring from backup created at: %s" +:+ nl)
                      [OpString (CreatedAt (Metadata b))])
     else mret ()) e q = (tt, addOut q stamp)).
  { intros q. unfold stamp. destruct (negb _); [done|]. by rewrite addOut_nil. }
  assert (Hs : ¬ reportedNoOp stamp).
  { unfold stamp. destruct (negb _); not_reported. }
  rewrite Hstamp. simpl. rewrite addOut_addOut, bind_run.
  match goal with |- context [saveConfigAtomic app ?f ?c e ?q] =>
    destruct (saveConfigAtomic_spec app f c e q Hne) as (r & d' & -> & Hframe & Hres) end.
  simpl in *.
  destruct (cannotSave e (settingsFile app)).
  - destruct Hres as [[err' ->] Hd]. simpl. rewrite setDocs_addOut.
    eexists _, _, _. split; [done|]. split; [|done].
    not_reported.
  - destruct Hres as [-> Hd]. simpl. rewrite !bind_run, !say_run. simpl.
    rewrite ?setDocs_addOut, ?addOut_addOut.
    eexists _, _, _. split; [done|]. split; [|done].
    not_reported.
Qed.

End Transitions.

(** ** Reading the two documents *)

(** An invocation and its three observations. *)
Lemma after_run {A} (m : IO A) e w : after m e w = world (m e (mkProc w [] (input e))).2.
Proof. unfold after, exec. by destruct (m e _). Qed.

Lemma returned_run {A} (m : IO A) e w : returned m e w = (m e (mkProc w [] (input e))).1.
Proof. unfold returned, exec. by destruct (m e _). Qed.

Lemma printed_run {A} (m : IO A) e w : printed m e w = stdout (m e (mkProc w [] (input e))).2.
Proof. unfold printed, exec. by destruct (m e _). Qed.

(** [loadConfig] on the settings file, as a function of the file. *)
Lemma loaded_unfold app e w :
  loaded app e w =
    if readFails e (settingsFile app) then (None, Some (ErrFault "open" (settingsFile app)))
    else match docs w !! settingsFile app with
         | None => (Some (mkConfig make), None)
         | Some data =>
             match (UnmarshalConfig data).2 with
             | Some err => (None, Some (wrapError "failed to parse config" err))
             | None =>
                 (Some (if isNil (Env (UnmarshalConfig data).1) then mkConfig make
                        else (UnmarshalConfig data).1), None)
             end
         end.
Proof.
  unfold loaded, evalIn, loadConfig. rewrite bind_run. unfold os.ReadFile. simpl.
  destruct (readFails e _); [done|].
  destruct (docs w !! settingsFile app) as [data|]; [|done]. simpl.
  destruct (UnmarshalConfig data) as [c [err|]]; done.
Qed.

Lemma loaded_ext app e w w' :
  docs w !! settingsFile app = docs w' !! settingsFile app →
  loaded app e w = loaded app e w'.
Proof. intros H. by rewrite !loaded_unfold, H. Qed.

Lemma loaded_ok_quiet app e w c :
  loaded app e w = (c, None) → loaded app quiet w = (c, None).
Proof.
  rewrite !loaded_unfold. simpl. unfold never. destruct (readFails e _); [done|]. done.
Qed.

Lemma loaded_encode app e w c :
  validMap (Env c) = true →
  readFails e (settingsFile app) = false →
  docs w !! settingsFile app = Some (Document (json.encodeConfig c)) →
  loaded app e w = (Some (if isNil (Env c) then mkConfig make else c), None).
Proof.
  intros Hc Hr Hd. by rewrite loaded_unfold, Hr, Hd, UnmarshalConfig_encodeConfig.
Qed.

(** What [loadConfig] hands over is UTF-8 throughout. *)
Lemma loaded_valid app e w : validMap (EnvOf (loaded app e w).1) = true.
Proof.
  rewrite loaded_unfold. destruct (readFails e _); [done|].
  destruct (docs w !! settingsFile app) as [data|]; [|done].
  pose proof (UnmarshalConfig_valid data) as Hv.
  destruct (UnmarshalConfig data) as [c [err|]]; simpl in *; [done|].
  by destruct (isNil (Env c)).
Qed.

(** [hasValidAnthropicBackup], as a function of the backup file. *)
Lemma backupCheck_unfold app e w :
  backupCheck app e w =
    if negb (statFails e (backupFile app)) && isNil (docs w !! backupFile app)
    then (false, None, None)
    else if readFails e (backupFile app)
    then (false, None, Some (ErrFault "open" (backupFile app)))
    else match docs w !! backupFile app with
         | None => (false, None, Some (ErrNotExist (backupFile app)))
         | Some data => backupDecision data
         end.
Proof.
  assert (Hparse : ∀ (data : content) (P : content → Prop),
    (∀ bk er, UnmarshalBackupConfig data = (bk, er) →
       ∀ old er', UnmarshalConfig data = (old, er') → P data) → P data).
  { intros data P H. destruct (UnmarshalBackupConfig data) eqn:E1.
    destruct (UnmarshalConfig data) eqn:E2. eauto. }
  unfold backupCheck, evalIn, hasValidAnthropicBackup.
  rewrite !bind_run. unfold os.Stat, os.ReadFile.
  destruct (docs w !! backupFile app) as [data|] eqn:Hd;
    destruct (statFails e _); destruct (readFails e (backupFile app)) eqn:Hr; simpl;
    rewrite ?bind_run; simpl; rewrite ?Hd, ?Hr; simpl; try done;
    rewrite ?bind_run; simpl; rewrite ?Hd, ?Hr; simpl; try done.
  all: unfold backupDecision; apply (Hparse data); intros bk er -> old er' ->.
  all: destruct er; [destruct (isNil er') | destruct (negb _)]; reflexivity.
Qed.

Lemma backupCheck_ext app e w w' :
  docs w !! backupFile app = docs w' !! backupFile app →
  backupCheck app e w = backupCheck app e w'.
Proof. intros H. by rewrite !backupCheck_unfold, H. Qed.

(** A failing system call never makes up a backup record. *)
Lemma backupCheck_faults app e w b :
  (backupCheck app e w).1.2 = Some b →
  backupCheck app e w = backupCheck app quiet w.
Proof.
  rewrite !backupCheck_unfold. simpl. unfold never. simpl.
  destruct (statFails e _); simpl.
  - destruct (readFails e _); [done|].
    destruct (docs w !! backupFile app); done.
  - destruct (docs w !! backupFile app); simpl; [|done].
    destruct (readFails e _); done.
Qed.

Lemma backupDecision_encode (b : BackupConfig) :
  validBackup b = true →
  Provider (Metadata b) = ProviderAnthropic →
  backupDecision (Document (json.encodeBackupConfig b)) = (true, Some b, None).
Proof.
  intros Hb Hp. unfold backupDecision.
  rewrite UnmarshalBackupConfig_encodeBackupConfig by done. rewrite Hp. done.
Qed.

(** The decision on the backup [createBackupWithMetadata] takes of an
    Anthropic configuration: the record comes back, its time made UTF-8. *)
Lemma backupDecision_fresh (e : Environ) (c : option Config) :
  validMap (EnvOf c) = true →
  backupDecision (freshBackup e c)
  = (true,
     Some {| Metadata := mkBackupMetadata ProviderAnthropic (utf8.replaceInvalid (now e))
                                          Version;
             BackupEnv := EnvOf c |}, None).
Proof.
  intros Hc. unfold backupDecision, freshBackup.
  by rewrite UnmarshalBackupConfig_encodeBackupConfig_stamp.
Qed.

(** The record [hasValidAnthropicBackup] hands over is UTF-8 throughout,
    and so is what [switchToAnthropic] restores from it. *)
Lemma backupDecision_valid (data : content) (b : BackupConfig) :
  (backupDecision data).1.2 = Some b → validBackup b = true.
Proof.
  unfold backupDecision.
  pose proof (UnmarshalBackupConfig_valid data) as Hb.
  pose proof (UnmarshalConfig_valid data) as Hc.
  destruct (UnmarshalBackupConfig data) as [b' [err|]];
    destruct (UnmarshalConfig data) as [c [err'|]]; simpl in *;
    repeat case_match; simpl; try done; by intros [= <-].
Qed.

Lemma backupCheck_valid app e w b :
  (backupCheck app e w).1.2 = Some b → validBackup b = true.
Proof.
  rewrite backupCheck_unfold. repeat case_match; try done. apply backupDecision_valid.
Qed.

Lemma restoreTarget_valid app e w :
  validMap (Env (restoreTarget (backupCheck app e w))) = true.
Proof.
  unfold restoreTarget, usable.
  destruct (backupCheck app e w) as [[has [b|]] err] eqn:Hh; destruct has; try done.
  cbn [fst snd Env]. apply validMap_minus_keys.
  assert (Hb : validBackup b = true) by (apply (backupCheck_valid app e w); by rewrite Hh).
  by apply andb_true_iff in Hb as [_ ?].
Qed.

Lemma NewApplication_wellPlaced home : wellPlaced (NewApplication home).
Proof. apply paths_distinct. Qed.

(** ** The claims on the transitions *)

Section Claims.

Variables TrimSpace ToLower : string → string.

Lemma index_restore (m : gomap) :
  index (fold_left godelete zaiEnvKeys m) "ANTHROPIC_AUTH_TOKEN"
  = index m "ANTHROPIC_AUTH_TOKEN".
Proof. destruct m as [g|]; [|done]. simpl. by rewrite !lookup_delete_ne. Qed.

(** What [switchToAnthropic] leaves on disk. *)
Lemma switchToAnthropic_after app e w :
  wellPlaced app →
  let w' := after (switchToAnthropic app) e w in
  texts w' = texts w
  ∧ (∀ q, q ≠ settingsFile app → q ≠ settingsFile app +:+ ".tmp" →
       docs w' !! q = docs w !! q)
  ∧ (docs w' !! settingsFile app = docs w !! settingsFile app
     ∨ docs w' !! settingsFile app
       = Some (Document (json.encodeConfig (restoreTarget (backupCheck app e w))))).
Proof.
  intros (_ & Hne & _) w'. subst w'. rewrite after_run.
  pose proof (switchToAnthropic_run app e (mkProc w [] (input e)) Hne) as H.
  simpl in H. destruct (isNil _ && isAnthropicConfig _).
  - rewrite H. simpl. auto.
  - destruct H as (r & d' & out & -> & _ & Hframe & Hres). simpl.
    split; [done|]. split; [done|].
    destruct (cannotSave e (settingsFile app)); [left | right]; apply Hres.
Qed.

(** What [switchToZAI] does to the backup slot. *)
Lemma switchToZAI_after_backup app e w :
  wellPlaced app →
  let w' := after (switchToZAI TrimSpace ToLower app) e w in
  docs w' !! backupFile app = docs w !! backupFile app
  ∨ ∃ c, loaded app e w = (c, None)
         ∧ detectProvider c = ProviderAnthropic
         ∧ 0 < len (EnvOf c)
         ∧ usable (backupCheck app e w) = None
         ∧ docs w' !! backupFile app = Some (freshBackup e c).
Proof.
  intros (Hsb & Hst & Hsbt & Hbst & Hbt & Htt) w'. subst w'. rewrite after_run.
  set (p := mkProc w [] (input e)).
  assert (Happly : ∀ q, docs (world (switchToZAI_apply TrimSpace ToLower app e q).2)
                        !! backupFile app = docs (world q) !! backupFile app).
  { intros q. destruct (switchToZAI_apply_spec TrimSpace ToLower app e q Hst)
      as (r & p' & -> & Hframe & _). simpl. apply Hframe; done. }
  pose proof (switchToZAI_phases TrimSpace ToLower app e p) as H. simpl in H.
  destruct (loaded app e w) as [c err] eqn:Hl. simpl in H.
  destruct err as [err|]; [rewrite H; by left|].
  destruct (isZAIConfig c); [rewrite H; by left|].
  destruct (String.eqb_spec (detectProvider c) ProviderAnthropic) as [Hprov|Hprov]; simpl in H.
  2:{ destruct H as [out ->]. rewrite Happly. by left. }
  destruct (Nat.ltb_spec 0 (len (EnvOf c))) as [Hlen|Hlen].
  2:{ destruct H as [out ->]. rewrite Happly. by left. }
  destruct (usable (backupCheck app e w)) as [b|] eqn:Hu.
  { destruct H as [out ->]. rewrite Happly. by left. }
  destruct (createBackupWithMetadata_spec app c e (addOut p (backupCheckReport (backupCheck app e w))) Hbt)
    as (r & d' & Hcb & Hframe & Hres).
  rewrite Hcb in H. destruct (cannotBackup e app).
  - destruct Hres as [[err ->] Hd]. rewrite H. simpl. left. done.
  - destruct Hres as [-> Hd]. rewrite H. rewrite Happly. simpl.
    right. exists c. done.
Qed.

(** C2. From settings that classify as Z.AI and a backup slot holding a
    valid Anthropic backup, the sequence switch-to-Anthropic, switch-to-ZAI,
    switch-to-Anthropic leaves the credential stored in the backup file
    equal to the original after every step, whatever the environment of each
    invocation (variables, input, clock, failing system calls). *)
Theorem backup_credential_preserved home e1 e2 e3 w0 :
  let app := NewApplication home in
  settingsProvider app w0 = ProviderZAI →
  (backupCheck app quiet w0).1.1 = true →
  let w1 := after (switchToAnthropic app) e1 w0 in
  let w2 := after (switchToZAI TrimSpace ToLower app) e2 w1 in
  let w3 := after (switchToAnthropic app) e3 w2 in
  ∃ credential,
    backupCredential app w0 = Some credential
    ∧ backupCredential app w1 = Some credential
    ∧ backupCredential app w2 = Some credential
    ∧ backupCredential app w3 = Some credential.
Proof.
  intros app. pose proof (NewApplication_wellPlaced home) as Hwp. fold app in Hwp.
  clearbody app. intros Hzai Hvalid w1 w2 w3.
  pose proof Hwp as (Hsb & Hst & Hsbt & Hbst & Hbt & Htt).
  assert (Hcred : ∀ w w', docs w' !! backupFile app = docs w !! backupFile app →
                          backupCredential app w' = backupCredential app w).
  { intros w w' H. unfold backupCredential. by rewrite (backupCheck_ext app quiet w' w H). }
  (* the original backup *)
  assert (∃ b0, (backupCheck app quiet w0).1.2 = Some b0) as [b0 Hb0].
  { revert Hvalid. rewrite backupCheck_unfold. simpl. unfold never. simpl.
    destruct (docs w0 !! backupFile app) as [data|]; simpl; [|done].
    unfold backupDecision. destruct (UnmarshalBackupConfig data) as [bk [er|]].
    - destruct (UnmarshalConfig data) as [old er']. destruct (isNil er'); [eauto | done].
    - destruct (negb _); [done | eauto]. }
  exists (index (BackupEnv b0) "ANTHROPIC_AUTH_TOKEN").
  assert (H0 : backupCredential app w0 = Some (index (BackupEnv b0) "ANTHROPIC_AUTH_TOKEN")).
  { unfold backupCredential. by rewrite Hb0. }
  (* first step *)
  destruct (switchToAnthropic_after app e1 w0 Hwp) as (_ & Hframe1 & Hset1).
  fold w1 in Hframe1, Hset1.
  assert (H1 : backupCredential app w1 = backupCredential app w0).
  { apply Hcred, Hframe1; done. }
  (* second step *)
  assert (H2 : backupCredential app w2 = backupCredential app w1).
  { destruct (switchToZAI_after_backup app e2 w1 Hwp)
      as [Hsame | (c & Hl & Hprov & Hlen & Hu & Hfresh)].
    { by apply Hcred. }
    rewrite H1, H0. unfold backupCredential, w2.
    assert (Hc : validMap (EnvOf c) = true).
    { pose proof (loaded_valid app e2 w1) as Hv. by rewrite Hl in Hv. }
    rewrite backupCheck_unfold, Hfresh, (backupDecision_fresh e2 c Hc). simpl. f_equal.
    destruct Hset1 as [Hset1|Hset1].
    - (* the settings are still the Z.AI ones: no backup is attempted *)
      exfalso. rewrite (loaded_ext app e2 w1 w0 Hset1) in Hl.
      apply loaded_ok_quiet in Hl. unfold settingsProvider in Hzai.
      rewrite Hl in Hzai. simpl in Hzai. rewrite Hprov in Hzai. discriminate Hzai.
    - (* the settings are the restored ones *)
      rewrite loaded_unfold, Hset1 in Hl.
      destruct (readFails e2 _); [discriminate Hl|].
      rewrite UnmarshalConfig_encodeConfig in Hl by apply restoreTarget_valid.
      simpl in Hl. injection Hl as <-.
      unfold restoreTarget in *.
      destruct (usable (backupCheck app e1 w0)) as [b1|] eqn:Hu1.
      2:{ simpl in Hlen. rewrite map_size_empty in Hlen. lia. }
      assert (Hb1 : (backupCheck app e1 w0).1.2 = Some b1).
      { unfold usable in Hu1. by destruct ((backupCheck app e1 w0).1.1). }
      rewrite (backupCheck_faults app e1 w0 b1 Hb1) in Hb1.
      rewrite Hb0 in Hb1. injection Hb1 as <-.
      simpl. destruct (isNil _) eqn:Hnil; simpl.
      + destruct (fold_left godelete zaiEnvKeys (BackupEnv b0)) eqn:Hf; [done|].
        rewrite <-index_restore, Hf. done.
      + apply index_restore. }
  (* third step *)
  destruct (switchToAnthropic_after app e3 w2 Hwp) as (_ & Hframe3 & _).
  fold w3 in Hframe3.
  assert (H3 : backupCredential app w3 = backupCredential app w2).
  { apply Hcred, Hframe3; done. }
  split_and!; congruence.
Qed.

#[local] Arguments detectProvider : simpl never.

Lemma loaded_malformed app e w :
  malformedSettings app e w →
  ∃ err, loaded app e w = (None, Some (wrapError "failed to parse config" err)).
Proof.
  intros (Hr & data & err & Hd & He). exists err.
  by rewrite loaded_unfold, Hr, Hd, He.
Qed.

(** The exit status is 1 exactly when the operation returns an error. *)
Lemma main_run home cmd e w :
  returned (main TrimSpace ToLower home cmd) e w =
    let app := NewApplication home in
    match returned (match cmd with
                    | CmdAnthropic => switchToAnthropic app
                    | CmdZAI => switchToZAI TrimSpace ToLower app
                    | CmdStatus => showStatus app
                    | CmdClearToken => clearToken app
                    end) e w with
    | Some _ => 1
    | None => 0
    end.
Proof.
  cbv zeta. set (op := match cmd with CmdAnthropic => _ | _ => _ end).
  rewrite !returned_run. unfold main. rewrite bind_run. cbv zeta. fold op.
  destruct (op e _) as [[err|] p']; simpl; [|done].
  reflexivity.
Qed.

Lemma showStatus_load_error app e p err :
  (loaded app e (world p)).2 = Some err →
  showStatus app e p
  = (Some (wrapError "failed to load config" err),
     addOut p [Println "📊 Current Configuration Status"; Println ""]).
Proof.
  intros Hl. unfold showStatus.
  rewrite bind_run, say_run. simpl. rewrite bind_run, say_run. simpl.
  rewrite bind_run, loadConfig_run. simpl.
  destruct (loaded app e (world p)) as [c er]. simpl in *. subst er.
  by rewrite addOut_addOut.
Qed.

(** C3 (amended). When the settings file exists, is readable and does not
    decode as a configuration, switch-to-ZAI and show-status fail with the
    parse error, exit with status 1 and leave every file as it was.
    switch-to-Anthropic does not stop on it: it goes on to the backup check
    and, when its atomic write goes through, it succeeds and replaces the
    settings by the configuration restored from the backup (the empty one
    without a usable backup). *)
Theorem malformed_settings_fatal home e w :
  let app := NewApplication home in
  malformedSettings app e w →
  (failsOnSettings (switchToZAI TrimSpace ToLower app) app e w
   ∧ after (switchToZAI TrimSpace ToLower app) e w = w
   ∧ returned (main TrimSpace ToLower home CmdZAI) e w = 1)
  ∧ (failsOnSettings (showStatus app) app e w
     ∧ after (showStatus app) e w = w
     ∧ returned (main TrimSpace ToLower home CmdStatus) e w = 1)
  ∧ (cannotSave e (settingsFile app) = false →
     returned (switchToAnthropic app) e w = None
     ∧ docs (after (switchToAnthropic app) e w) !! settingsFile app
       = Some (Document (json.encodeConfig (restoreTarget (backupCheck app e w))))).
Proof.
  intros app Hbad. rewrite !main_run. fold app.
  pose proof (NewApplication_wellPlaced home) as Hwp. fold app in Hwp. clearbody app.
  destruct (loaded_malformed app e w Hbad) as [err Hl].
  set (p := mkProc w [] (input e)).
  assert (HZ : switchToZAI TrimSpace ToLower app e p
               = (Some (wrapError "failed to load config"
                          (wrapError "failed to parse config" err)),
                  addOut p [Println "🔄 Switching to Z.AI API..."])).
  { pose proof (switchToZAI_phases TrimSpace ToLower app e p) as H. simpl in H.
    by rewrite Hl in H. }
  assert (HS : showStatus app e p
               = (Some (wrapError "failed to load config"
                          (wrapError "failed to parse config" err)),
                  addOut p [Println "📊 Current Configuration Status"; Println ""])).
  { apply showStatus_load_error. simpl. by rewrite Hl. }
  unfold failsOnSettings, isParseError.
  rewrite !returned_run, !after_run. fold p. rewrite HZ, HS. simpl.
  split; [eauto 10|]. split; [eauto 10|].
  destruct Hwp as (_ & Hne & _).
  pose proof (switchToAnthropic_run app e p Hne) as H. simpl in H.
  rewrite Hl in H. simpl in H.
  destruct H as (r & d' & out & Hrun & _ & _ & Hres).
  intros Hsave. rewrite Hsave in Hres. rewrite Hrun. simpl. done.
Qed.

(** C5. During switch-to-ZAI, if the settings classify as Anthropic with a
    non-empty mapping, no valid Anthropic backup exists and writing the new
    backup fails, the transition aborts with an error (exit status 1): the
    credential prompt is never reached (no input is consumed, no token file
    is written, nothing is printed beyond the backup check) and the settings
    file and the backup slot are left as they were. *)
Theorem backup_failure_aborts home e w c :
  let app := NewApplication home in
  loaded app e w = (Some c, None) →
  detectProvider (Some c) = ProviderAnthropic →
  0 < len (Env c) →
  usable (backupCheck app e w) = None →
  cannotBackup e app = true →
  ∃ err p',
    switchToZAI TrimSpace ToLower app e (start e w)
    = (Some (wrapError "failed to backup Anthropic config (web login token)" err), p')
    ∧ stdin p' = input e
    ∧ texts (world p') = texts w
    ∧ stdout p' = backupCheckReport (backupCheck app e w)
    ∧ docs (world p') !! settingsFile app = docs w !! settingsFile app
    ∧ docs (world p') !! backupFile app = docs w !! backupFile app
    ∧ returned (main TrimSpace ToLower home CmdZAI) e w = 1.
Proof.
  intros app. rewrite main_run. fold app.
  pose proof (NewApplication_wellPlaced home) as Hwp. fold app in Hwp. clearbody app.
  intros Hl Hprov Hlen Hu Hfail.
  destruct Hwp as (Hsb & Hst & Hsbt & Hbst & Hbt & Htt).
  pose proof (switchToZAI_phases TrimSpace ToLower app e (start e w)) as H. simpl in H.
  rewrite Hl in H. simpl in H.
  unfold isZAIConfig in H. rewrite Hprov in H. simpl in H.
  destruct (Nat.ltb_spec 0 (len (Env c))); [|lia].
  rewrite Hu in H.
  destruct (createBackupWithMetadata_spec app (Some c) e
              (addOut (start e w) (backupCheckReport (backupCheck app e w))) Hbt)
    as (r & d' & Hcb & Hframe & Hres).
  rewrite Hcb in H. rewrite Hfail in Hres. destruct Hres as [[err ->] Hd].
  exists err. eexists. split; [exact H|]. simpl.
  rewrite returned_run. unfold start in H. rewrite H. simpl.
  split_and!; try done. apply Hframe; done.
Qed.

(** C10. During switch-to-ZAI from an Anthropic-classified non-empty
    configuration, if the backup check does not report a valid Anthropic
    backup (the slot is missing or unreadable, its document decodes under
    neither schema, or its provider is not Anthropic) and the backup write
    goes through, the operation does not abort: it overwrites the backup
    slot with a fresh Anthropic backup of the current configuration and goes
    on with the rest of the transition, with the settings, the token file
    and the input untouched so far. *)
Theorem invalid_backup_is_replaced home e w c :
  let app := NewApplication home in
  loaded app e w = (Some c, None) →
  detectProvider (Some c) = ProviderAnthropic →
  0 < len (Env c) →
  (backupCheck app e w).1.1 = false →
  cannotBackup e app = false →
  ∃ p1,
    switchToZAI TrimSpace ToLower app e (start e w)
    = switchToZAI_apply TrimSpace ToLower app e p1
    ∧ docs (world p1) !! backupFile app = Some (freshBackup e (Some c))
    ∧ docs (world p1) !! settingsFile app = docs w !! settingsFile app
    ∧ texts (world p1) = texts w
    ∧ stdin p1 = input e
    ∧ docs (after (switchToZAI TrimSpace ToLower app) e w) !! backupFile app
      = Some (freshBackup e (Some c)).
Proof.
  intros app.
  pose proof (NewApplication_wellPlaced home) as Hwp. fold app in Hwp. clearbody app.
  intros Hl Hprov Hlen Hinvalid Hok.
  destruct Hwp as (Hsb & Hst & Hsbt & Hbst & Hbt & Htt).
  assert (Hu : usable (backupCheck app e w) = None).
  { unfold usable. by rewrite Hinvalid. }
  pose proof (switchToZAI_phases TrimSpace ToLower app e (start e w)) as H. simpl in H.
  rewrite Hl in H. simpl in H.
  unfold isZAIConfig in H. rewrite Hprov in H. simpl in H.
  destruct (Nat.ltb_spec 0 (len (Env c))); [|lia].
  rewrite Hu in H.
  destruct (createBackupWithMetadata_spec app (Some c) e
              (addOut (start e w) (backupCheckReport (backupCheck app e w))) Hbt)
    as (r & d' & Hcb & Hframe & Hres).
  rewrite Hcb in H. rewrite Hok in Hres. destruct Hres as [-> Hd].
  eexists. split; [exact H|]. simpl.
  split_and!; try done.
  - apply Hframe; done.
  - rewrite after_run. unfold start in H. rewrite H.
    destruct (switchToZAI_apply_spec TrimSpace ToLower app e
                (addOut (setDocs (addOut (mkProc w [] (input e))
                   (backupCheckReport (backupCheck app e w))) d')
                   [Println "✅ Anthropic configuration backed up (web login token saved)"]) Hst)
      as (r & p' & -> & Hframe' & _).
    simpl. rewrite Hframe' by done. done.
Qed.

(** The causes of an invalid backup, as [hasValidAnthropicBackup] tells
    them apart. *)
Lemma backupCheck_invalid_causes app e w :
  (backupCheck app e w).1.1 = false ↔
    readFails e (backupFile app) = true
    ∨ docs w !! backupFile app = None
    ∨ ∃ data, docs w !! backupFile app = Some data
        ∧ match UnmarshalBackupConfig data with
          | (_, Some _) => is_Some (UnmarshalConfig data).2
          | (b, None) => Provider (Metadata b) ≠ ProviderAnthropic
          end.
Proof.
  rewrite backupCheck_unfold.
  destruct (statFails e _), (readFails e _), (docs w !! backupFile app) as [data|] eqn:Hd;
    simpl; try (split; [intros _; eauto | done]).
  all: unfold backupDecision.
  all: destruct (UnmarshalBackupConfig data) as [b [er|]] eqn:Hb.
  all: try (destruct (UnmarshalConfig data) as [old [er'|]] eqn:Ho; simpl).
  all: try (destruct (String.eqb_spec (Provider (Metadata b)) ProviderAnthropic); simpl).
  all: split; [intros ?; try done; right; right; exists data; rewrite Hb, ?Ho; eauto
              | intros [?|[?|(d & [= <-] & H)]]; try done ].
  all: rewrite Hb, ?Ho in H; simpl in H; try done; by destruct H.
Qed.

Lemma zaiEnv_dom (token : string) : dom (zaiEnv token) = sixKeys.
Proof. unfold zaiEnv, sixKeys. rewrite !dom_insert_L, dom_empty_L. set_solver. Qed.

Lemma zaiEnv_size (token : string) : size (zaiEnv token) = 6.
Proof.
  unfold zaiEnv. repeat (rewrite map_size_insert_None; [|by simplify_map_eq]).
  by rewrite map_size_empty.
Qed.

(** The Z.AI configuration, written and read back: the keys and the fixed
    values are ASCII, and the credential comes back as [encoding/json]
    wrote it. *)
Lemma zaiEnv_keys (token : string) :
  map_Forall (fun k _ => utf8.replaceInvalid k = k) (zaiEnv token).
Proof.
  unfold zaiEnv. repeat (apply map_Forall_insert_2; [by vm_compute|]).
  apply map_Forall_empty.
Qed.

Lemma zaiEnv_read (token : string) :
  utf8.replaceInvalid <$> zaiEnv token = zaiEnv (utf8.replaceInvalid token).
Proof.
  unfold zaiEnv. rewrite !fmap_insert, fmap_empty.
  change (utf8.replaceInvalid "https://api.z.ai/api/anthropic")
    with "https://api.z.ai/api/anthropic".
  change (utf8.replaceInvalid "3000000") with "3000000".
  change (utf8.replaceInvalid "GLM-4.6") with "GLM-4.6".
  change (utf8.replaceInvalid "GLM-4.5-Air") with "GLM-4.5-Air".
  done.
Qed.

Lemma loaded_zaiEnv app e w (token : string) :
  readFails e (settingsFile app) = false →
  docs w !! settingsFile app
  = Some (Document (json.encodeConfig (mkConfig (Some (zaiEnv token))))) →
  loaded app e w = (Some (mkConfig (Some (zaiEnv (utf8.replaceInvalid token)))), None).
Proof.
  intros Hr Hd. rewrite loaded_unfold, Hr, Hd.
  unfold UnmarshalConfig, json.encodeConfig, json.decodeConfig.
  cbn [fold_left Env]. unfold json.decodeConfigMember. cbn [fst snd Env].
  change (json.findField ["env"] (utf8.replaceInvalid "env")) with (Some "env").
  cbv iota beta.
  rewrite (decodeMap_encodeMap_keys "env" (zaiEnv token) None (zaiEnv_keys token)).
  by rewrite zaiEnv_read.
Qed.

(** C6 (amended). Whenever switch-to-ZAI, started from settings not already
    Z.AI, succeeds, a credential [t] was obtained, non-empty, and the
    settings file holds the encoding of the six-key mapping built around
    it.  Read back, the settings are exactly six keys: the five fixed Z.AI
    keys with their fixed values and ANTHROPIC_AUTH_TOKEN mapped to [t] with
    each byte that is not UTF-8 replaced by U+FFFD, which is [t] itself when
    [t] is UTF-8; no other key is present, whatever the configuration held
    before. *)
Theorem switchToZAI_writes_six_keys home e w :
  let app := NewApplication home in
  isZAIConfig (loaded app e w).1 = false →
  returned (switchToZAI TrimSpace ToLower app) e w = None →
  ∃ t,
    (promptForToken TrimSpace ToLower app e (start e w)).1 = (t, None)
    ∧ t ≠ ""
    ∧ docs (after (switchToZAI TrimSpace ToLower app) e w) !! settingsFile app
      = Some (Document (json.encodeConfig (mkConfig (Some (zaiEnv t)))))
    ∧ loaded app quiet (after (switchToZAI TrimSpace ToLower app) e w)
      = (Some (mkConfig (Some (zaiEnv (utf8.replaceInvalid t)))), None)
    ∧ (utf8.ValidString t = true →
       loaded app quiet (after (switchToZAI TrimSpace ToLower app) e w)
       = (Some (mkConfig (Some (zaiEnv t))), None))
    ∧ dom (zaiEnv (utf8.replaceInvalid t)) = sixKeys
    ∧ size (zaiEnv (utf8.replaceInvalid t)) = 6
    ∧ zaiEnv (utf8.replaceInvalid t) !! "ANTHROPIC_AUTH_TOKEN" = Some (utf8.replaceInvalid t)
    ∧ (∀ k, k ∉ sixKeys → zaiEnv (utf8.replaceInvalid t) !! k = None).
Proof.
  intros app.
  pose proof (NewApplication_wellPlaced home) as Hwp. fold app in Hwp. clearbody app.
  intros Hnz Hok.
  destruct Hwp as (Hsb & Hst & Hsbt & Hbst & Hbt & Htt).
  rewrite returned_run in Hok. rewrite after_run. fold (start e w) in *.
  (* every branch that succeeds goes through the second half *)
  assert (∃ p1, switchToZAI TrimSpace ToLower app e (start e w)
                = switchToZAI_apply TrimSpace ToLower app e p1
                ∧ sameInputs p1 (start e w)) as (p1 & Hrun & Hsame).
  { pose proof (switchToZAI_phases TrimSpace ToLower app e (start e w)) as H. simpl in H.
    destruct (loaded app e w) as [c err]. simpl in *.
    destruct err as [err|]; [rewrite H in Hok; discriminate Hok|].
    rewrite Hnz in H.
    destruct (_ && _).
    - destruct (usable _).
      + destruct H as [out ->]. by eexists.
      + destruct (createBackupWithMetadata_spec app c e
                    (addOut (start e w) (backupCheckReport (backupCheck app e w))) Hbt)
          as (r & d' & Hcb & _). rewrite Hcb in H.
        destruct r; [rewrite H in Hok; discriminate Hok|]. by eexists.
    - destruct H as [out ->]. by eexists. }
  rewrite Hrun in *.
  destruct (insensitive_promptForToken TrimSpace ToLower app e p1 (start e w) Hsame)
    as [Hprompt _].
  destruct (switchToZAI_apply_spec TrimSpace ToLower app e p1 Hst)
    as (r & p' & Happly & _ & Hres).
  rewrite Happly in *. simpl in *. subst r. rewrite Hprompt in Hres.
  destruct (promptForToken TrimSpace ToLower app e (start e w)) as [[t [err|]] p2] eqn:Hp;
    simpl in Hres; [by destruct Hres|].
  destruct (cannotSave e (settingsFile app)); [destruct Hres as [[? ?] _]; done|].
  destruct Hres as [_ Hdoc].
  exists t. split_and!.
  - done.
  - eapply (promptForToken_nonempty TrimSpace ToLower app e (start e w)). by rewrite Hp.
  - done.
  - by apply loaded_zaiEnv.
  - intros Ht%ValidString_spec. rewrite (loaded_zaiEnv app quiet _ t eq_refl Hdoc). by rewrite Ht.
  - apply zaiEnv_dom.
  - apply zaiEnv_size.
  - unfold zaiEnv. by simplify_map_eq.
  - intros k Hk. apply not_elem_of_dom. by rewrite zaiEnv_dom.
Qed.

End Claims.

#[local] Arguments detectProvider : simpl never.

Lemma loaded_readable app e w :
  readFails e (settingsFile app) = false → loaded app e w = loaded app quiet w.
Proof. intros Hr. rewrite !loaded_unfold, Hr. done. Qed.

Lemma anthropic_nonempty (c : option Config) :
  detectProvider c = ProviderAnthropic → 0 < len (EnvOf c).
Proof.
  unfold detectProvider. destruct c as [c|]; [|done]. simpl.
  destruct (Nat.eqb_spec (len (Env c)) 0); [done | lia].
Qed.

(** The configuration switch-to-Anthropic writes reads back as Anthropic
    when it has a key, and as unknown when it has none. *)
Lemma restoreTarget_provider h :
  let c := restoreTarget h in
  let c' := if isNil (Env c) then mkConfig make else c in
  isAnthropicConfig (Some c') = Nat.ltb 0 (len (Env c')).
Proof.
  unfold restoreTarget. destruct (usable h) as [b|]; [|done].
  cbv zeta. cbn [Env].
  destruct (BackupEnv b) as [g|]; [|done].
  cbn [fold_left zaiEnvKeys godelete isNil].
  unfold isAnthropicConfig, detectProvider. cbn [Env len index].
  rewrite !lookup_delete_ne, lookup_delete_eq by done. simpl.
  by destruct (Nat.eqb_spec (size (delete "ANTHROPIC_DEFAULT_HAIKU_MODEL"
     (delete "ANTHROPIC_DEFAULT_SONNET_MODEL" (delete "ANTHROPIC_DEFAULT_OPUS_MODEL"
     (delete "API_TIMEOUT_MS" (delete "ANTHROPIC_BASE_URL" g)))))) 0) as [->|];
    [|destruct (size _)].
Qed.

(** C8 (amended). Invoking switch-to-Anthropic twice in a row in the same
    environment leaves, after the second call, the settings file the first
    call left.  When the first call succeeded and the settings file is
    readable, the second call reports a no-op exactly when the settings
    mapping the first call left is non-empty; over an empty mapping it runs
    the restore again. *)
Theorem switchToAnthropic_twice home e w :
  let app := NewApplication home in
  let w1 := after (switchToAnthropic app) e w in
  let w2 := after (switchToAnthropic app) e w1 in
  docs w2 !! settingsFile app = docs w1 !! settingsFile app
  ∧ (returned (switchToAnthropic app) e w = None →
     readFails e (settingsFile app) = false →
     (reportedNoOp (printed (switchToAnthropic app) e w1)
      ↔ 0 < len (EnvOf (loaded app quiet w1).1))).
Proof.
  intros app.
  pose proof (NewApplication_wellPlaced home) as Hwp. fold app in Hwp. clearbody app.
  intros w1 w2. subst w2 w1.
  destruct Hwp as (Hsb & Hst & Hsbt & Hbst & Hbt & Htt).
  rewrite returned_run, printed_run, !after_run.
  pose proof (switchToAnthropic_run app e (mkProc w [] (input e)) Hst) as H1.
  cbn [world] in H1.
  set (noop1 := isNil (loaded app e w).2 && isAnthropicConfig (loaded app e w).1) in *.
  destruct noop1 eqn:Hn1.
  - (* the first call is already a no-op *)
    rewrite H1. cbn [world snd addOut fst].
    pose proof (switchToAnthropic_run app e (mkProc w [] (input e)) Hst) as H2.
    cbn [world] in H2. fold noop1 in H2. rewrite Hn1 in H2. rewrite H2.
    split; [done|]. intros _ Hr. cbn [snd stdout addOut List.app].
    split; intros _.
    + rewrite <-(loaded_readable app e) by done.
      apply anthropic_nonempty. unfold noop1 in Hn1.
      apply andb_true_iff in Hn1 as [_ Hn1]. by apply String.eqb_eq in Hn1.
    + unfold reportedNoOp, noOpReport. set_solver.
  - destruct H1 as (r1 & d1 & out1 & -> & _ & Hframe1 & Hres1).
    cbn [world snd addOut setDocs fst texts].
    set (w1 := {| docs := d1; texts := texts w |}).
    pose proof (switchToAnthropic_run app e (mkProc w1 [] (input e)) Hst) as H2.
    cbn [world] in H2.
    assert (Hb : backupCheck app e w1 = backupCheck app e w).
    { apply backupCheck_ext. simpl. apply Hframe1; done. }
    rewrite Hb in H2.
    set (noop2 := isNil (loaded app e w1).2 && isAnthropicConfig (loaded app e w1).1) in *.
    split.
    + destruct noop2; [by rewrite H2|].
      destruct H2 as (r2 & d2 & out2 & -> & _ & _ & Hres2). simpl.
      destruct (cannotSave e (settingsFile app)).
      * apply Hres2.
      * destruct Hres1 as [_ ->]. apply Hres2.
    + intros -> Hr.
      destruct (cannotSave e (settingsFile app)); [by destruct Hres1 as [[? ?] _]|].
      destruct Hres1 as [_ Hd1].
      assert (Hl : loaded app e w1
                   = (Some (if isNil (Env (restoreTarget (backupCheck app e w)))
                            then mkConfig make
                            else restoreTarget (backupCheck app e w)), None)).
      { apply loaded_encode; [apply restoreTarget_valid|done..]. }
      rewrite <-(loaded_readable app e) by done.
      pose proof (restoreTarget_provider (backupCheck app e w)) as Hp. cbv zeta in Hp.
      unfold noop2 in *. rewrite Hl in *. cbn [fst snd isNil andb EnvOf] in *.
      rewrite Hp in H2.
      destruct (Nat.ltb_spec 0 (len (Env (if isNil (Env (restoreTarget (backupCheck app e w)))
                            then mkConfig make
                            else restoreTarget (backupCheck app e w))))) as [Hlen|Hlen].
      * rewrite H2. cbn [snd stdout addOut List.app]. split; [done|].
        intros _. unfold reportedNoOp, noOpReport. set_solver.
      * destruct H2 as (r2 & d2 & out2 & -> & Hno & _). cbn [snd stdout addOut List.app].
        split; [done | lia].
Qed.

(** ** Sample runs *)

Example maskToken_short : maskToken "sk-12345" = "********".
Proof. reflexivity. Qed.

Example maskToken_long : maskToken "sk-test1234" = "sk-t...1234".
Proof. reflexivity. Qed.

Example detectProvider_samples :
  detectProvider None = ProviderUnknown
  ∧ detectProvider (Some (mkConfig None)) = ProviderUnknown
  ∧ detectProvider (Some (mkConfig (Some (zaiEnv "k")))) = ProviderZAI
  ∧ detectProvider (Some (mkConfig (Some anthropicEnv))) = ProviderAnthropic
  ∧ detectProvider (Some (mkConfig (Some {[ "ANTHROPIC_BASE_URL" := "https://proxy.example" ]})))
    = ProviderCustom.
Proof. vm_compute. done. Qed.

(** An empty directory and an exported key: the settings get the six keys,
    no backup is written, and the status shows the masked key. *)
Example fresh_switch_to_ZAI :
  let w := after (switchToZAI asciiTrimSpace asciiToLower app0) withToken emptyWorld in
  returned (switchToZAI asciiTrimSpace asciiToLower app0) withToken emptyWorld = None
  ∧ docs w !! settingsFile app0 = Some zaiSettings
  ∧ docs w !! backupFile app0 = None
  ∧ Printf ("  Auth Token: %s%s" +:+ nl) [OpString "sk-t...1234"; OpString " (API key)"]
    ∈ printed (showStatus app0) quiet w.
Proof.
  vm_compute. split_and!; try reflexivity.
  repeat first [apply list_elem_of_here | apply list_elem_of_further].
Qed.

(** Settings with an empty mapping and a key of the web-session shape: the
    advisory is printed, the switch succeeds, and no backup is written. *)
Example web_shaped_key_is_accepted :
  String.length dottedToken = 150
  ∧ detectTokenType dottedToken = TokenTypeAnthropic
  ∧ returned (switchToZAI asciiTrimSpace asciiToLower app0) withDottedToken blankWorld = None
  ∧ Println "⚠️  Warning: Token looks like an Anthropic web login token"
    ∈ printed (switchToZAI asciiTrimSpace asciiToLower app0) withDottedToken blankWorld
  ∧ docs (after (switchToZAI asciiTrimSpace asciiToLower app0) withDottedToken blankWorld)
      !! backupFile app0 = None.
Proof.
  split_and!; try (vm_compute; reflexivity).
  assert (H : printed (switchToZAI asciiTrimSpace asciiToLower app0) withDottedToken blankWorld
              = [ Println "🔄 Switching to Z.AI API...";
                  Println "⚠️  No Anthropic configuration to backup";
                  Println "   You may need to re-login when switching back";
                  Println "📌 Using token from ZAI_AUTH_TOKEN environment variable";
                  Println "⚠️  Warning: Token looks like an Anthropic web login token";
                  Println "   Z.AI typically uses API keys (sk-xxx or zai-xxx format)";
                  Println "✅ Z.AI configuration applied successfully";
                  Println "";
                  Println "💡 To switch back to Anthropic: claude-switch --anthropic" ])
    by (vm_compute; reflexivity).
  rewrite H. repeat first [apply list_elem_of_here | apply list_elem_of_further].
Qed.

(** A typed key is trimmed before it is stored. *)
Example typed_key :
  (promptForToken asciiTrimSpace asciiToLower app0 atKeyboard
     (start atKeyboard emptyWorld)).1 = ("sk-typed-key", None).
Proof. vm_compute. reflexivity. Qed.

(** No backup: switch-to-Anthropic writes the empty configuration and
    succeeds. *)
Example switch_to_Anthropic_without_backup :
  returned (switchToAnthropic app0) quiet emptyWorld = None
  ∧ docs (after (switchToAnthropic app0) quiet emptyWorld) !! settingsFile app0
    = Some (Document (json.encodeConfig (mkConfig make))).
Proof. vm_compute. done. Qed.

(** From Anthropic to Z.AI and back: the backup carries the web token under
    the Anthropic provider, and the settings come back as they were. *)
Example there_and_back :
  let w1 := after (switchToZAI asciiTrimSpace asciiToLower app0) withToken anthropicWorld in
  let w2 := after (switchToAnthropic app0) quiet w1 in
  backupCheck app0 quiet w1
  = (true,
     Some {| Metadata := mkBackupMetadata ProviderAnthropic "2025-01-01T00:00:00Z" Version;
             BackupEnv := Some anthropicEnv |},
     None)
  ∧ docs w1 !! settingsFile app0 = Some zaiSettings
  ∧ docs w2 !! settingsFile app0 = Some anthropicSettings.
Proof. vm_compute. done. Qed.

(** ** The legacy backup format *)

(** The document of a configuration alone, as version 2.0.0 wrote the
    backup, decodes as a backup record without a provider, with no error:
    the fallback is not entered and the backup is not accepted. *)
Lemma legacy_document_read app e w (c : Config) :
  readFails e (backupFile app) = false →
  docs w !! backupFile app = Some (Document (json.encodeConfig c)) →
  backupCheck app e w
  = (false,
     Some {| Metadata := mkBackupMetadata "" "" "";
             BackupEnv := Env (UnmarshalConfig (Document (json.encodeConfig c))).1 |},
     None).
Proof.
  intros Hr Hd. rewrite backupCheck_unfold, Hr, Hd. cbn [isNil]. rewrite andb_false_r.
  unfold backupDecision, UnmarshalBackupConfig, UnmarshalConfig, json.encodeConfig.
  unfold json.decodeBackupConfig, json.decodeConfig. cbn [fold_left].
  unfold json.decodeBackupConfigMember, json.decodeConfigMember. cbn [fst snd].
  change (json.findField ["_metadata"; "env"] (utf8.replaceInvalid "env")) with (Some "env").
  change (json.findField ["env"] (utf8.replaceInvalid "env")) with (Some "env").
  cbv iota beta. cbn [BackupEnv Env Metadata].
  by destruct (json.decodeMap "env" (json.encodeMap (Env c)) None None) as [m [err|]] eqn:Hm;
    [pose proof (f_equal snd Hm) as Hs; cbn [snd] in Hs;
     destruct (Env c) as [g|]; [simpl in Hs; rewrite decodeMap_members in Hs|]|].
Qed.

Lemma legacy_document_not_accepted app e w (m : gomap) :
  validMap m = true →
  readFails e (backupFile app) = false →
  docs w !! backupFile app = Some (Document (json.encodeConfig (mkConfig m))) →
  backupCheck app e w
  = (false, Some {| Metadata := mkBackupMetadata "" "" ""; BackupEnv := m |}, None).
Proof.
  intros Hm Hr Hd. rewrite (legacy_document_read app e w (mkConfig m) Hr Hd).
  by rewrite UnmarshalConfig_encodeConfig.
Qed.

(** C1 (defect). The backup file [{"env": {"ANTHROPIC_AUTH_TOKEN": ...}}],
    a bare configuration without [_metadata], is not reported as a valid
    Anthropic backup: [hasValidAnthropicBackup] returns false, with a record
    whose provider is empty, and no error. *)
Theorem hasValidAnthropicBackup_legacy_rejected :
  exec (hasValidAnthropicBackup app0) quiet legacyWorld
  = ((false,
      Some {| Metadata := mkBackupMetadata "" "" "";
              BackupEnv := Some {[ "ANTHROPIC_AUTH_TOKEN" := webToken ]} |},
      None),
     legacyWorld, []).
Proof. vm_compute. reflexivity. Qed.

(** The fallback is entered when the document does not decode as a backup
    record, as with a [_metadata] member that is not an object. *)
Example mistyped_metadata_accepted :
  backupCheck app0 quiet mistypedWorld
  = (true,
     Some {| Metadata := mkBackupMetadata ProviderAnthropic "" "";
             BackupEnv := Some anthropicEnv |},
     None).
Proof. vm_compute. reflexivity. Qed.

(** What follows for the transitions: over a legacy backup,
    switch-to-Anthropic restores nothing and writes the empty configuration,
    and switch-to-ZAI from Anthropic settings replaces the legacy backup. *)
Example legacy_backup_not_restored :
  returned (switchToAnthropic app0) quiet legacyWorld = None
  ∧ docs (after (switchToAnthropic app0) quiet legacyWorld) !! settingsFile app0
    = Some (Document (json.encodeConfig (mkConfig make))).
Proof. vm_compute. done. Qed.

Example legacy_backup_replaced :
  docs (after (switchToZAI asciiTrimSpace asciiToLower app0) withToken anthropicLegacyWorld)
    !! backupFile app0
  = Some (freshBackup withToken (Some (mkConfig (Some anthropicEnv)))).
Proof. vm_compute. reflexivity. Qed.

(** ** The statements at sample inputs *)

(** C2 at the Z.AI settings over the stamped backup. *)
Lemma backup_credential_preserved_witness :
  settingsProvider app0 zaiWorld = ProviderZAI
  ∧ (backupCheck app0 quiet zaiWorld).1.1 = true
  ∧ ∃ credential,
      backupCredential app0 zaiWorld = Some credential
      ∧ backupCredential app0 (after (switchToAnthropic app0) quiet zaiWorld)
        = Some credential
      ∧ backupCredential app0
          (after (switchToZAI asciiTrimSpace asciiToLower app0) withToken
             (after (switchToAnthropic app0) quiet zaiWorld))
        = Some credential
      ∧ backupCredential app0
          (after (switchToAnthropic app0) quiet
             (after (switchToZAI asciiTrimSpace asciiToLower app0) withToken
                (after (switchToAnthropic app0) quiet zaiWorld)))
        = Some credential.
Proof.
  split; [vm_compute; reflexivity|]. split; [vm_compute; reflexivity|].
  apply (backup_credential_preserved asciiTrimSpace asciiToLower home0
           quiet withToken quiet zaiWorld); vm_compute; reflexivity.
Defined.

(** C3 as stated fails for switch-to-Anthropic: over a settings file that
    is not JSON and no backup it returns success and overwrites the file with the
    empty configuration. *)
Lemma switchToAnthropic_overwrites_malformed_settings :
  malformedSettings app0 quiet brokenWorld
  ∧ returned (switchToAnthropic app0) quiet brokenWorld = None
  ∧ docs (after (switchToAnthropic app0) quiet brokenWorld) !! settingsFile app0
    = Some (Document (json.encodeConfig (mkConfig make)))
  ∧ returned (main asciiTrimSpace asciiToLower home0 CmdAnthropic) quiet brokenWorld = 0
  ∧ ¬ failsOnSettings (switchToAnthropic app0) app0 quiet brokenWorld.
Proof.
  split_and!.
  - split; [reflexivity|]. exists Malformed, SyntaxError. split; vm_compute; reflexivity.
  - vm_compute. reflexivity.
  - vm_compute. reflexivity.
  - vm_compute. reflexivity.
  - intros [(msg & err & H) _]. vm_compute in H. discriminate H.
Qed.

(** C3 (amended) at the settings file that is not JSON. *)
Lemma malformed_settings_fatal_witness :
  malformedSettings app0 withToken brokenWorld
  ∧ cannotSave withToken (settingsFile app0) = false
  ∧ (failsOnSettings (switchToZAI asciiTrimSpace asciiToLower app0) app0 withToken brokenWorld
     ∧ after (switchToZAI asciiTrimSpace asciiToLower app0) withToken brokenWorld = brokenWorld
     ∧ returned (main asciiTrimSpace asciiToLower home0 CmdZAI) withToken brokenWorld = 1)
  ∧ (failsOnSettings (showStatus app0) app0 withToken brokenWorld
     ∧ after (showStatus app0) withToken brokenWorld = brokenWorld
     ∧ returned (main asciiTrimSpace asciiToLower home0 CmdStatus) withToken brokenWorld = 1)
  ∧ returned (switchToAnthropic app0) withToken brokenWorld = None
  ∧ docs (after (switchToAnthropic app0) withToken brokenWorld) !! settingsFile app0
    = Some (Document (json.encodeConfig
              (restoreTarget (backupCheck app0 withToken brokenWorld)))).
Proof.
  assert (H : malformedSettings app0 withToken brokenWorld).
  { split; [reflexivity|]. exists Malformed, SyntaxError. split; vm_compute; reflexivity. }
  assert (Hsave : cannotSave withToken (settingsFile app0) = false)
    by (vm_compute; reflexivity).
  destruct (malformed_settings_fatal asciiTrimSpace asciiToLower home0 withToken brokenWorld H)
    as (HZ & HS & HA).
  split; [exact H|]. split; [exact Hsave|]. split; [exact HZ|]. split; [exact HS|].
  exact (HA Hsave).
Defined.

(** C5 at Anthropic settings without a backup, on the disk that refuses the
    backup. *)
Lemma backup_failure_aborts_witness :
  loaded app0 backupDiskFull anthropicWorld = (Some (mkConfig (Some anthropicEnv)), None)
  ∧ detectProvider (Some (mkConfig (Some anthropicEnv))) = ProviderAnthropic
  ∧ 0 < len (Some anthropicEnv)
  ∧ usable (backupCheck app0 backupDiskFull anthropicWorld) = None
  ∧ cannotBackup backupDiskFull app0 = true
  ∧ ∃ err p',
      switchToZAI asciiTrimSpace asciiToLower app0 backupDiskFull
        (start backupDiskFull anthropicWorld)
      = (Some (wrapError "failed to backup Anthropic config (web login token)" err), p')
      ∧ stdin p' = input backupDiskFull
      ∧ texts (world p') = texts anthropicWorld
      ∧ stdout p' = backupCheckReport (backupCheck app0 backupDiskFull anthropicWorld)
      ∧ docs (world p') !! settingsFile app0 = docs anthropicWorld !! settingsFile app0
      ∧ docs (world p') !! backupFile app0 = docs anthropicWorld !! backupFile app0
      ∧ returned (main asciiTrimSpace asciiToLower home0 CmdZAI) backupDiskFull anthropicWorld = 1.
Proof.
  assert (H1 : loaded app0 backupDiskFull anthropicWorld
               = (Some (mkConfig (Some anthropicEnv)), None)) by (vm_compute; reflexivity).
  assert (H2 : detectProvider (Some (mkConfig (Some anthropicEnv))) = ProviderAnthropic)
    by (vm_compute; reflexivity).
  assert (H3 : 0 < len (Some anthropicEnv)) by (vm_compute; lia).
  assert (H4 : usable (backupCheck app0 backupDiskFull anthropicWorld) = None)
    by (vm_compute; reflexivity).
  assert (H5 : cannotBackup backupDiskFull app0 = true) by (vm_compute; reflexivity).
  split_and!; try assumption.
  exact (backup_failure_aborts asciiTrimSpace asciiToLower home0 backupDiskFull
           anthropicWorld (mkConfig (Some anthropicEnv)) H1 H2 H3 H4 H5).
Defined.

(** C10 at Anthropic settings over the legacy backup. *)
Lemma invalid_backup_is_replaced_witness :
  loaded app0 withToken anthropicLegacyWorld = (Some (mkConfig (Some anthropicEnv)), None)
  ∧ detectProvider (Some (mkConfig (Some anthropicEnv))) = ProviderAnthropic
  ∧ 0 < len (Some anthropicEnv)
  ∧ (backupCheck app0 withToken anthropicLegacyWorld).1.1 = false
  ∧ cannotBackup withToken app0 = false
  ∧ ∃ p1,
      switchToZAI asciiTrimSpace asciiToLower app0 withToken
        (start withToken anthropicLegacyWorld)
      = switchToZAI_apply asciiTrimSpace asciiToLower app0 withToken p1
      ∧ docs (world p1) !! backupFile app0
        = Some (freshBackup withToken (Some (mkConfig (Some anthropicEnv))))
      ∧ docs (world p1) !! settingsFile app0 = docs anthropicLegacyWorld !! settingsFile app0
      ∧ texts (world p1) = texts anthropicLegacyWorld
      ∧ stdin p1 = input withToken
      ∧ docs (after (switchToZAI asciiTrimSpace asciiToLower app0) withToken
                anthropicLegacyWorld) !! backupFile app0
        = Some (freshBackup withToken (Some (mkConfig (Some anthropicEnv)))).
Proof.
  assert (H1 : loaded app0 withToken anthropicLegacyWorld
               = (Some (mkConfig (Some anthropicEnv)), None)) by (vm_compute; reflexivity).
  assert (H2 : detectProvider (Some (mkConfig (Some anthropicEnv))) = ProviderAnthropic)
    by (vm_compute; reflexivity).
  assert (H3 : 0 < len (Some anthropicEnv)) by (vm_compute; lia).
  assert (H4 : (backupCheck app0 withToken anthropicLegacyWorld).1.1 = false)
    by (vm_compute; reflexivity).
  assert (H5 : cannotBackup withToken app0 = false) by (vm_compute; reflexivity).
  split_and!; try assumption.
  exact (invalid_backup_is_replaced asciiTrimSpace asciiToLower home0 withToken
           anthropicLegacyWorld (mkConfig (Some anthropicEnv)) H1 H2 H3 H4 H5).
Defined.

(** C6 as stated fails for a credential that is not UTF-8: with the key
    [sk-] followed by the byte 0xFF exported, switch-to-ZAI succeeds with
    that credential, and the settings it leaves map ANTHROPIC_AUTH_TOKEN to
    [sk-] followed by U+FFFD, not to the credential. *)
Lemma switchToZAI_stores_another_credential :
  isZAIConfig (loaded app0 withRawToken tunedWorld).1 = false
  ∧ returned (switchToZAI asciiTrimSpace asciiToLower app0) withRawToken tunedWorld = None
  ∧ (promptForToken asciiTrimSpace asciiToLower app0 withRawToken
       (start withRawToken tunedWorld)).1 = (rawToken, None)
  ∧ index (EnvOf (loaded app0 quiet
                    (after (switchToZAI asciiTrimSpace asciiToLower app0) withRawToken
                       tunedWorld)).1) "ANTHROPIC_AUTH_TOKEN"
    = "sk-" +:+ utf8.RuneError
  ∧ index (EnvOf (loaded app0 quiet
                    (after (switchToZAI asciiTrimSpace asciiToLower app0) withRawToken
                       tunedWorld)).1) "ANTHROPIC_AUTH_TOKEN"
    ≠ rawToken.
Proof.
  split_and!; try (vm_compute; reflexivity). vm_compute. discriminate.
Qed.

(** C6 (amended) at settings that hold a key of their own, with an exported
    key: the key is there before the switch and gone after it. *)
Lemma switchToZAI_writes_six_keys_witness :
  index (EnvOf (loaded app0 withToken tunedWorld).1) "DISABLE_TELEMETRY" = "1"
  ∧ isZAIConfig (loaded app0 withToken tunedWorld).1 = false
  ∧ returned (switchToZAI asciiTrimSpace asciiToLower app0) withToken tunedWorld = None
  ∧ ∃ t,
      (promptForToken asciiTrimSpace asciiToLower app0 withToken
         (start withToken tunedWorld)).1 = (t, None)
      ∧ t ≠ ""
      ∧ docs (after (switchToZAI asciiTrimSpace asciiToLower app0) withToken tunedWorld)
          !! settingsFile app0
        = Some (Document (json.encodeConfig (mkConfig (Some (zaiEnv t)))))
      ∧ loaded app0 quiet
          (after (switchToZAI asciiTrimSpace asciiToLower app0) withToken tunedWorld)
        = (Some (mkConfig (Some (zaiEnv (utf8.replaceInvalid t)))), None)
      ∧ (utf8.ValidString t = true →
         loaded app0 quiet
           (after (switchToZAI asciiTrimSpace asciiToLower app0) withToken tunedWorld)
         = (Some (mkConfig (Some (zaiEnv t))), None))
      ∧ dom (zaiEnv (utf8.replaceInvalid t)) = sixKeys
      ∧ size (zaiEnv (utf8.replaceInvalid t)) = 6
      ∧ zaiEnv (utf8.replaceInvalid t) !! "ANTHROPIC_AUTH_TOKEN"
        = Some (utf8.replaceInvalid t)
      ∧ (∀ k, k ∉ sixKeys → zaiEnv (utf8.replaceInvalid t) !! k = None).
Proof.
  assert (H0 : index (EnvOf (loaded app0 withToken tunedWorld).1) "DISABLE_TELEMETRY" = "1")
    by (vm_compute; reflexivity).
  assert (H1 : isZAIConfig (loaded app0 withToken tunedWorld).1 = false)
    by (vm_compute; reflexivity).
  assert (H2 : returned (switchToZAI asciiTrimSpace asciiToLower app0) withToken tunedWorld
               = None) by (vm_compute; reflexivity).
  split_and!; try assumption.
  exact (switchToZAI_writes_six_keys asciiTrimSpace asciiToLower home0 withToken
           tunedWorld H1 H2).
Defined.

(** C8 as stated fails in an empty directory: the first call writes the
    empty configuration, which does not classify as Anthropic, and the
    second call runs the restore again instead of reporting a no-op. *)
Lemma second_call_repeats_restore :
  printed (switchToAnthropic app0) quiet (after (switchToAnthropic app0) quiet emptyWorld)
  = [ Println "🔄 Switching to Anthropic API...";
      Println "❌ No valid Anthropic backup found!";
      Println "⚠️  Cannot restore Anthropic web login token without backup.";
      Println "   You may need to re-login to Claude Code.";
      Println "";
      Println "⚠️  Created empty configuration (re-login required)" ]
  ∧ ¬ twiceIsNoOp app0 quiet emptyWorld.
Proof.
  assert (Hout : printed (switchToAnthropic app0) quiet
                   (after (switchToAnthropic app0) quiet emptyWorld)
                 = [ Println "🔄 Switching to Anthropic API...";
                     Println "❌ No valid Anthropic backup found!";
                     Println "⚠️  Cannot restore Anthropic web login token without backup.";
                     Println "   You may need to re-login to Claude Code.";
                     Println "";
                     Println "⚠️  Created empty configuration (re-login required)" ])
    by (vm_compute; reflexivity).
  split; [exact Hout|].
  intros [_ H]. unfold reportedNoOp in H. rewrite Hout in H.
  repeat (apply elem_of_cons in H as [H|H]; [discriminate H|]).
  by apply elem_of_nil in H.
Qed.

(** C8 (amended) at the Z.AI settings over the stamped backup: the first
    call restores a non-empty mapping and the second reports a no-op. *)
Lemma switchToAnthropic_twice_witness :
  returned (switchToAnthropic app0) quiet zaiWorld = None
  ∧ readFails quiet (settingsFile app0) = false
  ∧ docs (after (switchToAnthropic app0) quiet (after (switchToAnthropic app0) quiet zaiWorld))
      !! settingsFile app0
    = docs (after (switchToAnthropic app0) quiet zaiWorld) !! settingsFile app0
  ∧ (reportedNoOp (printed (switchToAnthropic app0) quiet
                     (after (switchToAnthropic app0) quiet zaiWorld))
     ↔ 0 < len (EnvOf (loaded app0 quiet
                         (after (switchToAnthropic app0) quiet zaiWorld)).1))
  ∧ 0 < len (EnvOf (loaded app0 quiet (after (switchToAnthropic app0) quiet zaiWorld)).1).
Proof.
  assert (H1 : returned (switchToAnthropic app0) quiet zaiWorld = None)
    by (vm_compute; reflexivity).
  assert (H2 : readFails quiet (settingsFile app0) = false) by reflexivity.
  destruct (switchToAnthropic_twice home0 quiet zaiWorld) as [Hsame Hiff].
  split; [exact H1|]. split; [exact H2|]. split; [exact Hsame|].
  split; [exact (Hiff H1 H2)|].
  vm_compute. lia.
Defined.

(** * Further properties of the code *)

(** ** The two documents, written and read back *)

(** A file and its temporary sibling have different names. *)
Lemma tmp_distinct (f : string) : f ≠ f +:+ ".tmp".
Proof.
  intros H. apply (f_equal String.length) in H.
  rewrite string_app_length in H. simpl in H. lia.
Qed.

(** [loadConfig] on any file, case by case. *)
Lemma loadConfig_unfold app f e p :
  loadConfig app f e p
  = (if readFails e f then (None, Some (ErrFault "open" f))
     else match docs (world p) !! f with
          | None => (Some (mkConfig make), None)
          | Some data =>
              match (UnmarshalConfig data).2 with
              | Some err => (None, Some (wrapError "failed to parse config" err))
              | None =>
                  (Some (if isNil (Env (UnmarshalConfig data).1) then mkConfig make
                         else (UnmarshalConfig data).1), None)
              end
          end, p).
Proof.
  change (loadConfig app f) with
    (loadConfig (mkApplication f "" "") (settingsFile (mkApplication f "" ""))).
  rewrite loadConfig_run, loaded_unfold. done.
Qed.

(** [saveConfigAtomic], fault by fault. *)
Lemma saveConfigAtomic_cases app f c e p :
  saveConfigAtomic app f c e p =
    let tmp := f +:+ ".tmp" in
    let data := Document (json.encodeConfig c) in
    let d := docs (world p) in
    if mkdirFails e (filepath.Dir f) then
      (Some (wrapError "failed to create directory" (ErrFault "mkdir" (filepath.Dir f))), p)
    else if writeFails e tmp then
      (Some (wrapError "failed to write temp config"
               (ErrFault (os.faultOp (writeFault e tmp)) tmp)),
       match os.leftover (fun _ _ => Malformed) (writeFault e tmp) data with
       | Some rest => setDocs p (<[tmp := rest]> d)
       | None => p
       end)
    else if renameFails e tmp then
      (Some (wrapError "failed to save config" (ErrFault "rename" tmp)),
       setDocs p (if removeFails e tmp then <[tmp := data]> d
                  else delete tmp (<[tmp := data]> d)))
    else (None, setDocs p (<[f := data]> (delete tmp (<[tmp := data]> d)))).
Proof.
  cbv zeta. unfold saveConfigAtomic.
  rewrite bind_run. unfold os.MkdirAll at 1 2.
  destruct (mkdirFails e _); simpl; [done|].
  rewrite bind_run. unfold os.WriteFile at 1 2.
  destruct (writeFails e _); simpl; [by destruct (writeFault e _)|].
  rewrite bind_run. unfold os.Rename at 1 2. simpl. rewrite lookup_insert_eq.
  destruct (renameFails e _); simpl; [|done].
  rewrite bind_run. unfold os.Remove. simpl. rewrite lookup_insert_eq.
  by destruct (removeFails e _).
Qed.

(** The decision on a document [createBackupWithMetadata] wrote, whatever
    the provider stamped on it. *)
Lemma backupDecision_encode_any (b : BackupConfig) :
  validBackup b = true →
  backupDecision (Document (json.encodeBackupConfig b))
  = (String.eqb (Provider (Metadata b)) ProviderAnthropic, Some b, None).
Proof.
  intros Hb. unfold backupDecision. rewrite UnmarshalBackupConfig_encodeBackupConfig by done.
  by destruct (String.eqb _ _).
Qed.

(** X1. What [saveConfigAtomic] wrote, [loadConfig] reads back, for a
    configuration whose keys and values are UTF-8: when no step of the
    write fails the call returns nil, and a later readable load of the same
    file returns the saved mapping with a nil error; a nil mapping comes
    back as the empty one.  (Text that is not UTF-8 does not come back:
    [encoding/json] writes U+FFFD in its place.) *)
Theorem save_then_load app f c e e' p :
  validMap (Env c) = true →
  cannotSave e f = false →
  readFails e' f = false →
  (saveConfigAtomic app f c e p).1 = None
  ∧ (loadConfig app f e' (saveConfigAtomic app f c e p).2).1
    = (Some (mkConfig (Some (default ∅ (Env c)))), None).
Proof.
  intros Hc Hsave Hread.
  destruct (saveConfigAtomic_spec app f c e p (tmp_distinct f)) as (r & d' & -> & _ & Hres).
  rewrite Hsave in Hres. destruct Hres as [-> Hd]. split; [done|].
  rewrite loadConfig_unfold, Hread. simpl. rewrite Hd, UnmarshalConfig_encodeConfig by done.
  simpl. by destruct c as [[g|]].
Qed.

(** X2. The write of [saveConfigAtomic] is all or nothing.  It touches no
    plain-text file, prints nothing and reads no input, and leaves every
    document other than the target and its [.tmp] sibling alone.  It returns
    an error exactly when creating the directory, writing the temporary file
    or renaming it fails, and then the target is as before; on success the
    target holds the encoded configuration and no temporary file is left.
    When only the rename fails the temporary file is removed, provided the
    removal itself goes through. *)
Theorem saveConfigAtomic_atomic app f c e p :
  let r := (saveConfigAtomic app f c e p).1 in
  let p' := (saveConfigAtomic app f c e p).2 in
  let tmp := f +:+ ".tmp" in
  texts (world p') = texts (world p) ∧ stdout p' = stdout p ∧ stdin p' = stdin p
  ∧ (∀ q, q ≠ f → q ≠ tmp → docs (world p') !! q = docs (world p) !! q)
  ∧ (is_Some r ↔ cannotSave e f = true)
  ∧ (is_Some r → docs (world p') !! f = docs (world p) !! f)
  ∧ (r = None →
     docs (world p') !! f = Some (Document (json.encodeConfig c))
     ∧ docs (world p') !! tmp = None)
  ∧ (mkdirFails e (filepath.Dir f) = false → writeFails e tmp = false →
     renameFails e tmp = true → removeFails e tmp = false →
     docs (world p') !! tmp = None).
Proof.
  pose proof (tmp_distinct f) as Hne.
  cbv zeta. rewrite saveConfigAtomic_cases. unfold cannotSave. cbv zeta.
  destruct (mkdirFails e _), (writeFails e _), (writeFault e (f +:+ ".tmp")),
           (renameFails e _), (removeFails e _);
    simpl; split_and!; try done.
  all: try (split; [done | eauto]).
  all: try (split; [by intros [? ?] | done]).
  all: try (by intros [? ?]).
  all: intros; simplify_map_eq; done.
Qed.

(** X3. What [createBackupWithMetadata] wrote, [hasValidAnthropicBackup]
    reads back, where the mapping of the configuration, the provider and
    the time of the clock are UTF-8: when writing the backup does not fail,
    a later readable check returns the record just written (the provider
    given, the time of the clock, the program version, the mapping of the
    configuration), without an error, and reports it valid exactly when the
    provider stamped on it is [anthropic]. *)
Theorem backup_then_check app (config : Config) provider e e' p :
  validMap (Env config) = true →
  utf8.ValidString provider = true →
  utf8.ValidString (now e) = true →
  cannotBackup e app = false →
  readFails e' (backupFile app) = false →
  (createBackupWithMetadata app (Some config) provider e p).1 = None
  ∧ backupCheck app e' (world (createBackupWithMetadata app (Some config) provider e p).2)
    = (String.eqb provider ProviderAnthropic,
       Some {| Metadata := mkBackupMetadata provider (now e) Version;
               BackupEnv := Env config |},
       None).
Proof.
  unfold cannotBackup. intros Hc Hp Hn Hok Hread.
  apply orb_false_iff in Hok as [Hw Hr].
  unfold createBackupWithMetadata.
  rewrite !bind_run. unfold timeNow. simpl.
  rewrite !bind_run. unfold os.WriteFile. rewrite Hw. simpl.
  rewrite !bind_run. unfold os.Rename. rewrite Hr. simpl.
  rewrite lookup_insert_eq. simpl. split; [done|].
  rewrite backupCheck_unfold, Hread. simpl. rewrite lookup_insert_eq. simpl.
  rewrite andb_false_r. rewrite backupDecision_encode_any; [done|].
  unfold validBackup, validMetadata. simpl. by rewrite Hc, Hp, Hn.
Qed.

(** X4. The result of [loadConfig]: it changes nothing; it returns either
    a configuration whose mapping is not nil with a nil error, or a nil
    configuration with an error; and a file that is not there is not an
    error but the empty configuration. *)
Theorem loadConfig_result app f e p :
  (loadConfig app f e p).2 = p
  ∧ match (loadConfig app f e p).1 with
    | (Some c, None) => ∃ g, Env c = Some g
    | (None, Some _) => True
    | _ => False
    end
  ∧ (readFails e f = false → docs (world p) !! f = None →
     (loadConfig app f e p).1 = (Some (mkConfig make), None)).
Proof.
  rewrite loadConfig_unfold. simpl. split; [done|]. split.
  - destruct (readFails e f); [done|].
    destruct (docs (world p) !! f) as [data|]; [|by eexists].
    destruct (UnmarshalConfig data) as [c [err|]]; simpl; [done|].
    destruct (Env c) eqn:Hc; simpl; by eexists.
  - by intros -> ->.
Qed.

(** X5. The three results of [hasValidAnthropicBackup] agree: it changes
    nothing; [true] comes with a record whose provider is [anthropic] and
    no error; a record with [false] has another provider and no error; and
    a backup file that is not there gives [(false, nil, nil)]. *)
Theorem hasValidAnthropicBackup_result app e p :
  (hasValidAnthropicBackup app e p).2 = p
  ∧ match (hasValidAnthropicBackup app e p).1 with
    | (true, Some b, None) => Provider (Metadata b) = ProviderAnthropic
    | (false, Some b, None) => Provider (Metadata b) ≠ ProviderAnthropic
    | (false, None, _) => True
    | _ => False
    end
  ∧ (statFails e (backupFile app) = false → docs (world p) !! backupFile app = None →
     (hasValidAnthropicBackup app e p).1 = (false, None, None)).
Proof.
  rewrite hasValidAnthropicBackup_run. simpl. split; [done|].
  rewrite backupCheck_unfold. split.
  - destruct (negb _ && _); [done|].
    destruct (readFails e _); [done|].
    destruct (docs (world p) !! backupFile app) as [data|]; [|done].
    unfold backupDecision.
    destruct (UnmarshalBackupConfig data) as [b [err|]].
    + destruct (UnmarshalConfig data) as [old err']. by destruct (isNil err').
    + by destruct (String.eqb_spec (Provider (Metadata b)) ProviderAnthropic).
  - by intros -> ->.
Qed.

(** ** The transitions as a whole *)

(** The mapping [switchToAnthropic] restores, key by key. *)
Lemma lookup_minus_keys (g : gmap string string) (k : string) :
  default ∅ (fold_left godelete zaiEnvKeys (Some g)) !! k
  = if isZAIKey k then None else g !! k.
Proof.
  unfold isZAIKey, zaiEnvKeys. simpl.
  repeat match goal with
  | |- context [String.eqb k ?s] =>
      destruct (String.eqb_spec k s) as [->|?];
        [by rewrite ?lookup_delete_ne, lookup_delete_eq by done|]
  end.
  by rewrite !lookup_delete_ne.
Qed.

Lemma index_minus_keys (m : gomap) (k : string) :
  index (fold_left godelete zaiEnvKeys m) k = if isZAIKey k then "" else index m k.
Proof.
  destruct m as [g|]; [|by destruct (isZAIKey k)].
  change (fold_left godelete zaiEnvKeys (Some g))
    with (Some (default ∅ (fold_left godelete zaiEnvKeys (Some g)))).
  unfold index at 1. rewrite lookup_minus_keys. by destruct (isZAIKey k).
Qed.

(** The configuration [switchToZAI] builds classifies as Z.AI, and an empty
    mapping as unknown; an Anthropic configuration has no base URL. *)
Lemma zaiEnv_provider (t : string) :
  detectProvider (Some (mkConfig (Some (zaiEnv t)))) = ProviderZAI.
Proof.
  unfold detectProvider. simpl. rewrite zaiEnv_size. simpl.
  unfold zaiEnv. by simplify_map_eq.
Qed.

Lemma empty_provider (c : option Config) :
  len (EnvOf c) = 0 → detectProvider c = ProviderUnknown.
Proof.
  destruct c as [[m]|]; [|done]. unfold detectProvider. simpl. by intros ->.
Qed.

Lemma anthropic_base_url (c : option Config) :
  detectProvider c = ProviderAnthropic → index (EnvOf c) "ANTHROPIC_BASE_URL" = "".
Proof.
  destruct c as [[m]|]; [|done]. unfold detectProvider. simpl.
  destruct (Nat.eqb (len m) 0); [done|].
  destruct (strings.Contains _ _); [done|].
  destruct (String.eqb_spec (index m "ANTHROPIC_BASE_URL") ""); done.
Qed.

(** The check of a backup file that is there. *)
Lemma backupCheck_present app e w data :
  docs w !! backupFile app = Some data → readFails e (backupFile app) = false →
  backupCheck app e w = backupDecision data.
Proof.
  intros Hd Hr. rewrite backupCheck_unfold, Hd, Hr. simpl. by rewrite andb_false_r.
Qed.

Lemma usable_present app e w b :
  usable (backupCheck app e w) = Some b →
  ∃ data, docs w !! backupFile app = Some data ∧ backupCheck app e w = backupDecision data.
Proof.
  rewrite backupCheck_unfold. unfold usable.
  destruct (negb _ && isNil _); [done|].
  destruct (readFails e _); [done|].
  destruct (docs w !! backupFile app) as [data|]; [eauto|done].
Qed.

Section Outcomes.

Variables TrimSpace ToLower : string → string.

(** What [switchToZAI_apply] leaves in the settings file. *)
Lemma switchToZAI_apply_settings app e p :
  settingsFile app ≠ settingsFile app +:+ ".tmp" →
  let r := (switchToZAI_apply TrimSpace ToLower app e p).1 in
  let p' := (switchToZAI_apply TrimSpace ToLower app e p).2 in
  (∀ q, q ≠ settingsFile app → q ≠ settingsFile app +:+ ".tmp" →
     docs (world p') !! q = docs (world p) !! q)
  ∧ ((is_Some r ∧ docs (world p') !! settingsFile app = docs (world p) !! settingsFile app)
     ∨ (r = None ∧ ∃ t, t ≠ ""
          ∧ docs (world p') !! settingsFile app
            = Some (Document (json.encodeConfig (mkConfig (Some (zaiEnv t))))))).
Proof.
  intros Hne. cbv zeta.
  destruct (switchToZAI_apply_spec TrimSpace ToLower app e p Hne) as (r & p' & -> & Hframe & Hres).
  simpl. split; [done|].
  destruct (promptForToken TrimSpace ToLower app e p).1 as [t err] eqn:Hp. simpl in Hres.
  destruct err as [err|].
  - destruct Hres as [-> Hd]. left. eauto.
  - destruct (cannotSave e (settingsFile app)).
    + left. done.
    + destruct Hres as [-> Hd]. right. split; [done|]. exists t. split; [|done].
      by eapply promptForToken_nonempty.
Qed.

(** The three ways a call of [switchToZAI] ends: an error with the
    settings as before, the no-op, or Z.AI settings around a credential. *)
Lemma switchToZAI_outcome app e p :
  wellPlaced app →
  let r := (switchToZAI TrimSpace ToLower app e p).1 in
  let p' := (switchToZAI TrimSpace ToLower app e p).2 in
  (∀ q, q ≠ settingsFile app → q ≠ settingsFile app +:+ ".tmp" →
        q ≠ backupFile app → q ≠ backupFile app +:+ ".tmp" →
     docs (world p') !! q = docs (world p) !! q)
  ∧ ((is_Some r ∧ docs (world p') !! settingsFile app = docs (world p) !! settingsFile app)
     ∨ (r = None ∧ p' = addOut p noOpReportZAI
        ∧ ∃ c, loaded app e (world p) = (c, None) ∧ isZAIConfig c = true)
     ∨ (r = None ∧ ∃ t, t ≠ ""
          ∧ docs (world p') !! settingsFile app
            = Some (Document (json.encodeConfig (mkConfig (Some (zaiEnv t))))))).
Proof.
  intros (Hsb & Hst & Hsbt & Hbst & Hbt & Htt). cbv zeta.
  assert (Happly : ∀ q out, docs (world q) = docs (world p) →
    let r := (switchToZAI_apply TrimSpace ToLower app e (addOut q out)).1 in
    let p' := (switchToZAI_apply TrimSpace ToLower app e (addOut q out)).2 in
    (∀ f, f ≠ settingsFile app → f ≠ settingsFile app +:+ ".tmp" →
          f ≠ backupFile app → f ≠ backupFile app +:+ ".tmp" →
       docs (world p') !! f = docs (world p) !! f)
    ∧ ((is_Some r ∧ docs (world p') !! settingsFile app = docs (world p) !! settingsFile app)
       ∨ (r = None ∧ p' = addOut p noOpReportZAI
          ∧ ∃ c, loaded app e (world p) = (c, None) ∧ isZAIConfig c = true)
       ∨ (r = None ∧ ∃ t, t ≠ ""
            ∧ docs (world p') !! settingsFile app
              = Some (Document (json.encodeConfig (mkConfig (Some (zaiEnv t)))))))).
  { intros q out Hq. cbv zeta.
    destruct (switchToZAI_apply_settings app e (addOut q out) Hst) as [Hframe Hres].
    simpl in Hframe, Hres. rewrite Hq in Hframe, Hres.
    split; [intros f ? ? ? ?; by apply Hframe|].
    destruct Hres as [?|?]; [by left | right; by right]. }
  pose proof (switchToZAI_phases TrimSpace ToLower app e p) as H. simpl in H.
  destruct (loaded app e (world p)) as [c err] eqn:Hl. simpl in H.
  destruct err as [err|].
  { rewrite H. simpl. split; [done|]. left. eauto. }
  destruct (isZAIConfig c) eqn:Hz.
  { rewrite H. simpl. split; [done|]. right. left. eauto. }
  destruct (String.eqb (detectProvider c) ProviderAnthropic && Nat.ltb 0 (len (EnvOf c))).
  2:{ destruct H as [out ->]. by apply Happly. }
  destruct (usable (backupCheck app e (world p))) as [b|].
  { destruct H as [out ->]. by apply Happly. }
  destruct (createBackupWithMetadata_spec app c e
              (addOut p (backupCheckReport (backupCheck app e (world p)))) Hbt)
    as (r & d' & Hcb & Hframe & Hres).
  rewrite Hcb in H. simpl in Hframe. destruct r as [err|].
  - rewrite H. simpl. split; [intros f ? ? ? ?; by apply Hframe|].
    left. split; [eauto|]. by apply Hframe.
  - rewrite H.
    destruct (switchToZAI_apply_settings app e
      (addOut (setDocs (addOut p (backupCheckReport (backupCheck app e (world p)))) d')
         [Println "✅ Anthropic configuration backed up (web login token saved)"]) Hst)
      as [Hframe2 Hres2].
    simpl in Hframe2, Hres2.
    split.
    + intros f ? ? ? ?. rewrite Hframe2 by done. by apply Hframe.
    + rewrite (Hframe (settingsFile app)) in Hres2 by done.
      destruct Hres2 as [?|?]; [by left | right; by right].
Qed.

(** The backup slot after a successful [switchToZAI] from Anthropic
    settings. *)
Lemma switchToZAI_backup_slot app e p c :
  wellPlaced app →
  loaded app e (world p) = (c, None) →
  detectProvider c = ProviderAnthropic →
  (switchToZAI TrimSpace ToLower app e p).1 = None →
  docs (world (switchToZAI TrimSpace ToLower app e p).2) !! backupFile app
  = match usable (backupCheck app e (world p)) with
    | Some _ => docs (world p) !! backupFile app
    | None => Some (freshBackup e c)
    end.
Proof.
  intros (Hsb & Hst & Hsbt & Hbst & Hbt & Htt) Hl Hprov.
  assert (Happly : ∀ q, docs (world (switchToZAI_apply TrimSpace ToLower app e q).2)
                        !! backupFile app = docs (world q) !! backupFile app).
  { intros q. destruct (switchToZAI_apply_spec TrimSpace ToLower app e q Hst)
      as (r & p' & -> & Hframe & _). simpl. apply Hframe; done. }
  pose proof (switchToZAI_phases TrimSpace ToLower app e p) as H. simpl in H.
  rewrite Hl in H. simpl in H. unfold isZAIConfig in H. rewrite Hprov in H.
  change (String.eqb ProviderAnthropic ProviderZAI) with false in H.
  change (String.eqb ProviderAnthropic ProviderAnthropic) with true in H.
  pose proof (anthropic_nonempty c Hprov) as Hlen.
  apply Nat.ltb_lt in Hlen. rewrite Hlen in H. simpl in H.
  destruct (usable (backupCheck app e (world p))) as [b|].
  { destruct H as [out ->]. intros _. by rewrite Happly. }
  destruct (createBackupWithMetadata_spec app c e
              (addOut p (backupCheckReport (backupCheck app e (world p)))) Hbt)
    as (r & d' & Hcb & Hframe & Hres).
  rewrite Hcb in H. destruct (cannotBackup e app).
  - destruct Hres as [[err ->] _]. by rewrite H.
  - destruct Hres as [-> Hd]. rewrite H. intros _. by rewrite Happly.
Qed.

(** X6. A switch that fails leaves the settings file as it was: whenever
    [switchToAnthropic] or [switchToZAI] returns an error, for whatever
    reason, the document at the settings path is the one found. *)
Theorem failed_switch_keeps_settings (home : string) (e : Environ) (w : World) :
  let app := NewApplication home in
  (is_Some (returned (switchToAnthropic app) e w) →
   docs (after (switchToAnthropic app) e w) !! settingsFile app = docs w !! settingsFile app)
  ∧ (is_Some (returned (switchToZAI TrimSpace ToLower app) e w) →
     docs (after (switchToZAI TrimSpace ToLower app) e w) !! settingsFile app
     = docs w !! settingsFile app).
Proof.
  intros app. pose proof (NewApplication_wellPlaced home) as Hwp. fold app in Hwp.
  clearbody app. split.
  - rewrite returned_run, after_run.
    pose proof (switchToAnthropic_run app e (mkProc w [] (input e)) (proj1 (proj2 Hwp))) as H.
    simpl in H. destruct (isNil _ && isAnthropicConfig _).
    + rewrite H. simpl. by intros [? ?].
    + destruct H as (r & d' & out & -> & _ & _ & Hres). simpl.
      destruct (cannotSave e (settingsFile app)).
      * intros _. apply Hres.
      * destruct Hres as [-> _]. by intros [? ?].
  - rewrite returned_run, after_run.
    destruct (switchToZAI_outcome app e (mkProc w [] (input e)) Hwp) as [_ H].
    simpl in H. destruct H as [[_ H]|[[-> _]|[-> _]]]; [done| |]; by intros [? ?].
Qed.

(** X10. After a successful [switchToZAI] the settings classify as Z.AI,
    and a second call that can read them is a no-op: it returns nil, leaves
    every file as it is, asks for no credential and prints the
    already-using-Z.AI report. *)
Theorem switchToZAI_twice (home : string) (e e' : Environ) (w : World) :
  let app := NewApplication home in
  let w1 := after (switchToZAI TrimSpace ToLower app) e w in
  returned (switchToZAI TrimSpace ToLower app) e w = None →
  readFails e' (settingsFile app) = false →
  settingsProvider app w1 = ProviderZAI
  ∧ returned (switchToZAI TrimSpace ToLower app) e' w1 = None
  ∧ after (switchToZAI TrimSpace ToLower app) e' w1 = w1
  ∧ printed (switchToZAI TrimSpace ToLower app) e' w1 = noOpReportZAI.
Proof.
  intros app. pose proof (NewApplication_wellPlaced home) as Hwp. fold app in Hwp.
  clearbody app. cbv zeta. intros Hr Hread.
  assert (∃ c, loaded app quiet (after (switchToZAI TrimSpace ToLower app) e w) = (c, None)
               ∧ isZAIConfig c = true) as (c & Hl & Hz).
  { rewrite returned_run in Hr. rewrite after_run.
    destruct (switchToZAI_outcome app e (mkProc w [] (input e)) Hwp) as [_ H].
    simpl in H. destruct H as [[[? Hs] _]|[(_ & -> & c & Hl & Hz)|(_ & t & _ & Hd)]].
    - rewrite Hr in Hs. done.
    - exists c. simpl. split; [|done]. by eapply loaded_ok_quiet.
    - eexists. split; [by apply loaded_zaiEnv|]. simpl.
      unfold isZAIConfig. by rewrite zaiEnv_provider. }
  set (w1 := after (switchToZAI TrimSpace ToLower app) e w) in *.
  split.
  { unfold settingsProvider. rewrite Hl. simpl. unfold isZAIConfig in Hz.
    by apply String.eqb_eq in Hz. }
  rewrite returned_run, after_run, printed_run.
  pose proof (switchToZAI_phases TrimSpace ToLower app e' (mkProc w1 [] (input e'))) as H.
  simpl in H. rewrite (loaded_readable app e' w1 Hread), Hl in H. simpl in H.
  rewrite Hz in H. rewrite H. done.
Qed.

(** X11. There and back.  From settings that classify as Anthropic, a
    successful [switchToZAI] followed by [switchToAnthropic] (the two files
    readable, the write going through) succeeds, and the settings then load
    as the mapping that was kept, without the five keys of [zaiEnvKeys]: the
    mapping of the usable backup found at the start when there was one, the
    mapping of the settings themselves otherwise. *)
Theorem round_trip_restores_settings (home : string) (e1 e2 : Environ) (w : World)
    (c : option Config) :
  let app := NewApplication home in
  let w1 := after (switchToZAI TrimSpace ToLower app) e1 w in
  let w2 := after (switchToAnthropic app) e2 w1 in
  let kept := match usable (backupCheck app e1 w) with
              | Some b => BackupEnv b
              | None => EnvOf c
              end in
  loaded app e1 w = (c, None) →
  detectProvider c = ProviderAnthropic →
  returned (switchToZAI TrimSpace ToLower app) e1 w = None →
  readFails e2 (settingsFile app) = false →
  readFails e2 (backupFile app) = false →
  cannotSave e2 (settingsFile app) = false →
  returned (switchToAnthropic app) e2 w1 = None
  ∧ ∃ g, loaded app quiet w2 = (Some (mkConfig (Some g)), None)
         ∧ ∀ k, g !! k = if isZAIKey k then None else default ∅ kept !! k.
Proof.
  intros app. pose proof (NewApplication_wellPlaced home) as Hwp. fold app in Hwp.
  clearbody app. cbv zeta. intros Hl Hprov Hr Hrs Hrb Hsave.
  rewrite returned_run in Hr.
  pose proof (switchToZAI_backup_slot app e1 (mkProc w [] (input e1)) c Hwp Hl Hprov Hr) as Hb.
  destruct (switchToZAI_outcome app e1 (mkProc w [] (input e1)) Hwp) as [_ Hs].
  simpl in Hb, Hs. rewrite <-after_run in Hb, Hs.
  set (w1 := after (switchToZAI TrimSpace ToLower app) e1 w) in *.
  assert (∃ t, docs w1 !! settingsFile app
               = Some (Document (json.encodeConfig (mkConfig (Some (zaiEnv t)))))) as [t Hd1].
  { destruct Hs as [[[? Hs] _]|[(_ & _ & c' & Hl' & Hz)|(_ & t & _ & Hd)]].
    - rewrite Hr in Hs. done.
    - rewrite Hl in Hl'. injection Hl' as <-. unfold isZAIConfig in Hz.
      rewrite Hprov in Hz. done.
    - by exists t. }
  clear Hs.
  assert (∃ b, usable (backupCheck app e2 w1) = Some b
               ∧ BackupEnv b = match usable (backupCheck app e1 w) with
                               | Some b => BackupEnv b
                               | None => EnvOf c
                               end) as (b & Hu & Hkept).
  { destruct (usable (backupCheck app e1 w)) as [b|] eqn:Hu1.
    - exists b. split; [|done].
      destruct (usable_present _ _ _ _ Hu1) as (data & Hdata & Hdec).
      rewrite Hdata in Hb. rewrite (backupCheck_present _ _ _ _ Hb Hrb), <-Hdec. done.
    - eexists. rewrite (backupCheck_present _ _ _ _ Hb Hrb).
      rewrite backupDecision_fresh; [done|].
      pose proof (loaded_valid app e1 w) as Hv. by rewrite Hl in Hv. }
  rewrite <-Hkept. clear Hkept Hb.
  rewrite returned_run, after_run.
  pose proof (switchToAnthropic_run app e2 (mkProc w1 [] (input e2)) (proj1 (proj2 Hwp))) as H.
  simpl in H. rewrite (loaded_zaiEnv app e2 w1 _ Hrs Hd1) in H. simpl in H.
  unfold isAnthropicConfig in H. rewrite zaiEnv_provider in H.
  change (String.eqb ProviderZAI ProviderAnthropic) with false in H. rewrite Hsave in H.
  destruct H as (r & d' & out & -> & _ & _ & -> & Hd). simpl. split; [done|].
  pose proof (restoreTarget_valid app e2 w1) as Hv.
  unfold restoreTarget in Hd, Hv. rewrite Hu in Hd, Hv.
  destruct (BackupEnv b) as [g|] eqn:Hg.
  - exists (default ∅ (fold_left godelete zaiEnvKeys (Some g))). split.
    + erewrite loaded_encode; [|exact Hv|done|exact Hd]. done.
    + intros k. apply lookup_minus_keys.
  - exists ∅. split.
    + erewrite loaded_encode; [|exact Hv|done|exact Hd]. done.
    + intros k. simpl. rewrite lookup_empty. by destruct (isZAIKey k).
Qed.

End Outcomes.

(** X7. [switchToAnthropic] writes the settings file and nothing else: no
    plain-text file changes, the backup slot keeps its document (so the
    backup check gives the same answer afterwards), and so does every
    document other than the settings file and its [.tmp] sibling. *)
Theorem switchToAnthropic_frame (home : string) (e : Environ) (w : World) :
  let app := NewApplication home in
  let w' := after (switchToAnthropic app) e w in
  texts w' = texts w
  ∧ docs w' !! backupFile app = docs w !! backupFile app
  ∧ (∀ q, q ≠ settingsFile app → q ≠ settingsFile app +:+ ".tmp" →
       docs w' !! q = docs w !! q)
  ∧ backupCheck app e w' = backupCheck app e w.
Proof.
  intros app. pose proof (NewApplication_wellPlaced home) as Hwp. fold app in Hwp.
  clearbody app. cbv zeta.
  destruct (switchToAnthropic_after app e w Hwp) as (Ht & Hd & _).
  destruct Hwp as (Hsb & Hst & Hsbt & Hbst & Hbt & Htt).
  assert (docs (after (switchToAnthropic app) e w) !! backupFile app = docs w !! backupFile app)
    as Hb by (apply Hd; done).
  split_and!; try done. by apply backupCheck_ext.
Qed.

(** X9. What [switchToAnthropic] restores.  With a usable backup, settings
    that are not already Anthropic and a write that goes through, the call
    succeeds and the settings then load as the mapping of the backup without
    the five keys of [zaiEnvKeys]: every other key keeps its value, the
    credential included. *)
Theorem restore_is_backup_minus_keys (home : string) (e : Environ) (w : World)
    (b : BackupConfig) :
  let app := NewApplication home in
  let w' := after (switchToAnthropic app) e w in
  usable (backupCheck app e w) = Some b →
  isNil (loaded app e w).2 && isAnthropicConfig (loaded app e w).1 = false →
  cannotSave e (settingsFile app) = false →
  returned (switchToAnthropic app) e w = None
  ∧ ∃ g, loaded app quiet w' = (Some (mkConfig (Some g)), None)
         ∧ ∀ k, g !! k = if isZAIKey k then None else default ∅ (BackupEnv b) !! k.
Proof.
  intros app. pose proof (NewApplication_wellPlaced home) as Hwp. fold app in Hwp.
  clearbody app. cbv zeta. intros Hu Hno Hsave.
  rewrite returned_run, after_run.
  pose proof (switchToAnthropic_run app e (mkProc w [] (input e)) (proj1 (proj2 Hwp))) as H.
  simpl in H. rewrite Hno, Hsave in H.
  destruct H as (r & d' & out & -> & _ & _ & -> & Hd). simpl. split; [done|].
  pose proof (restoreTarget_valid app e w) as Hv.
  unfold restoreTarget in Hd, Hv. rewrite Hu in Hd, Hv.
  destruct (BackupEnv b) as [g|] eqn:Hg.
  - exists (default ∅ (fold_left godelete zaiEnvKeys (Some g))). split.
    + erewrite loaded_encode; [|exact Hv|done|exact Hd]. done.
    + intros k. apply lookup_minus_keys.
  - exists ∅. split.
    + erewrite loaded_encode; [|exact Hv|done|exact Hd]. done.
    + intros k. simpl. rewrite lookup_empty. by destruct (isZAIKey k).
Qed.

(** X12. After a successful [switchToAnthropic] the settings never point
    at another provider: they classify as Anthropic, or as unknown when the
    mapping written is empty, and their base URL reads as the empty string.
    When the call wrote the settings, the key ANTHROPIC_BASE_URL is absent
    from them; when it found them already Anthropic and left them alone,
    the key is absent or holds the empty string. *)
Theorem switchToAnthropic_result_provider (home : string) (e : Environ) (w : World) :
  let app := NewApplication home in
  let w' := after (switchToAnthropic app) e w in
  returned (switchToAnthropic app) e w = None →
  (settingsProvider app w' = ProviderAnthropic
   ∨ settingsProvider app w' = ProviderUnknown ∧ len (EnvOf (loaded app quiet w').1) = 0)
  ∧ index (EnvOf (loaded app quiet w').1) "ANTHROPIC_BASE_URL" = ""
  ∧ (isNil (loaded app e w).2 && isAnthropicConfig (loaded app e w).1 = false →
     default ∅ (EnvOf (loaded app quiet w').1) !! "ANTHROPIC_BASE_URL" = None).
Proof.
  intros app. pose proof (NewApplication_wellPlaced home) as Hwp. fold app in Hwp.
  clearbody app. cbv zeta. rewrite returned_run, after_run. unfold settingsProvider.
  pose proof (switchToAnthropic_run app e (mkProc w [] (input e)) (proj1 (proj2 Hwp))) as H.
  simpl in H. destruct (loaded app e w) as [c err] eqn:Hl. simpl in H.
  destruct (isNil err && isAnthropicConfig c) eqn:Hno.
  - rewrite H. simpl. intros _. apply andb_true_iff in Hno as [Herr Hc].
    destruct err; [done|]. rewrite (loaded_ok_quiet _ _ _ _ Hl). simpl.
    apply String.eqb_eq in Hc. split; [by left|]. split; [by apply anthropic_base_url|].
    intros Hf. simpl in Hf. unfold isAnthropicConfig in Hf. rewrite Hc in Hf. done.
  - destruct H as (r & d' & out & -> & _ & _ & Hres). simpl. intros ->.
    destruct (cannotSave e (settingsFile app)); [by destruct Hres as [[? ?] _]|].
    destruct Hres as [_ Hd].
    erewrite loaded_encode; [|apply (restoreTarget_valid app e w)|done|exact Hd]. simpl.
    pose proof (restoreTarget_provider (backupCheck app e w)) as Hp. simpl in Hp.
    set (c' := if isNil (Env (restoreTarget (backupCheck app e w))) then mkConfig make
               else restoreTarget (backupCheck app e w)) in *.
    split_and!.
    + destruct (Nat.ltb_spec 0 (len (Env c'))).
      * left. by apply String.eqb_eq.
      * right. assert (len (Env c') = 0) by lia. split; [|done]. by apply (empty_provider (Some c')).
    + subst c'. unfold restoreTarget.
      destruct (usable (backupCheck app e w)) as [b|]; [|done]. simpl.
      destruct (BackupEnv b) as [g|]; [|done].
      change (isNil (fold_left godelete zaiEnvKeys (Some g))) with false. cbv iota.
      apply (index_minus_keys (Some g) "ANTHROPIC_BASE_URL").
    + intros _. subst c'. unfold restoreTarget.
      destruct (usable (backupCheck app e w)) as [b|]; [|done]. simpl.
      destruct (BackupEnv b) as [g|]; [|done].
      change (isNil (fold_left godelete zaiEnvKeys (Some g))) with false. cbv iota.
      apply (lookup_minus_keys g "ANTHROPIC_BASE_URL").
Qed.

(** ** The credential *)

Section Prompt.

Variables TrimSpace ToLower : string → string.

(** [promptForToken], source by source. *)
Lemma promptForToken_cases app e p :
  let f := tokenFile app in
  let r := (promptForToken TrimSpace ToLower app e p).1 in
  let p' := (promptForToken TrimSpace ToLower app e p).2 in
  if negb (String.eqb (getenv e "ZAI_AUTH_TOKEN") "") then
    r = (getenv e "ZAI_AUTH_TOKEN", None) ∧ world p' = world p ∧ stdin p' = stdin p
  else match savedToken TrimSpace app e (world p) with
  | Some t => r = (t, None) ∧ world p' = world p ∧ stdin p' = stdin p
  | None =>
      match splitLine (stdin p) with
      | None => r = ("", Some (wrapError "failed to read token" EOF)) ∧ world p' = world p
      | Some (line, rest) =>
          if String.eqb (TrimSpace line) "" then
            r = ("", Some (errorString "token cannot be empty")) ∧ world p' = world p
          else
            let answer := TrimSpace (ToLower (firstLine rest)) in
            r = (TrimSpace line, None)
            ∧ docs (world p') = docs (world p)
            ∧ texts (world p')
              = if String.eqb answer "y" || String.eqb answer "yes" then
                  match written e f (TrimSpace line) with
                  | Some rest => <[f := rest]> (texts (world p))
                  | None => texts (world p)
                  end
                else texts (world p)
      end
  end.
Proof.
  cbv zeta. unfold promptForToken. fold (tokenFile app).
  unfold savedToken, firstLine, written, mbind, IO_bind, os.Getenv, os.ReadTextFile,
    os.WriteTextFile, ReadString, say, mret, IO_ret. simpl.
  destruct (String.eqb (getenv e "ZAI_AUTH_TOKEN") ""); simpl; [|done].
  destruct (readFails e (tokenFile app)); simpl;
    [|destruct (texts (world p) !! tokenFile app) as [data|]; simpl;
      [destruct (String.eqb (TrimSpace data) ""); simpl; [|done]|]].
  all: destruct (splitLine (stdin p)) as [[line rest]|]; simpl; [|done].
  all: destruct (String.eqb (TrimSpace line) ""); simpl; [done|].
  all: destruct (splitLine rest) as [[answer rest']|]; simpl.
  all: match goal with
       | |- context [String.eqb ?a "y" || String.eqb ?a "yes"] =>
           destruct (String.eqb a "y" || String.eqb a "yes"); simpl; [|done]
       end.
  all: destruct (writeFails e (tokenFile app)); simpl; [|done].
  all: by destruct (writeFault e (tokenFile app)).
Qed.

(** X14. Where [promptForToken] takes the credential from: a non-empty
    [ZAI_AUTH_TOKEN] wins and is returned as it is; without it, the saved
    token file wins when it is readable and not blank, and its content is
    returned without the surrounding blanks.  In both cases nothing is read
    from standard input and no file changes. *)
Theorem promptForToken_precedence (app : Application) (e : Environ) (p : Proc) :
  let r := (promptForToken TrimSpace ToLower app e p).1 in
  let p' := (promptForToken TrimSpace ToLower app e p).2 in
  (getenv e "ZAI_AUTH_TOKEN" ≠ "" →
   r = (getenv e "ZAI_AUTH_TOKEN", None) ∧ world p' = world p ∧ stdin p' = stdin p)
  ∧ (∀ t, getenv e "ZAI_AUTH_TOKEN" = "" → savedToken TrimSpace app e (world p) = Some t →
     r = (t, None) ∧ world p' = world p ∧ stdin p' = stdin p).
Proof.
  cbv zeta. pose proof (promptForToken_cases app e p) as H. cbv zeta in H.
  destruct (String.eqb_spec (getenv e "ZAI_AUTH_TOKEN") "") as [He|He]; simpl in H.
  - split; [done|]. intros t _ Ht. by rewrite Ht in H.
  - split; [done|]. intros t Ht. done.
Qed.

(** X15. The errors of the prompt.  With no exported and no saved key,
    input that ends before a newline gives the error [failed to read token]
    around [io.EOF], and a first line that is blank gives [token cannot be
    empty]; the token returned is empty and no file changes. *)
Theorem promptForToken_input_errors (app : Application) (e : Environ) (p : Proc) :
  let r := (promptForToken TrimSpace ToLower app e p).1 in
  let p' := (promptForToken TrimSpace ToLower app e p).2 in
  getenv e "ZAI_AUTH_TOKEN" = "" →
  savedToken TrimSpace app e (world p) = None →
  match splitLine (stdin p) with
  | None => r = ("", Some (wrapError "failed to read token" EOF)) ∧ world p' = world p
  | Some (line, _) =>
      TrimSpace line = "" →
      r = ("", Some (errorString "token cannot be empty")) ∧ world p' = world p
  end.
Proof.
  cbv zeta. intros He Hs. pose proof (promptForToken_cases app e p) as H. cbv zeta in H.
  rewrite He, Hs in H. simpl in H.
  destruct (splitLine (stdin p)) as [[line rest]|]; [|apply H].
  intros Ht. rewrite Ht in H. apply H.
Qed.

(** X16. Saving the typed key is best effort.  With no exported and no
    saved key and a first line that is not blank, [promptForToken] returns
    that line without the surrounding blanks and a nil error, whatever
    happens next.  The token file is written exactly when the answer (the
    next line, or what is left of the input), lowered and trimmed, is [y]
    or [yes]: it then holds the key when the write goes through, and what
    the failing write left otherwise (nothing new when the file could not
    be opened, else the bytes that got through, an empty file included).
    With any other answer it is untouched.  No JSON document changes. *)
Theorem promptForToken_saves_on_request (app : Application) (e : Environ) (p : Proc)
    (line rest : string) :
  let r := (promptForToken TrimSpace ToLower app e p).1 in
  let p' := (promptForToken TrimSpace ToLower app e p).2 in
  let answer := TrimSpace (ToLower (firstLine rest)) in
  let yes := String.eqb answer "y" || String.eqb answer "yes" in
  getenv e "ZAI_AUTH_TOKEN" = "" →
  savedToken TrimSpace app e (world p) = None →
  splitLine (stdin p) = Some (line, rest) →
  TrimSpace line ≠ "" →
  r = (TrimSpace line, None)
  ∧ docs (world p') = docs (world p)
  ∧ texts (world p')
    = (if yes then
         match written e (tokenFile app) (TrimSpace line) with
         | Some rest => <[tokenFile app := rest]> (texts (world p))
         | None => texts (world p)
         end
       else texts (world p))
  ∧ (yes = true → writeFails e (tokenFile app) = false →
     texts (world p') !! tokenFile app = Some (TrimSpace line)).
Proof.
  cbv zeta. intros He Hs Hline Ht. pose proof (promptForToken_cases app e p) as H.
  cbv zeta in H. rewrite He, Hs, Hline in H. simpl in H.
  apply String.eqb_neq in Ht. rewrite Ht in H. destruct H as (Hr & Hd & Htexts).
  split_and!; try done.
  intros Hyes Hw. rewrite Htexts, Hyes. unfold written. rewrite Hw.
  by rewrite lookup_insert_eq.
Qed.

(** X17. A key saved by one call is the key of the next: after a prompt
    that saved the typed key, a later call without [ZAI_AUTH_TOKEN] that can
    read the token file returns the same key and reads no input, provided
    trimming the key again gives the key. *)
Theorem saved_token_is_reused (app : Application) (e e' : Environ) (p p2 : Proc)
    (line rest : string) :
  let answer := TrimSpace (ToLower (firstLine rest)) in
  getenv e "ZAI_AUTH_TOKEN" = "" →
  savedToken TrimSpace app e (world p) = None →
  splitLine (stdin p) = Some (line, rest) →
  TrimSpace line ≠ "" →
  TrimSpace (TrimSpace line) = TrimSpace line →
  answer = "y" ∨ answer = "yes" →
  writeFails e (tokenFile app) = false →
  getenv e' "ZAI_AUTH_TOKEN" = "" →
  readFails e' (tokenFile app) = false →
  world p2 = world (promptForToken TrimSpace ToLower app e p).2 →
  (promptForToken TrimSpace ToLower app e' p2).1 = (TrimSpace line, None)
  ∧ stdin (promptForToken TrimSpace ToLower app e' p2).2 = stdin p2.
Proof.
  cbv zeta. intros He Hs Hline Ht Hidem Hyes Hw He' Hr' Hp2.
  pose proof (promptForToken_cases app e p) as H. cbv zeta in H.
  rewrite He, Hs, Hline in H. simpl in H.
  pose proof Ht as Ht'. apply String.eqb_neq in Ht'. rewrite Ht' in H.
  unfold written in H. rewrite Hw in H.
  assert (String.eqb (TrimSpace (ToLower (firstLine rest))) "y"
          || String.eqb (TrimSpace (ToLower (firstLine rest))) "yes" = true) as Hy.
  { destruct Hyes as [->| ->]; done. }
  rewrite Hy in H. simpl in H. destruct H as (_ & _ & Htexts).
  pose proof (promptForToken_cases app e' p2) as H2. cbv zeta in H2.
  rewrite He' in H2. simpl in H2.
  assert (savedToken TrimSpace app e' (world p2) = Some (TrimSpace line)) as Hsaved.
  { unfold savedToken. rewrite Hr', Hp2, Htexts, lookup_insert_eq, Hidem, Ht'. done. }
  rewrite Hsaved in H2. destruct H2 as (? & ? & ?). done.
Qed.

(** X18. The result of [promptForToken]: no JSON document changes and no
    plain-text file other than the token file; a nil error comes with a
    non-empty token, and an error with the empty token and no file
    changed. *)
Theorem promptForToken_result (app : Application) (e : Environ) (p : Proc) :
  let r := (promptForToken TrimSpace ToLower app e p).1 in
  let p' := (promptForToken TrimSpace ToLower app e p).2 in
  docs (world p') = docs (world p)
  ∧ (∀ q, q ≠ tokenFile app → texts (world p') !! q = texts (world p) !! q)
  ∧ match r.2 with
    | None => r.1 ≠ ""
    | Some _ => r.1 = "" ∧ world p' = world p
    end.
Proof.
  cbv zeta. pose proof (promptForToken_cases app e p) as H. cbv zeta in H.
  destruct (String.eqb_spec (getenv e "ZAI_AUTH_TOKEN") "") as [He|He]; simpl in H.
  2:{ destruct H as (-> & -> & _). done. }
  destruct (savedToken TrimSpace app e (world p)) as [t|] eqn:Hs.
  { destruct H as (-> & -> & _). split_and!; try done. simpl.
    unfold savedToken in Hs. repeat case_match; try done.
    injection Hs as <-. by apply String.eqb_neq. }
  destruct (splitLine (stdin p)) as [[line rest]|].
  2:{ destruct H as (-> & ->). done. }
  destruct (String.eqb_spec (TrimSpace line) "") as [Ht|Ht].
  { destruct H as (-> & ->). done. }
  destruct H as (-> & -> & ->). split_and!; try done.
  intros q Hq. repeat case_match; try done; by rewrite lookup_insert_ne.
Qed.

End Prompt.

Section Exported.

Variables TrimSpace ToLower : string → string.

(** X13. With a key exported in [ZAI_AUTH_TOKEN], [switchToZAI] goes
    through whatever the shape of the key: from settings that load and are
    not yet Z.AI, when neither the backup nor the settings write fails, it
    returns nil and the settings file holds the encoding of the Z.AI
    configuration around the exported key.  Read back, the credential of
    the settings is the exported key with each byte that is not UTF-8
    replaced by U+FFFD: the key itself, byte for byte, when it is UTF-8. *)
Theorem switchToZAI_succeeds (home : string) (e : Environ) (w : World) (c : option Config) :
  let app := NewApplication home in
  let w' := after (switchToZAI TrimSpace ToLower app) e w in
  let key := getenv e "ZAI_AUTH_TOKEN" in
  loaded app e w = (c, None) →
  isZAIConfig c = false →
  cannotBackup e app = false →
  cannotSave e (settingsFile app) = false →
  key ≠ "" →
  returned (switchToZAI TrimSpace ToLower app) e w = None
  ∧ docs w' !! settingsFile app
    = Some (Document (json.encodeConfig (mkConfig (Some (zaiEnv key)))))
  ∧ loaded app quiet w' = (Some (mkConfig (Some (zaiEnv (utf8.replaceInvalid key)))), None)
  ∧ (utf8.ValidString key = true →
     loaded app quiet w' = (Some (mkConfig (Some (zaiEnv key))), None)).
Proof.
  intros app. pose proof (NewApplication_wellPlaced home) as Hwp. fold app in Hwp.
  clearbody app. cbv zeta. intros Hl Hz Hcb Hcs He.
  destruct Hwp as (Hsb & Hst & Hsbt & Hbst & Hbt & Htt).
  rewrite returned_run, after_run.
  assert (Happly : ∀ q,
    (switchToZAI_apply TrimSpace ToLower app e q).1 = None
    ∧ docs (world (switchToZAI_apply TrimSpace ToLower app e q).2) !! settingsFile app
      = Some (Document (json.encodeConfig
                (mkConfig (Some (zaiEnv (getenv e "ZAI_AUTH_TOKEN"))))))).
  { intros q.
    destruct (switchToZAI_apply_spec TrimSpace ToLower app e q Hst) as (r & p' & -> & _ & Hres).
    pose proof (promptForToken_cases TrimSpace ToLower app e q) as Hp. cbv zeta in Hp.
    apply String.eqb_neq in He. rewrite He in Hp. simpl in Hp. destruct Hp as (Hp & _).
    rewrite Hp, Hcs in Hres. simpl in Hres. done. }
  assert (Hend : ∀ q,
    switchToZAI TrimSpace ToLower app e (mkProc w [] (input e))
    = switchToZAI_apply TrimSpace ToLower app e q →
    (switchToZAI TrimSpace ToLower app e (mkProc w [] (input e))).1 = None
    ∧ docs (world (switchToZAI TrimSpace ToLower app e (mkProc w [] (input e))).2)
        !! settingsFile app
      = Some (Document (json.encodeConfig
                (mkConfig (Some (zaiEnv (getenv e "ZAI_AUTH_TOKEN"))))))
    ∧ loaded app quiet (world (switchToZAI TrimSpace ToLower app e (mkProc w [] (input e))).2)
      = (Some (mkConfig (Some (zaiEnv (utf8.replaceInvalid (getenv e "ZAI_AUTH_TOKEN"))))),
         None)
    ∧ (utf8.ValidString (getenv e "ZAI_AUTH_TOKEN") = true →
       loaded app quiet (world (switchToZAI TrimSpace ToLower app e (mkProc w [] (input e))).2)
       = (Some (mkConfig (Some (zaiEnv (getenv e "ZAI_AUTH_TOKEN")))), None))).
  { intros q ->. destruct (Happly q) as [Hr Hd]. split_and!; try done.
    - by apply loaded_zaiEnv.
    - intros Hv%ValidString_spec. rewrite (loaded_zaiEnv app quiet _ _ eq_refl Hd).
      by rewrite Hv. }
  pose proof (switchToZAI_phases TrimSpace ToLower app e (mkProc w [] (input e))) as H.
  simpl in H. rewrite Hl in H. simpl in H. rewrite Hz in H.
  destruct (String.eqb (detectProvider c) ProviderAnthropic && Nat.ltb 0 (len (EnvOf c))).
  2:{ destruct H as [out H]. by apply (Hend _ H). }
  destruct (usable (backupCheck app e w)) as [b|].
  { destruct H as [out H]. by apply (Hend _ H). }
  destruct (createBackupWithMetadata_spec app c e
              (addOut (mkProc w [] (input e)) (backupCheckReport (backupCheck app e w))) Hbt)
    as (r & d' & Hb & _ & Hres).
  rewrite Hb in H. rewrite Hcb in Hres. destruct Hres as [-> _]. by apply (Hend _ H).
Qed.

End Exported.

(** X19. [clearToken] touches the token file and nothing else.  No JSON
    document changes and no input is read.  It fails exactly when the file
    is there and cannot be removed, or is not there while [os.Stat] fails
    for another reason, and then nothing has changed, not even the output;
    when it returns nil the token file is gone and the other plain-text
    files are as before. *)
Theorem clearToken_removes_only_the_token (app : Application) (e : Environ) (p : Proc) :
  let r := (clearToken app e p).1 in
  let p' := (clearToken app e p).2 in
  docs (world p') = docs (world p) ∧ stdin p' = stdin p
  ∧ (is_Some r ↔ match texts (world p) !! tokenFile app with
                 | Some _ => removeFails e (tokenFile app) = true
                 | None => statFails e (tokenFile app) = true
                 end)
  ∧ (is_Some r → p' = p)
  ∧ (r = None → texts (world p') = delete (tokenFile app) (texts (world p))).
Proof.
  cbv zeta. unfold clearToken. fold (tokenFile app).
  unfold mbind, IO_bind, os.StatTextFile, os.RemoveTextFile, say, mret, IO_ret.
  destruct (statFails e (tokenFile app)) eqn:Hs,
           (texts (world p) !! tokenFile app) eqn:Ht,
           (removeFails e (tokenFile app)) eqn:Hr; simpl; rewrite ?Ht, ?Hr; simpl.
  all: split_and!; try done; try (by intros [? ?]);
    try (split; [by intros [? ?] | done]); try (split; [done | eauto]).
  all: intros _; by rewrite delete_id.
Qed.

(** X21. [validateTokenForProvider] never rejects a token: it returns
    [true] for every token and provider, changes nothing but the output,
    and prints its warning exactly when a web-shaped token goes to Z.AI or
    a key-shaped one to Anthropic. *)
Theorem validateTokenForProvider_never_rejects (app : Application)
    (token provider : string) (e : Environ) (p : Proc) :
  (validateTokenForProvider app token provider e p).1 = true
  ∧ ∃ out, (validateTokenForProvider app token provider e p).2 = addOut p out
           ∧ (out = [] ↔ shapeMismatch token provider = false).
Proof.
  unfold validateTokenForProvider, shapeMismatch.
  destruct (String.eqb_spec provider ProviderZAI) as [->|Hz].
  - change (String.eqb ProviderZAI ProviderAnthropic) with false.
    destruct (detectTokenType token); rewrite ?bind_run, ?say_run; simpl.
    + split; [done|]. exists []. by rewrite addOut_nil.
    + split; [done|]. rewrite addOut_addOut. eexists. split; [done|]. simpl. split; done.
    + split; [done|]. exists []. by rewrite addOut_nil.
  - destruct (String.eqb_spec provider ProviderAnthropic) as [->|Ha].
    + destruct (detectTokenType token); rewrite ?bind_run, ?say_run; simpl.
      * split; [done|]. rewrite addOut_addOut. eexists. split; [done|]. simpl. split; done.
      * split; [done|]. exists []. by rewrite addOut_nil.
      * split; [done|]. exists []. by rewrite addOut_nil.
    + split; [done|]. exists []. rewrite addOut_nil. split; [done|]. by destruct (detectTokenType token).
Qed.

(** ** The status report *)

Lemma onlyPrints_ret {A} (a : A) : onlyPrints (mret a : IO A).
Proof. intros e p. exists []. by rewrite addOut_nil. Qed.

Lemma onlyPrints_bind {A B} (m : IO A) (f : A → IO B) :
  onlyPrints m → (∀ a, onlyPrints (f a)) → onlyPrints (m ≫= f).
Proof.
  intros Hm Hf e p. rewrite bind_run.
  destruct (Hm e p) as [out ->]. destruct (Hf (m e p).1 e (addOut p out)) as [out' ->].
  rewrite addOut_addOut. eauto.
Qed.

Lemma onlyPrints_say o : onlyPrints (say o).
Proof. intros e p. by exists [o]. Qed.

Lemma onlyPrints_readOnly {A} (m : IO A) : readOnly m → onlyPrints m.
Proof. intros H e p. rewrite H. exists []. by rewrite addOut_nil. Qed.

Lemma onlyPrints_Stat path : onlyPrints (os.Stat path).
Proof. apply onlyPrints_readOnly, readOnly_Stat. Qed.

Lemma onlyPrints_StatTextFile path : onlyPrints (os.StatTextFile path).
Proof.
  intros e p. exists []. rewrite addOut_nil. unfold os.StatTextFile. by repeat case_match.
Qed.

Ltac only_prints :=
  repeat match goal with
    | |- onlyPrints (mbind _ _) => apply onlyPrints_bind
    | |- onlyPrints (mret _) => apply onlyPrints_ret
    | |- onlyPrints (say _) => apply onlyPrints_say
    | |- onlyPrints (os.Stat _) => apply onlyPrints_Stat
    | |- onlyPrints (os.StatTextFile _) => apply onlyPrints_StatTextFile
    | |- onlyPrints (loadConfig _ _) => apply onlyPrints_readOnly, readOnly_loadConfig
    | |- onlyPrints (hasValidAnthropicBackup _) =>
        apply onlyPrints_readOnly, readOnly_hasValidAnthropicBackup
    | |- ∀ _, _ => intros ?
    | |- _ => progress cbv zeta
    | |- _ => case_match
    end.

Lemma returns_ret {A} (a : A) : returns (mret a : IO A) a.
Proof. done. Qed.

Lemma returns_bind {A B} (m : IO A) (f : A → IO B) (b : B) :
  (∀ a, returns (f a) b) → returns (m ≫= f) b.
Proof. intros Hf e p. rewrite bind_run. apply Hf. Qed.

Lemma onlyPrints_showStatus app : onlyPrints (showStatus app).
Proof. unfold showStatus. only_prints. Qed.

(** X20. [showStatus] only reads: every file is as before, and it returns
    an error exactly when loading the settings does, the load error wrapped
    in [failed to load config]; a missing or unreadable backup or token file
    never makes it fail. *)
Theorem showStatus_reads_only (app : Application) (e : Environ) (w : World) :
  after (showStatus app) e w = w
  ∧ returned (showStatus app) e w
    = match (loaded app e w).2 with
      | Some err => Some (wrapError "failed to load config" err)
      | None => None
      end.
Proof.
  rewrite after_run, returned_run. split.
  - destruct (onlyPrints_showStatus app e (mkProc w [] (input e))) as [out ->]. done.
  - destruct (loaded app e w) as [c [err|]] eqn:Hl; simpl.
    + by rewrite (showStatus_load_error app e (mkProc w [] (input e)) err); [|simpl; rewrite Hl].
    + unfold showStatus. rewrite bind_run, say_run. simpl. rewrite bind_run, say_run. simpl.
      rewrite bind_run, loadConfig_run. simpl. rewrite Hl. simpl.
      match goal with
      | |- (?m e ?q).1 = None => enough (returns m None) as Hr by apply Hr
      end.
      repeat match goal with
        | |- returns (mbind _ _) _ => apply returns_bind
        | |- returns (mret _) _ => apply returns_ret
        | |- ∀ _, _ => intros ?
        | |- _ => progress cbv zeta
        | |- _ => case_match
        end.
Qed.

(** ** The token file under [switchToZAI] *)

Lemma keepsTextsBut_ret {A} f (a : A) : keepsTextsBut f (mret a : IO A).
Proof. done. Qed.

Lemma keepsTextsBut_bind {A B} f (m : IO A) (k : A → IO B) :
  keepsTextsBut f m → (∀ a, keepsTextsBut f (k a)) → keepsTextsBut f (m ≫= k).
Proof. intros Hm Hk e p q Hq. rewrite bind_run, Hk by done. by apply Hm. Qed.

Lemma keepsTextsBut_onlyPrints {A} f (m : IO A) : onlyPrints m → keepsTextsBut f m.
Proof. intros H e p q _. by destruct (H e p) as [out ->]. Qed.

Lemma keepsTextsBut_docs {A} f (m : IO A) :
  (∀ e p, texts (world (m e p).2) = texts (world p)) → keepsTextsBut f m.
Proof. intros H e p q _. by rewrite H. Qed.

Lemma keepsTextsBut_saveConfigAtomic f app g c : keepsTextsBut f (saveConfigAtomic app g c).
Proof.
  apply keepsTextsBut_docs. intros e p. rewrite saveConfigAtomic_cases. cbv zeta.
  by repeat case_match.
Qed.

Lemma keepsTextsBut_createBackupWithMetadata f app c provider :
  keepsTextsBut f (createBackupWithMetadata app c provider).
Proof.
  apply keepsTextsBut_docs. intros e p.
  unfold createBackupWithMetadata, MarshalIndentBackupConfig, timeNow, mbind, IO_bind,
    os.WriteFile, os.Rename, os.Remove, mret, IO_ret. simpl.
  repeat (case_match; simpl in *; simplify_eq; try done).
Qed.

Lemma onlyPrints_validateTokenForProvider app token provider :
  onlyPrints (validateTokenForProvider app token provider).
Proof.
  intros e p. destruct (onlyPrints_validate app token provider e p) as (b & out & H).
  rewrite H. by exists out.
Qed.

Section Texts.

Variables TrimSpace ToLower : string → string.

Lemma keepsTextsBut_promptForToken app :
  keepsTextsBut (tokenFile app) (promptForToken TrimSpace ToLower app).
Proof.
  intros e p q Hq. pose proof (promptForToken_cases TrimSpace ToLower app e p) as H.
  cbv zeta in H.
  repeat (case_match; try done); destruct_and?;
    repeat match goal with H : world _ = world _ |- _ => rewrite H end; try done.
  all: match goal with H : texts _ = _ |- _ => rewrite H end; by rewrite ?lookup_insert_ne.
Qed.

Lemma keepsTextsBut_switchToZAI app :
  keepsTextsBut (tokenFile app) (switchToZAI TrimSpace ToLower app).
Proof.
  unfold switchToZAI, switchToZAI_apply.
  repeat match goal with
    | |- keepsTextsBut _ (mbind _ _) => apply keepsTextsBut_bind
    | |- keepsTextsBut _ (mret _) => apply keepsTextsBut_ret
    | |- keepsTextsBut _ (say _) => apply keepsTextsBut_onlyPrints, onlyPrints_say
    | |- keepsTextsBut _ (loadConfig _ _) =>
        apply keepsTextsBut_onlyPrints, onlyPrints_readOnly, readOnly_loadConfig
    | |- keepsTextsBut _ (hasValidAnthropicBackup _) =>
        apply keepsTextsBut_onlyPrints, onlyPrints_readOnly, readOnly_hasValidAnthropicBackup
    | |- keepsTextsBut _ (validateTokenForProvider _ _ _) =>
        apply keepsTextsBut_onlyPrints, onlyPrints_validateTokenForProvider
    | |- keepsTextsBut _ (saveConfigAtomic _ _ _) => apply keepsTextsBut_saveConfigAtomic
    | |- keepsTextsBut _ (createBackupWithMetadata _ _ _) =>
        apply keepsTextsBut_createBackupWithMetadata
    | |- keepsTextsBut _ (promptForToken _ _ _) => apply keepsTextsBut_promptForToken
    | |- ∀ _, _ => intros ?
    | |- _ => progress cbv zeta
    | |- _ => case_match
    end.
Qed.



(** X8. [switchToZAI] writes to the settings file, the backup slot, their
    [.tmp] siblings and the token file, and to nothing else: every other
    JSON document and every other plain-text file is as it was.  The backup
    slot changes only when the settings loaded as an Anthropic
    configuration and no usable backup was found, in which case it holds
    the fresh backup of that configuration. *)
Theorem switchToZAI_frame (home : string) (e : Environ) (w : World) :
  let app := NewApplication home in
  let w' := after (switchToZAI TrimSpace ToLower app) e w in
  (∀ q, q ≠ settingsFile app → q ≠ settingsFile app +:+ ".tmp" →
        q ≠ backupFile app → q ≠ backupFile app +:+ ".tmp" →
     docs w' !! q = docs w !! q)
  ∧ (∀ q, q ≠ tokenFile app → texts w' !! q = texts w !! q)
  ∧ (docs w' !! backupFile app ≠ docs w !! backupFile app →
     ∃ c, loaded app e w = (c, None)
          ∧ detectProvider c = ProviderAnthropic
          ∧ usable (backupCheck app e w) = None
          ∧ docs w' !! backupFile app = Some (freshBackup e c)).
Proof.
  intros app. pose proof (NewApplication_wellPlaced home) as Hwp. fold app in Hwp.
  clearbody app. cbv zeta. split_and!.
  - rewrite after_run.
    destruct (switchToZAI_outcome TrimSpace ToLower app e (mkProc w [] (input e)) Hwp)
      as [H _]. apply H.
  - intros q Hq. rewrite after_run. by rewrite keepsTextsBut_switchToZAI.
  - intros Hne.
    destruct (switchToZAI_after_backup TrimSpace ToLower app e w Hwp)
      as [H|(c & ? & ? & ? & ? & ?)]; [done|]. by exists c.
Qed.


End Texts.

(** ** The shell files, and the backup of the previous version *)

(** The two loops of [detectShellConfigs] are searches. *)
Lemma firstPresent_run wanted candidates e p :
  firstPresent wanted candidates e p
  = (match List.find (fun c : string * string => wanted c.2 && present e (world p) c.1)
             candidates with
     | Some c => [c.1]
     | None => []
     end, p).
Proof.
  induction candidates as [|[path forShell] rest IH]; [done|]. simpl.
  destruct (wanted forShell); simpl; [|done].
  rewrite bind_run. unfold os.StatTextFile, present.
  destruct (statFails e path); simpl; [done|].
  destruct (texts (world p) !! path); simpl; done.
Qed.

Lemma detectShellConfigs_run app e p :
  detectShellConfigs app e p
  = (let candidates := shellCandidates (getenv e "HOME") in
     match List.find (fun c : string * string =>
                        strings.Contains (getenv e "SHELL") c.2
                        && present e (world p) c.1) candidates with
     | Some c => [c.1]
     | None =>
         match List.find (fun c : string * string => present e (world p) c.1) candidates with
         | Some c => [c.1]
         | None => []
         end
     end, p).
Proof.
  unfold detectShellConfigs. rewrite !bind_run. unfold os.Getenv. cbn [fst snd].
  rewrite firstPresent_run. cbn [fst snd]. cbv zeta.
  generalize (shellCandidates (getenv e "HOME")). intros cands.
  destruct (List.find (λ c, strings.Contains _ _ && _) cands) as [c|]; [done|].
  cbn [length Nat.eqb]. by rewrite firstPresent_run.
Qed.

(** X22. The result of [detectShellConfigs]: it changes nothing and
    returns at most one path; a path returned is one of the four candidates
    and its file is there; the result is empty exactly when no candidate file
    is there; and the first candidate of the current shell whose file is
    there is returned before any other. *)
Theorem detectShellConfigs_result (app : Application) (e : Environ) (p : Proc) :
  let configs := (detectShellConfigs app e p).1 in
  let candidates := shellCandidates (getenv e "HOME") in
  (detectShellConfigs app e p).2 = p
  ∧ length configs ≤ 1
  ∧ (∀ path, path ∈ configs → path ∈ candidates.*1 ∧ present e (world p) path = true)
  ∧ (configs = [] ↔ ∀ path, path ∈ candidates.*1 → present e (world p) path = false)
  ∧ (∀ c, List.find (fun c : string * string =>
                       strings.Contains (getenv e "SHELL") c.2
                       && present e (world p) c.1) candidates = Some c →
          configs = [c.1]).
Proof.
  cbv zeta. rewrite detectShellConfigs_run. cbv zeta. cbn [fst snd].
  generalize (shellCandidates (getenv e "HOME")). intros cands.
  destruct (List.find (λ c, strings.Contains _ _ && _) cands) as [c|] eqn:Hf.
  - apply find_some in Hf as [Hin Hc]. apply andb_true_iff in Hc as [_ Hc].
    apply list_elem_of_In in Hin.
    split_and!; try done.
    + intros path ->%list_elem_of_singleton. split; [|done].
      apply list_elem_of_fmap. by exists c.
    + split; [done|]. intros H. rewrite H in Hc; [done|].
      apply list_elem_of_fmap. by exists c.
    + by intros ? [= <-].
  - clear Hf. destruct (List.find _ cands) as [c|] eqn:Hg.
    + apply find_some in Hg as [Hin Hc]. apply list_elem_of_In in Hin.
      split_and!; try done.
      * intros path ->%list_elem_of_singleton. split; [|done].
        apply list_elem_of_fmap. by exists c.
      * split; [done|]. intros H. rewrite H in Hc; [done|].
        apply list_elem_of_fmap. by exists c.
    + split_and!; try done; [simpl; lia | by intros ? ?%not_elem_of_nil |].
      split; [|done]. intros _ path (c & -> & Hin)%list_elem_of_fmap.
      apply list_elem_of_In in Hin.
      by apply (find_none _ _ Hg c).
Qed.

(** X23. A backup taken by version 2.0.0 is not usable by version 2.1.0.
    [createBackupAtomic] of 2.0.0 copies the settings file into the backup
    slot; when the settings are a document of [saveConfigAtomic], the check
    of 2.1.0 decodes the copy as a record without a provider, holding the
    mapping the settings read as (the mapping that was saved, when that is
    UTF-8), and returns [false] with no error, so that [switchToAnthropic]
    would restore the empty configuration. *)
Theorem old_backup_is_not_usable (home : string) (e e' : Environ) (w : World) (c : Config) :
  let app := NewApplication home in
  let w' := after (v2_0_0.createBackupAtomic app) e w in
  docs w !! settingsFile app = Some (Document (json.encodeConfig c)) →
  returned (v2_0_0.createBackupAtomic app) e w = None →
  readFails e' (backupFile app) = false →
  docs w' !! backupFile app = docs w !! settingsFile app
  ∧ backupCheck app e' w'
    = (false,
       Some {| Metadata := mkBackupMetadata "" "" "";
               BackupEnv := Env (UnmarshalConfig (Document (json.encodeConfig c))).1 |},
       None)
  ∧ (validMap (Env c) = true →
     backupCheck app e' w'
     = (false, Some {| Metadata := mkBackupMetadata "" "" ""; BackupEnv := Env c |}, None))
  ∧ restoreTarget (backupCheck app e' w') = mkConfig make.
Proof.
  intros app. pose proof (NewApplication_wellPlaced home) as Hwp. fold app in Hwp.
  clearbody app. cbv zeta. intros Hd Hr Hread.
  destruct Hwp as (Hsb & Hst & Hsbt & Hbst & Hbt & Htt).
  assert (docs (after (v2_0_0.createBackupAtomic app) e w) !! backupFile app
          = Some (Document (json.encodeConfig c))) as Hb.
  { revert Hr. rewrite returned_run, after_run. unfold v2_0_0.createBackupAtomic.
    unfold mbind, IO_bind, os.ReadFile, os.WriteFile, os.Rename, os.Remove, mret, IO_ret.
    simpl. destruct (readFails e (settingsFile app)); simpl; [done|].
    rewrite Hd. simpl.
    destruct (writeFails e (backupFile app +:+ ".tmp")); simpl; [done|].
    destruct (renameFails e (backupFile app +:+ ".tmp")); simpl.
    { by repeat case_match. }
    rewrite lookup_insert_eq. simpl. intros _. by rewrite lookup_insert_eq. }
  rewrite Hd. split; [done|].
  rewrite (legacy_document_read app e' _ c Hread Hb). split_and!; try done.
  intros Hc. by rewrite UnmarshalConfig_encodeConfig.
Qed.

(** ** The further properties at sample inputs *)

(** X1 at the Anthropic configuration, saved into an empty directory. *)
Lemma save_then_load_witness :
  (saveConfigAtomic app0 (settingsFile app0) (mkConfig (Some anthropicEnv)) quiet
     (start quiet emptyWorld)).1 = None
  ∧ (loadConfig app0 (settingsFile app0) quiet
       (saveConfigAtomic app0 (settingsFile app0) (mkConfig (Some anthropicEnv)) quiet
          (start quiet emptyWorld)).2).1
    = (Some (mkConfig (Some anthropicEnv)), None).
Proof.
  apply (save_then_load app0 (settingsFile app0) (mkConfig (Some anthropicEnv)) quiet quiet
           (start quiet emptyWorld)); vm_compute; reflexivity.
Defined.

(** X3 at the backup of the Anthropic configuration. *)
Lemma backup_then_check_witness :
  (createBackupWithMetadata app0 (Some (mkConfig (Some anthropicEnv))) ProviderAnthropic quiet
     (start quiet emptyWorld)).1 = None
  ∧ backupCheck app0 quiet
      (world (createBackupWithMetadata app0 (Some (mkConfig (Some anthropicEnv)))
                ProviderAnthropic quiet (start quiet emptyWorld)).2)
    = (true,
       Some {| Metadata := mkBackupMetadata ProviderAnthropic (now quiet) Version;
               BackupEnv := Some anthropicEnv |}, None).
Proof.
  apply (backup_then_check app0 (mkConfig (Some anthropicEnv)) ProviderAnthropic quiet quiet
           (start quiet emptyWorld)); vm_compute; reflexivity.
Defined.

(** X9 at the Z.AI settings over the stamped backup. *)
Lemma restore_is_backup_minus_keys_witness :
  returned (switchToAnthropic app0) quiet zaiWorld = None
  ∧ ∃ g, loaded app0 quiet (after (switchToAnthropic app0) quiet zaiWorld)
         = (Some (mkConfig (Some g)), None)
         ∧ ∀ k, g !! k = if isZAIKey k then None else anthropicEnv !! k.
Proof.
  apply (restore_is_backup_minus_keys home0 quiet zaiWorld
           {| Metadata := mkBackupMetadata ProviderAnthropic "2024-12-24T10:00:00Z" Version;
              BackupEnv := Some anthropicEnv |}); vm_compute; reflexivity.
Defined.

(** X10 from the Anthropic settings, with an exported key. *)
Lemma switchToZAI_twice_witness :
  settingsProvider app0
    (after (switchToZAI asciiTrimSpace asciiToLower app0) withToken anthropicWorld)
  = ProviderZAI
  ∧ returned (switchToZAI asciiTrimSpace asciiToLower app0) withToken
      (after (switchToZAI asciiTrimSpace asciiToLower app0) withToken anthropicWorld) = None
  ∧ after (switchToZAI asciiTrimSpace asciiToLower app0) withToken
      (after (switchToZAI asciiTrimSpace asciiToLower app0) withToken anthropicWorld)
    = after (switchToZAI asciiTrimSpace asciiToLower app0) withToken anthropicWorld
  ∧ printed (switchToZAI asciiTrimSpace asciiToLower app0) withToken
      (after (switchToZAI asciiTrimSpace asciiToLower app0) withToken anthropicWorld)
    = noOpReportZAI.
Proof.
  apply (switchToZAI_twice asciiTrimSpace asciiToLower home0 withToken withToken anthropicWorld);
    vm_compute; reflexivity.
Defined.

(** X11 from the Anthropic settings without a backup. *)
Lemma round_trip_restores_settings_witness :
  returned (switchToAnthropic app0) quiet
    (after (switchToZAI asciiTrimSpace asciiToLower app0) withToken anthropicWorld) = None
  ∧ ∃ g, loaded app0 quiet
           (after (switchToAnthropic app0) quiet
              (after (switchToZAI asciiTrimSpace asciiToLower app0) withToken anthropicWorld))
         = (Some (mkConfig (Some g)), None)
         ∧ ∀ k, g !! k = if isZAIKey k then None else anthropicEnv !! k.
Proof.
  apply (round_trip_restores_settings asciiTrimSpace asciiToLower home0 withToken quiet
           anthropicWorld (Some (mkConfig (Some anthropicEnv)))); vm_compute; reflexivity.
Defined.

(** X12 at the Z.AI settings over the stamped backup. *)
Lemma switchToAnthropic_result_provider_witness :
  (settingsProvider app0 (after (switchToAnthropic app0) quiet zaiWorld) = ProviderAnthropic
   ∨ settingsProvider app0 (after (switchToAnthropic app0) quiet zaiWorld) = ProviderUnknown
     ∧ len (EnvOf (loaded app0 quiet (after (switchToAnthropic app0) quiet zaiWorld)).1) = 0)
  ∧ index (EnvOf (loaded app0 quiet (after (switchToAnthropic app0) quiet zaiWorld)).1)
      "ANTHROPIC_BASE_URL" = ""
  ∧ default ∅ (EnvOf (loaded app0 quiet (after (switchToAnthropic app0) quiet zaiWorld)).1)
      !! "ANTHROPIC_BASE_URL" = None.
Proof.
  destruct (switchToAnthropic_result_provider home0 quiet zaiWorld) as (H1 & H2 & H3);
    [vm_compute; reflexivity|].
  split; [exact H1|]. split; [exact H2|]. apply H3. vm_compute. reflexivity.
Defined.

(** X13 at the Anthropic settings, with a web-shaped key exported. *)
Lemma switchToZAI_succeeds_witness :
  returned (switchToZAI asciiTrimSpace asciiToLower app0) withDottedToken anthropicWorld = None
  ∧ docs (after (switchToZAI asciiTrimSpace asciiToLower app0) withDottedToken anthropicWorld)
      !! settingsFile app0
    = Some (Document (json.encodeConfig (mkConfig (Some (zaiEnv dottedToken)))))
  ∧ loaded app0 quiet
      (after (switchToZAI asciiTrimSpace asciiToLower app0) withDottedToken anthropicWorld)
    = (Some (mkConfig (Some (zaiEnv dottedToken))), None).
Proof.
  destruct (switchToZAI_succeeds asciiTrimSpace asciiToLower home0 withDottedToken
              anthropicWorld (Some (mkConfig (Some anthropicEnv)))) as (H1 & H2 & _ & H4);
    try (vm_compute; reflexivity).
  { vm_compute. discriminate. }
  split; [exact H1|]. split; [exact H2|]. apply H4. vm_compute. reflexivity.
Defined.

(** X15 at the empty input. *)
Lemma promptForToken_input_errors_witness :
  (promptForToken asciiTrimSpace asciiToLower app0 quiet (start quiet emptyWorld)).1
  = ("", Some (wrapError "failed to read token" EOF))
  ∧ world (promptForToken asciiTrimSpace asciiToLower app0 quiet (start quiet emptyWorld)).2
    = emptyWorld.
Proof.
  apply (promptForToken_input_errors asciiTrimSpace asciiToLower app0 quiet
           (start quiet emptyWorld)); vm_compute; reflexivity.
Defined.

(** X16 for the user who types a key and answers [YES]. *)
Lemma promptForToken_saves_on_request_witness :
  (promptForToken asciiTrimSpace asciiToLower app0 savingUser (start savingUser emptyWorld)).1
  = ("sk-typed-key", None)
  ∧ docs (world (promptForToken asciiTrimSpace asciiToLower app0 savingUser
                   (start savingUser emptyWorld)).2) = ∅
  ∧ texts (world (promptForToken asciiTrimSpace asciiToLower app0 savingUser
                    (start savingUser emptyWorld)).2) !! tokenFile app0
    = Some "sk-typed-key".
Proof.
  destruct (promptForToken_saves_on_request asciiTrimSpace asciiToLower app0 savingUser
              (start savingUser emptyWorld) ("  sk-typed-key " +:+ nl) ("YES" +:+ nl))
    as (H1 & H2 & _ & H4); try (vm_compute; reflexivity).
  { vm_compute. discriminate. }
  split; [exact H1|]. split; [exact H2|]. apply H4; vm_compute; reflexivity.
Defined.

(** X17 for the same user, and a second call with nothing typed. *)
Lemma saved_token_is_reused_witness :
  (promptForToken asciiTrimSpace asciiToLower app0 quiet
     (start quiet (after (promptForToken asciiTrimSpace asciiToLower app0) savingUser
                     emptyWorld))).1
  = ("sk-typed-key", None)
  ∧ stdin (promptForToken asciiTrimSpace asciiToLower app0 quiet
             (start quiet (after (promptForToken asciiTrimSpace asciiToLower app0) savingUser
                             emptyWorld))).2
    = "".
Proof.
  apply (saved_token_is_reused asciiTrimSpace asciiToLower app0 savingUser quiet
           (start savingUser emptyWorld)
           (start quiet (after (promptForToken asciiTrimSpace asciiToLower app0) savingUser
                           emptyWorld))
           ("  sk-typed-key " +:+ nl) ("YES" +:+ nl));
    try (vm_compute; reflexivity).
  - vm_compute. discriminate.
  - right. vm_compute. reflexivity.
Defined.

(** X23 at the Anthropic settings. *)
Lemma old_backup_is_not_usable_witness :
  docs (after (v2_0_0.createBackupAtomic app0) quiet anthropicWorld) !! backupFile app0
  = docs anthropicWorld !! settingsFile app0
  ∧ backupCheck app0 quiet (after (v2_0_0.createBackupAtomic app0) quiet anthropicWorld)
    = (false, Some {| Metadata := mkBackupMetadata "" "" ""; BackupEnv := Some anthropicEnv |},
       None)
  ∧ restoreTarget
      (backupCheck app0 quiet (after (v2_0_0.createBackupAtomic app0) quiet anthropicWorld))
    = mkConfig make.
Proof.
  destruct (old_backup_is_not_usable home0 quiet quiet anthropicWorld
              (mkConfig (Some anthropicEnv))) as (H1 & _ & H3 & H4);
    try (vm_compute; reflexivity).
  split; [exact H1|]. split; [|exact H4]. apply H3. vm_compute. reflexivity.
Defined.

